(** * Orchestrator for student submission evaluation: a shallow embedding

    This development embeds [orchestrator/main.py] and verifies the
    properties of its pipeline, duplicate-group resolver, scheduler and
    report aggregator, of the preparation of its tools and of the
    sequence of steps of [main].

    Conventions of the embedding:
    - a Python [str] is the list of its Unicode code points ([list Z]);
    - a [Path] is kept as the string it prints as; joining, [name],
      [parent] and [relpath] are operations of the runtime;
    - a dict used as a map is a [gmap]; a dict whose order of insertion
      matters is the list of its items;
    - the futures of the thread pool are the pairs of a directory and of
      what its task returned or raised; the order in which they complete
      is any permutation of them;
    - code that calls external processes or touches the file system runs in
      a state-and-exception monad over an abstract world [W]; what the
      interpreter and the operating system answer is given by the
      [Runtime] class;
    - logging and progress display have no effect on any returned value and
      are left out, their messages being taken to be formatted without an
      exception; the messages whose formatting is kept are those that call
      [decode] (line 93) and [relative_to] (lines 399 and 468) outside any
      handler of what these raise. Everything else is kept statement by
      statement. *)

From Stdlib Require Import ZArith List Bool Lia String Ascii PrimFloat.
From stdpp Require Import base option list gmap sorting.

Local Open Scope Z_scope.

(** ** Python strings *)

Module Str.

(** A Python [str]: the sequence of its code points. *)
Definition str : Type := list Z.

(** Decoding of a UTF-8 literal of this file into code points, so that the
    literals of the source can be written as they are. *)
Definition byte_of (a : ascii) : Z := Z.of_N (N_of_ascii a).

Definition cont (b : Z) : Z := Z.land b 63.

Fixpoint utf8_decode (fuel : nat) (bs : list Z) : str :=
  match fuel with
  | O => []
  | S fuel =>
    match bs with
    | [] => []
    | b0 :: r0 =>
      if b0 <? 128 then b0 :: utf8_decode fuel r0
      else if b0 <? 224 then
        match r0 with
        | b1 :: r1 =>
          (Z.shiftl (Z.land b0 31) 6 + cont b1) :: utf8_decode fuel r1
        | _ => []
        end
      else if b0 <? 240 then
        match r0 with
        | b1 :: b2 :: r2 =>
          (Z.shiftl (Z.land b0 15) 12 + Z.shiftl (cont b1) 6 + cont b2)
            :: utf8_decode fuel r2
        | _ => []
        end
      else
        match r0 with
        | b1 :: b2 :: b3 :: r3 =>
          (Z.shiftl (Z.land b0 7) 18 + Z.shiftl (cont b1) 12
             + Z.shiftl (cont b2) 6 + cont b3) :: utf8_decode fuel r3
        | _ => []
        end
    end
  end.

Definition lit (s : string) : str :=
  let bs := map byte_of (list_ascii_of_string s) in
  utf8_decode (length bs) bs.

(** [a == b] on strings. *)
Definition eqb (a b : str) : bool := bool_decide (a = b).

(** [s.startswith(p)]; on success the rest of [s] after [p] is returned. *)
Fixpoint strip_prefix (p s : str) : option str :=
  match p with
  | [] => Some s
  | c :: p' =>
    match s with
    | [] => None
    | d :: s' => if c =? d then strip_prefix p' s' else None
    end
  end.

Definition startswith (s p : str) : bool :=
  match strip_prefix p s with Some _ => true | None => false end.

(** [p in s]: [p] occurs in [s] as a contiguous substring. *)
Fixpoint contains (p s : str) : bool :=
  startswith s p ||
  match s with
  | [] => false
  | _ :: s' => contains p s'
  end.

(** [str.isspace] of one character, as CPython's [_PyUnicode_IsWhitespace]:
    the characters of bidirectional class WS, B or S, or of category Zs. *)
Definition isspace (c : Z) : bool :=
  ((9 <=? c) && (c <=? 13)) || ((28 <=? c) && (c <=? 32))
  || (c =? 133) || (c =? 160) || (c =? 5760)
  || ((8192 <=? c) && (c <=? 8202))
  || (c =? 8232) || (c =? 8233) || (c =? 8239) || (c =? 8287)
  || (c =? 12288).

Fixpoint lstrip (s : str) : str :=
  match s with
  | [] => []
  | c :: s' => if isspace c then lstrip s' else s
  end.

(** [s.strip()] *)
Definition strip (s : str) : str := rev (lstrip (rev (lstrip s))).

(** [s.split(sep)] for a one-character separator: never the empty list;
    the empty string splits into one empty field. *)
Fixpoint split (sep : Z) (s : str) : list str :=
  match s with
  | [] => [[]]
  | c :: s' =>
    if c =? sep then [] :: split sep s'
    else match split sep s' with
         | l :: ls => (c :: l) :: ls
         | [] => [[c]]
         end
  end.

(** Longest prefix of [s] whose characters all satisfy [p], and the rest. *)
Fixpoint span (p : Z -> bool) (s : str) : str * str :=
  match s with
  | [] => ([], [])
  | c :: s' =>
    if p c then let '(a, b) := span p s' in (c :: a, b) else ([], s)
  end.

(** [a < b] on strings: lexicographic on code points. *)
Fixpoint ltb (a b : str) : bool :=
  match a, b with
  | _, [] => false
  | [], _ :: _ => true
  | x :: a', y :: b' =>
    if x <? y then true else if y <? x then false else ltb a' b'
  end.

(** [chr(i)]: defined on [0 .. 0x10FFFF], a [ValueError] elsewhere
    ([None]). *)
Definition chr (i : Z) : option str :=
  if (0 <=? i) && (i <=? 1114111) then Some [i] else None.

(** [str(n)] of an [int]: its decimal digits, with a minus sign when
    negative. *)
Fixpoint digits_of (fuel : nat) (n : Z) (acc : str) : str :=
  match fuel with
  | O => acc
  | S fuel =>
    let acc := (48 + n mod 10) :: acc in
    if n <? 10 then acc else digits_of fuel (n / 10) acc
  end.

Definition of_Z (n : Z) : str :=
  if n <? 0 then 45 :: digits_of (Z.to_nat (Z.log2 (- n)) + 1) (- n) []
  else digits_of (Z.to_nat (Z.log2 n) + 1) n [].

End Str.

Abbreviation str := Str.str.
Abbreviation Path := Str.str (only parsing).

(** ** Values, exceptions and results *)

(** The exceptions, all subclasses of [Exception], that the library calls of
    the program can raise. [OSError] is an error of the operating system
    of no more specific class (errno 36, a name too long, for instance);
    [OtherException] stands for any further class, one that no [except]
    clause of the program names or covers. *)
Inductive Exn :=
| FileNotFoundError
| PermissionError
| OSError (errno : Z)
| CalledProcessError (returncode : Z) (output stderr : str)
| JSONDecodeError
| UnicodeDecodeError
| AttributeError
| ValueError
| OtherException (name : str).

Inductive Result (A : Type) :=
| Ok (a : A)
| Raise (e : Exn).
Arguments Ok {A} a.
Arguments Raise {A} e.

(** [subprocess.CompletedProcess] *)
Record CompletedProcess := {
  args : list str;
  returncode : Z;
  stdout : str;
  stderr : str
}.

(** What [subprocess.run] gets when a child process is spawned and waited
    for: it ran and exited with its captured streams decoded, or the call
    raised before there was a result, because the launch failed
    ([FileNotFoundError], [PermissionError], ...) or because a captured
    stream could not be decoded ([UnicodeDecodeError]). *)
Inductive SpawnOutcome :=
| Exited (code : Z) (out err : str)
| LaunchRaised (e : Exn).

(** A value produced by [json.load]. A dict is kept as the list of its
    items; [json.load] leaves no duplicate keys in it. *)
#[warnings="-register-all"]
Inductive JSON :=
| JNull
| JBool (b : bool)
| JInt (n : Z)
| JFloat (f : float)
| JStr (s : str)
| JList (l : list JSON)
| JDict (items : list (str * JSON)).

(** A report cell: the score column holds an [int] or a [str]. *)
Inductive Cell :=
| CStr (s : str)
| CInt (n : Z).

(** ** The interpreter and the operating system *)

Class Runtime (W : Type) := {
  (** [unicodedata.decimal]: the value of a character of category Nd, which
      is what the pattern [\d] matches and what [int] reads. *)
  unicode_decimal : Z -> option Z;
  (** [sys.get_int_max_str_digits()], [0] when there is no limit. *)
  int_max_str_digits : nat;
  sys_executable : str;
  sys_platform : str;
  (** [pathlib]: [p / s], [p.name], [p.parent]. *)
  joinpath : Path -> str -> Path;
  path_name : Path -> str;
  path_parent : Path -> Path;
  (** [os.path.relpath(p, start)]: on [win32] it raises [ValueError] when
      the two paths are on different drives. *)
  relpath : Path -> Path -> Result str;
  (** [p.exists()], as [pathlib] of Python 3.11 has it: [False] when
      [stat] fails with [ENOENT], [ENOTDIR], [EBADF] or [ELOOP]; any other
      [OSError] of [stat] is raised again ([PermissionError] for a
      directory that cannot be searched, errno 36 for a name too long). *)
  path_exists : Path -> W -> Result bool;
  (** [p.mkdir(exist_ok=True)] *)
  mkdir_exist_ok : Path -> W -> Result unit * W;
  (** Spawning [command] in [cwd] with the streams captured and decoded
      ([encoding]), waiting for its exit. *)
  spawn : list str -> option Path -> option str -> W -> SpawnOutcome * W;
  (** [json.load] of the opened file. *)
  json_load : Path -> W -> Result JSON
}.

(** ** String constants of the source *)

Module K.
Definition OK : str := Eval vm_compute in Str.lit "OK".
Definition NOT_CHECKED : str := Eval vm_compute in Str.lit "NOT_CHECKED".
Definition NOT_ANALYZED : str := Eval vm_compute in Str.lit "NOT_ANALYZED".
Definition DECRYPT_FAILED : str := Eval vm_compute in Str.lit "DECRYPT_FAILED".
Definition RESTORE_FAILED : str := Eval vm_compute in Str.lit "RESTORE_FAILED".
Definition FILE_MISSING : str := Eval vm_compute in Str.lit "FILE_MISSING".
Definition DIFFERENT : str := Eval vm_compute in Str.lit "DIFFERENT".
Definition CHECK_FAILED : str := Eval vm_compute in Str.lit "CHECK_FAILED".
Definition ANALYZER_MISSING : str := Eval vm_compute in Str.lit "ANALYZER_MISSING".
Definition SCORE_NOT_FOUND : str := Eval vm_compute in Str.lit "SCORE_NOT_FOUND".
Definition ANALYSIS_FAILED : str := Eval vm_compute in Str.lit "ANALYSIS_FAILED".
Definition FILE_NOT_FOUND : str := Eval vm_compute in Str.lit "FILE_NOT_FOUND".
Definition KEY_OR_TYPE_INVALID : str := Eval vm_compute in Str.lit "KEY_OR_TYPE_INVALID".
Definition JSON_DECODE_ERROR : str := Eval vm_compute in Str.lit "JSON_DECODE_ERROR".
Definition UNKNOWN_PARSING_ERROR : str := Eval vm_compute in Str.lit "UNKNOWN_PARSING_ERROR".
Definition UNIQUE : str := Eval vm_compute in Str.lit "UNIQUE".
Definition PIPELINE_CRASH : str := Eval vm_compute in Str.lit "PIPELINE_CRASH".
Definition NA : str := Eval vm_compute in Str.lit "N/A".
(** The empty string, [''] at line 420. *)
Definition empty : str := [].
(** The marker the diff script prints for identical files. *)
Definition identical_marker : str :=
  Eval vm_compute in Str.lit "✅ 파일이 실질적으로 동일합니다".
(** The literal parts of the score pattern, before and after [(\d+)]. *)
Definition score_prefix : str :=
  Eval vm_compute in Str.lit "⏺︎ 최종 앙상블 점수: ".
Definition score_suffix : str := Eval vm_compute in Str.lit " / 100".
Definition student_prefix : str := Eval vm_compute in Str.lit "student-".
Definition dashes : str := Eval vm_compute in Str.lit "---".
Definition spaced_dash : str := Eval vm_compute in Str.lit " - ".
Definition poetry : str := Eval vm_compute in Str.lit "poetry".
Definition env : str := Eval vm_compute in Str.lit "env".
Definition info : str := Eval vm_compute in Str.lit "info".
Definition dash_p : str := Eval vm_compute in Str.lit "-p".
Definition dash_m : str := Eval vm_compute in Str.lit "-m".
Definition dashdash : str := Eval vm_compute in Str.lit "--".
Definition win32 : str := Eval vm_compute in Str.lit "win32".
Definition Scripts : str := Eval vm_compute in Str.lit "Scripts".
Definition python_exe : str := Eval vm_compute in Str.lit "python.exe".
Definition bin : str := Eval vm_compute in Str.lit "bin".
Definition python : str := Eval vm_compute in Str.lit "python".
Definition utf_8 : str := Eval vm_compute in Str.lit "utf-8".
Definition mission_decoder_main : str :=
  Eval vm_compute in Str.lit "mission_decoder.main".
Definition mission_restore_main : str :=
  Eval vm_compute in Str.lit "mission_restore.main".
Definition logfile : str := Eval vm_compute in Str.lit "logfile".
Definition duration : str := Eval vm_compute in Str.lit "duration".
Definition html_output : str := Eval vm_compute in Str.lit "html-output".
Definition root_folder : str := Eval vm_compute in Str.lit "root-folder".
Definition file_filter : str := Eval vm_compute in Str.lit "file-filter".
Definition location_info : str := Eval vm_compute in Str.lit "location_info".
Definition city : str := Eval vm_compute in Str.lit "city".
End K.

(** ** Configuration and records *)

(** [config.json], read with fixed keys; a record stands for a file that has
    them all. *)
Record StudentFileStructure := {
  original_main_py : str;
  log_dir : str;
  log_encrypted : str;
  signature_encrypted : str
}.

Record OutputFiles := {
  log_decrypted : str;
  signature_decrypted : str;
  log_restored : str;
  inspection_report_html : str;
  report_csv : str
}.

Record Directories := {
  student_submission : str;
  tools : str;
  output_base : str;
  processed_outputs : str;
  report : str
}.

Record Config := {
  directories : Directories;
  student_file_structure : StudentFileStructure;
  output_files : OutputFiles
}.

(** The [paths] dict built by [main], lines 385-391. *)
Record Paths := {
  root_dir : Path;
  processed_base_dir : Path;
  decoder_project_path : Path;
  restore_project_path : Path;
  private_key_path : Path;
  diff_script_path : Path;
  inspector_exe_path : Path;
  duplicate_finder_exe_path : Path
}.

(** [argparse.Namespace] of the command line: [--duration], an [int]. *)
Record CliArgs := { duration : Z }.

(** One row of the report: the dict returned at lines 333-337. *)
Record Row := {
  student_id : str;
  status : str;
  duplication_group : str;
  process_analysis_score : Cell;
  location : str
}.

(** ** The monad of the program: world passing with exceptions *)

Section Program.

Context {W : Type} `{RT : Runtime W}.

Definition M (A : Type) : Type := W -> Result A * W.

Definition ret {A} (a : A) : M A := fun w => (Ok a, w).

Definition raise {A} (e : Exn) : M A := fun w => (Raise e, w).

Definition bind {A B} (m : M A) (k : A -> M B) : M B :=
  fun w =>
    match m w with
    | (Ok a, w') => k a w'
    | (Raise e, w') => (Raise e, w')
    end.

(** [try: m  except <classes>: handler]; [handles e] tells whether one of
    the [except] clauses matches [e]. The world keeps what [m] did before
    it raised. *)
Definition try_except {A} (m : M A) (handler : Exn -> option (M A)) : M A :=
  fun w =>
    match m w with
    | (Ok a, w') => (Ok a, w')
    | (Raise e, w') =>
      match handler e with
      | Some h => h w'
      | None => (Raise e, w')
      end
    end.

(** Reading the world without changing it. *)
Definition gets {A} (f : W -> A) : M A := fun w => (Ok (f w), w).

(** The outcome of a call that only reads the world. *)
Definition reads {A} (f : W -> Result A) : M A := fun w => (f w, w).

(** The outcome of a call that does not depend on the world. *)
Definition lift {A} (r : Result A) : M A := fun w => (r, w).

Notation "'do' x <- m ; k" := (bind m (fun x => k))
  (at level 10, x name, m at level 100, k at level 200).
Notation "'run' m ; k" := (bind m (fun _ => k))
  (at level 10, m at level 100, k at level 200).

(** ** Helper functions *)

(** [subprocess.run(command, check=True, capture_output=True, text=True,
    cwd=cwd, encoding=encoding)]: the completed process when the exit status
    is zero, [CalledProcessError] when it is not, and whatever the launch
    raised otherwise. *)
Definition subprocess_run (command : list str) (cwd : option Path)
    (encoding : option str) : M CompletedProcess :=
  fun w =>
    match spawn command cwd encoding w with
    | (Exited code out err, w') =>
      if code =? 0
      then (Ok {| args := command; returncode := code;
                  stdout := out; stderr := err |}, w')
      else (Raise (CalledProcessError code out err), w')
    | (LaunchRaised e, w') => (Raise e, w')
    end.

(** [run_poetry_project], lines 96-140. *)
Definition run_poetry_project (project_path : Path) (module_name : str)
    (args : list str) : M bool :=
  try_except
    (do venv_path_result <-
       subprocess_run [K.poetry; K.env; K.info; K.dash_p]
         (Some project_path) None ;
     let venv_path : Path := Str.strip (stdout venv_path_result) in
     let python_executable :=
       if Str.eqb sys_platform K.win32
       then joinpath (joinpath venv_path K.Scripts) K.python_exe
       else joinpath (joinpath venv_path K.bin) K.python in
     do found <- reads (path_exists python_executable) ;
     if negb found then ret false
     else
       let command := [python_executable; K.dash_m; module_name] ++ args in
       run subprocess_run command (Some project_path) None ;
       ret true)
    (fun e =>
       match e with
       | FileNotFoundError | CalledProcessError _ _ _ => Some (ret false)
       | _ => None
       end).

(** [run_plain_python_script], lines 144-166. *)
Definition run_plain_python_script (script_path : Path) (args : list str)
    : M (option CompletedProcess) :=
  let command := [sys_executable; script_path] ++ args in
  try_except
    (do result <- subprocess_run command None None ;
     ret (Some result))
    (fun e =>
       match e with
       | CalledProcessError _ _ _ => Some (ret None)
       | _ => None
       end).

(** The command line built at lines 177-182. [named_args] is the dict in
    its insertion order. *)
Definition executable_command (executable_path : Path)
    (positional_args : list str) (named_args : list (str * str)) : list str :=
  let pos_args := positional_args in
  let named_args_list :=
    flat_map (fun '(key, value) => [K.dashdash ++ key; value]) named_args in
  [executable_path] ++ named_args_list ++ pos_args.

(** [run_executable], lines 168-208. *)
Definition run_executable (executable_path : Path)
    (positional_args : list str) (named_args : list (str * str))
    : M (option CompletedProcess) :=
  let command :=
    executable_command executable_path positional_args named_args in
  let execution_directory := path_parent executable_path in
  try_except
    (do result <-
       subprocess_run command (Some execution_directory) (Some K.utf_8) ;
     ret (Some result))
    (fun e =>
       match e with
       | FileNotFoundError => Some (ret None)
       | CalledProcessError _ _ _ => Some (ret None)
       | _ => None
       end).

(** Truth value of a JSON value, as [bool(v)]. *)
Definition truthy (v : JSON) : bool :=
  match v with
  | JNull => false
  | JBool b => b
  | JInt n => negb (n =? 0)
  | JFloat f => negb (PrimFloat.eqb f PrimFloat.zero)
  | JStr s => negb (Str.eqb s [])
  | JList l => match l with [] => false | _ => true end
  | JDict items => match items with [] => false | _ => true end
  end.

(** [d.get(key, default)] on the items of a dict. *)
Fixpoint dict_get (key : str) (items : list (str * JSON)) (default : JSON)
    : JSON :=
  match items with
  | [] => default
  | (k, v) :: rest => if Str.eqb k key then v else dict_get key rest default
  end.

(** [v.get(key, default)]: only a dict has the method. *)
Definition py_get (v : JSON) (key : str) (default : JSON) : M JSON :=
  match v with
  | JDict items => ret (dict_get key items default)
  | _ => raise AttributeError
  end.

(** [isinstance(v, str)] and the string a [str] value holds. *)
Definition isinstance_str (v : JSON) : bool :=
  match v with JStr _ => true | _ => false end.

Definition str_value (v : JSON) : str :=
  match v with JStr s => s | _ => [] end.

(** [parse_signature_file], lines 210-232. *)
Definition parse_signature_file (filepath : Path) : M str :=
  do found <- reads (path_exists filepath) ;
  if negb found then ret K.FILE_NOT_FOUND
  else
    try_except
      (do data <- reads (json_load filepath) ;
       do location_info <- py_get data K.location_info (JDict []) ;
       do city <- py_get location_info K.city JNull ;
       if truthy city && isinstance_str city then ret (str_value city)
       else ret K.KEY_OR_TYPE_INVALID)
      (fun e =>
         match e with
         | JSONDecodeError => Some (ret K.JSON_DECODE_ERROR)
         | _ => Some (ret K.UNKNOWN_PARSING_ERROR)
         end).

(** ** The score pattern and [int] *)

(** [\d]: a character with a decimal value. *)
Definition is_digit (c : Z) : bool :=
  match unicode_decimal c with Some _ => true | None => false end.

(** A match of [score_pattern] that starts at the head of [s]; the result is
    group 1. The greedy [\d+] takes the longest run of digits: giving one
    back would leave a digit where the pattern wants a space. *)
Definition match_score_at (s : str) : option str :=
  match Str.strip_prefix K.score_prefix s with
  | Some rest =>
    let '(digits, rest') := Str.span is_digit rest in
    match digits with
    | [] => None
    | _ :: _ =>
      match Str.strip_prefix K.score_suffix rest' with
      | Some _ => Some digits
      | None => None
      end
    end
  | None => None
  end.

(** [score_pattern.search(s)]: the leftmost match. *)
Fixpoint score_pattern_search (s : str) : option str :=
  match match_score_at s with
  | Some g => Some g
  | None =>
    match s with
    | [] => None
    | _ :: s' => score_pattern_search s'
    end
  end.

(** The number a run of decimal digits writes. *)
Definition decimal_value (digits : str) : Z :=
  fold_left (fun acc c => 10 * acc + default 0 (unicode_decimal c)) digits 0.

(** [int(digits)] of a non-empty run of decimal digits: a [ValueError] when
    the run is longer than the limit of the interpreter. *)
Definition py_int (digits : str) : M Z :=
  if negb (int_max_str_digits =? 0)%nat
     && (int_max_str_digits <? length digits)%nat
  then raise ValueError
  else ret (decimal_value digits).

(** [str(n)] of an [int]: a [ValueError] when [n] has more decimal digits
    than the limit of the interpreter. *)
Definition py_str (n : Z) : Result str :=
  if negb (int_max_str_digits =? 0)%nat
     && (int_max_str_digits <? length (Str.of_Z (Z.abs n)))%nat
  then Raise ValueError
  else Ok (Str.of_Z n).

(** The values of [analysis_score] that are no number. *)
Definition score_sentinels : list Cell :=
  [CStr K.NOT_ANALYZED; CStr K.ANALYZER_MISSING; CStr K.FILE_MISSING;
   CStr K.SCORE_NOT_FOUND; CStr K.ANALYSIS_FAILED].

(** ** Paths *)

(** [[os.path.relpath(p, start=start) for p in ps]]: the comprehension
    stops at the first call that raises. *)
Fixpoint relpaths (ps : list Path) (start : Path) : Result (list str) :=
  match ps with
  | [] => Ok []
  | p :: rest =>
    match relpath p start with
    | Ok r =>
      match relpaths rest start with
      | Ok rs => Ok (r :: rs)
      | Raise e => Raise e
      end
    | Raise e => Raise e
    end
  end.

(** [not p.exists()] *)
Definition not_exists (p : Path) : M bool :=
  do found <- reads (path_exists p) ;
  ret (negb found).

(** [a or b]: [b] is evaluated only when [a] is false. *)
Definition or_else (a b : M bool) : M bool :=
  do x <- a ;
  if x then ret true else b.


(** ** The item pipeline *)

Section Pipeline.

Variables (paths : Paths) (config : Config) (cli_args : CliArgs).
Variable duplication_map : gmap str str.

(** The arguments handed to the decoder for one file, line 279: the list
    comprehension stops at the first [relpath] that raises. *)
Definition decoder_args (input_path output_path : Path)
    : Result (list str) :=
  relpaths [input_path; private_key_path paths; output_path]
    (decoder_project_path paths).

(** The arguments handed to the restorer, line 290. *)
Definition restore_args (log_decrypted_path_abs log_restored_path_abs : Path)
    : Result (list str) :=
  relpaths [log_decrypted_path_abs; log_restored_path_abs]
    (restore_project_path paths).

(** The loop of step A, lines 275-281: [true] is [decryption_ok]. *)
Fixpoint decrypt_files (files_to_decrypt : list (Path * Path)) : M bool :=
  match files_to_decrypt with
  | [] => ret true
  | (input_path, output_path) :: rest =>
    do found <- reads (path_exists input_path) ;
    if negb found then decrypt_files rest
    else
      do decoder_args <- lift (decoder_args input_path output_path) ;
      do ok <- run_poetry_project (decoder_project_path paths)
                 K.mission_decoder_main decoder_args ;
      if negb ok then ret false else decrypt_files rest
  end.

(** Step B, lines 286-291, from the current [pipeline_status]. *)
Definition step_restore (pipeline_status : str)
    (log_decrypted_path_abs log_restored_path_abs : Path) : M str :=
  if Str.eqb pipeline_status K.OK then
    do found <- reads (path_exists log_decrypted_path_abs) ;
    if negb found then ret K.RESTORE_FAILED
    else
      do restore_args <-
        lift (restore_args log_decrypted_path_abs log_restored_path_abs) ;
      do ok <- run_poetry_project (restore_project_path paths)
                 K.mission_restore_main restore_args ;
      if negb ok then ret K.RESTORE_FAILED else ret pipeline_status
  else ret pipeline_status.

(** Step C, lines 294-303: the new [comparison_result]. The second
    existence check of line 296 is made only when the first file exists. *)
Definition step_compare (pipeline_status comparison_result : str)
    (original_main_py_path log_restored_path_abs : Path) : M str :=
  if Str.eqb pipeline_status K.OK then
    do missing <-
      or_else (not_exists original_main_py_path)
        (not_exists log_restored_path_abs) ;
    if missing then ret K.FILE_MISSING
    else
      let diff_args := [original_main_py_path; log_restored_path_abs] in
      do diff_result <-
        run_plain_python_script (diff_script_path paths) diff_args ;
      match diff_result with
      | Some r =>
        if Str.contains K.identical_marker (stdout r) then ret K.OK
        else ret K.DIFFERENT
      | None => ret K.CHECK_FAILED
      end
  else ret comparison_result.

(** The dict of lines 312-316, in its insertion order; its values are
    computed in that order too. *)
Definition inspector_named_args
    (student_output_dir_abs log_decrypted_path_abs : Path)
    : Result (list (str * str)) :=
  let html_report_path_abs :=
    joinpath student_output_dir_abs
      (inspection_report_html (output_files config)) in
  match relpath log_decrypted_path_abs
          (path_parent (inspector_exe_path paths)) with
  | Ok logfile =>
    match py_str (duration cli_args) with
    | Ok duration_str =>
      match relpath html_report_path_abs
              (path_parent (inspector_exe_path paths)) with
      | Ok html_output =>
        Ok [(K.logfile, logfile);
            (K.duration, duration_str);
            (K.html_output, html_output)]
      | Raise e => Raise e
      end
    | Raise e => Raise e
    end
  | Raise e => Raise e
  end.

(** Step D, lines 306-322: the new [analysis_score]. *)
Definition step_analyze (pipeline_status : str) (analysis_score : Cell)
    (student_output_dir_abs log_decrypted_path_abs : Path) : M Cell :=
  if Str.eqb pipeline_status K.OK then
    do found_inspector <- reads (path_exists (inspector_exe_path paths)) ;
    if negb found_inspector then ret (CStr K.ANALYZER_MISSING)
    else
      do found_log <- reads (path_exists log_decrypted_path_abs) ;
      if negb found_log then ret (CStr K.FILE_MISSING)
      else
        do inspector_named_args <-
          lift (inspector_named_args student_output_dir_abs
                  log_decrypted_path_abs) ;
        do inspector_result <-
          run_executable (inspector_exe_path paths) []
            inspector_named_args ;
        match inspector_result with
        | Some r =>
          match score_pattern_search (stdout r) with
          | Some group1 => do n <- py_int group1 ; ret (CInt n)
          | None => ret (CStr K.SCORE_NOT_FOUND)
          end
        | None => ret (CStr K.ANALYSIS_FAILED)
        end
  else ret analysis_score.

(** The local variables of [process_student_submission] after step D. *)
Record Locals := {
  pipeline_status : str;
  comparison_result : str;
  analysis_score : Cell
}.

(** The paths assembled at lines 258-269 and 273, by the name of the
    variable that holds them. *)
Definition student_output_dir_abs (student_dir : Path) : Path :=
  joinpath (processed_base_dir paths) (path_name student_dir).

Definition original_main_py_path (student_dir : Path) : Path :=
  joinpath student_dir (original_main_py (student_file_structure config)).

Definition log_dir_abs (student_dir : Path) : Path :=
  joinpath student_dir (log_dir (student_file_structure config)).

Definition log_encrypted_path_abs (student_dir : Path) : Path :=
  joinpath (log_dir_abs student_dir)
    (log_encrypted (student_file_structure config)).

Definition signature_encrypted_path_abs (student_dir : Path) : Path :=
  joinpath (log_dir_abs student_dir)
    (signature_encrypted (student_file_structure config)).

Definition log_decrypted_path_abs (student_dir : Path) : Path :=
  joinpath (student_output_dir_abs student_dir)
    (log_decrypted (output_files config)).

Definition signature_decrypted_path_abs (student_dir : Path) : Path :=
  joinpath (student_output_dir_abs student_dir)
    (signature_decrypted (output_files config)).

Definition log_restored_path_abs (student_dir : Path) : Path :=
  joinpath (student_output_dir_abs student_dir)
    (log_restored (output_files config)).

Definition files_to_decrypt (student_dir : Path) : list (Path * Path) :=
  [(log_encrypted_path_abs student_dir, log_decrypted_path_abs student_dir);
   (signature_encrypted_path_abs student_dir,
    signature_decrypted_path_abs student_dir)].

(** Lines 249-322: the steps A to D in sequence. *)
Definition run_stages (student_dir : Path) : M Locals :=
  let pipeline_status := K.OK in
  let comparison_result := K.NOT_CHECKED in
  let analysis_score := CStr K.NOT_ANALYZED in
  run (mkdir_exist_ok (student_output_dir_abs student_dir) : M unit) ;
  do decryption_ok <- decrypt_files (files_to_decrypt student_dir) ;
  let pipeline_status :=
    if negb decryption_ok then K.DECRYPT_FAILED else pipeline_status in
  do pipeline_status <-
    step_restore pipeline_status (log_decrypted_path_abs student_dir)
      (log_restored_path_abs student_dir) ;
  do comparison_result <-
    step_compare pipeline_status comparison_result
      (original_main_py_path student_dir)
      (log_restored_path_abs student_dir) ;
  do analysis_score <-
    step_analyze pipeline_status analysis_score
      (student_output_dir_abs student_dir)
      (log_decrypted_path_abs student_dir) ;
  ret {| pipeline_status := pipeline_status;
         comparison_result := comparison_result;
         analysis_score := analysis_score |}.

(** Line 327. *)
Definition final_status (l : Locals) : str :=
  if Str.eqb (pipeline_status l) K.OK then comparison_result l
  else pipeline_status l.

(** [process_student_submission], lines 237-337. *)
Definition process_student_submission (student_dir : Path) : M Row :=
  let student_id := path_name student_dir in
  do l <- run_stages student_dir ;
  do location_info <-
    parse_signature_file (signature_decrypted_path_abs student_dir) ;
  let duplication_group :=
    default K.UNIQUE (duplication_map !! student_id) in
  ret {| student_id := student_id;
         status := final_status l;
         duplication_group := duplication_group;
         process_analysis_score := analysis_score l;
         location := location_info |}.

(** *** Vocabulary of the statements about the pipeline *)

(** The run from world [w] gets to step C with [pipeline_status] still
    ["OK"], in world [w2]: the output directory was made, no decryption
    failed and the restoration succeeded. *)
Definition reaches_compare (student_dir : Path) (w w2 : W) : Prop :=
  exists w0 w1,
    mkdir_exist_ok (student_output_dir_abs student_dir) w = (Ok tt, w0)
    /\ decrypt_files (files_to_decrypt student_dir) w0 = (Ok true, w1)
    /\ step_restore K.OK (log_decrypted_path_abs student_dir)
         (log_restored_path_abs student_dir) w1 = (Ok K.OK, w2).

(** The command line of the diff script, lines 149 and 299. *)
Definition diff_command (student_dir : Path) : list str :=
  [sys_executable; diff_script_path paths]
    ++ [original_main_py_path student_dir; log_restored_path_abs student_dir].

(** The four situations of step C in world [w2], with the result each one
    is to give and the world it leaves. A file is missing when its
    existence check returns [False]; the restored file is looked for only
    once the original one was found. *)
Inductive compare_case (student_dir : Path) (w2 : W) : str -> W -> Prop :=
| compare_file_missing :
    path_exists (original_main_py_path student_dir) w2 = Ok false
    \/ (path_exists (original_main_py_path student_dir) w2 = Ok true
        /\ path_exists (log_restored_path_abs student_dir) w2 = Ok false) ->
    compare_case student_dir w2 K.FILE_MISSING w2
| compare_identical out err w3 :
    path_exists (original_main_py_path student_dir) w2 = Ok true ->
    path_exists (log_restored_path_abs student_dir) w2 = Ok true ->
    spawn (diff_command student_dir) None None w2 = (Exited 0 out err, w3) ->
    Str.contains K.identical_marker out = true ->
    compare_case student_dir w2 K.OK w3
| compare_different out err w3 :
    path_exists (original_main_py_path student_dir) w2 = Ok true ->
    path_exists (log_restored_path_abs student_dir) w2 = Ok true ->
    spawn (diff_command student_dir) None None w2 = (Exited 0 out err, w3) ->
    Str.contains K.identical_marker out = false ->
    compare_case student_dir w2 K.DIFFERENT w3
| compare_failed code out err w3 :
    path_exists (original_main_py_path student_dir) w2 = Ok true ->
    path_exists (log_restored_path_abs student_dir) w2 = Ok true ->
    spawn (diff_command student_dir) None None w2
      = (Exited code out err, w3) ->
    code <> 0 ->
    compare_case student_dir w2 K.CHECK_FAILED w3.

End Pipeline.

(** ** The duplicate group resolver *)

(** The class [[\\/]] of the identifier pattern. *)
Definition is_sep (c : Z) : bool := (c =? 92) || (c =? 47).

(** A match of [student_id_pattern] that starts at the head of [line]:
    the escaped directory name, one separator, then group 1, which is
    [student-] followed by the longest non-empty run of characters that
    are no separator. *)
Definition match_student_id_at (submission_dir line : str) : option str :=
  match Str.strip_prefix submission_dir line with
  | Some (c :: rest) =>
    if is_sep c then
      match Str.strip_prefix K.student_prefix rest with
      | Some rest' =>
        match Str.span (fun c => negb (is_sep c)) rest' with
        | ([], _) => None
        | (name, _) => Some (K.student_prefix ++ name)
        end
      | None => None
      end
    else None
  | _ => None
  end.

(** [student_id_pattern.search(line)]: group 1 of the leftmost match. *)
Fixpoint student_id_search (submission_dir line : str) : option str :=
  match match_student_id_at submission_dir line with
  | Some g => Some g
  | None =>
    match line with
    | [] => None
    | _ :: line' => student_id_search submission_dir line'
    end
  end.

(** The variables of the loop of lines 420-428. *)
Record DupState := {
  group_counter : Z;
  current_group_id : str;
  dup_map : gmap str str
}.

Definition dup_init (m : gmap str str) : DupState :=
  {| group_counter := 0; current_group_id := K.empty; dup_map := m |}.

(** The body of the loop for one line, lines 424-428. [ord('A')] is 65;
    [chr] raises [ValueError] above the last code point. *)
Definition dup_line (submission_dir : str) (st : DupState) (line : str)
    : Result DupState :=
  if Str.startswith line K.dashes then
    let group_counter := group_counter st + 1 in
    match Str.chr (65 + group_counter - 1) with
    | Some current_group_id =>
      Ok {| group_counter := group_counter;
            current_group_id := current_group_id;
            dup_map := dup_map st |}
    | None => Raise ValueError
    end
  else if Str.contains K.spaced_dash line then
    match student_id_search submission_dir line with
    | Some group1 =>
      Ok {| group_counter := group_counter st;
            current_group_id := current_group_id st;
            dup_map := <[group1 := current_group_id st]> (dup_map st) |}
    | None => Ok st
    end
  else Ok st.

Fixpoint dup_lines (submission_dir : str) (lines : list str) (st : DupState)
    : Result DupState :=
  match lines with
  | [] => Ok st
  | line :: rest =>
    match dup_line submission_dir st line with
    | Ok st' => dup_lines submission_dir rest st'
    | Raise e => Raise e
    end
  end.

(** Lines 420-428 on the captured output of the duplicate finder. *)
Definition parse_duplicates (submission_dir : str) (out : str)
    : Result DupState :=
  dup_lines submission_dir (Str.split 10 (Str.strip out)) (dup_init ∅).

(** *** Vocabulary of the statements about the resolver *)

(** A line that opens a group, line 424. *)
Definition is_delimiter (line : str) : bool := Str.startswith line K.dashes.

(** The identifier a member line yields, line 427: the line opens no
    group, contains [" - "] and the pattern finds a match. *)
Definition member_id (submission_dir line : str) : option str :=
  if is_delimiter line then None
  else if Str.contains K.spaced_dash line
       then student_id_search submission_dir line
       else None.

(** How many of the lines open a group. *)
Definition count_delimiters (lines : list str) : Z :=
  Z.of_nat (length (filter (fun l => is_delimiter l = true) lines)).

(** [current_group_id] after [n] delimiter lines: the initial [''], then
    [chr(ord('A') + n - 1)]. *)
Definition group_label (n : Z) : str :=
  if n =? 0 then K.empty else [65 + n - 1].

Definition alphabet : list Z :=
  Eval vm_compute in Str.lit "ABCDEFGHIJKLMNOPQRSTUVWXYZ".

(** Step 6 of [main], lines 413-429. *)
Definition resolve_duplicates (paths : Paths) (config : Config)
    (student_submission_dir : Path) : M (gmap str str) :=
  do found <- reads (path_exists (duplicate_finder_exe_path paths)) ;
  if negb found then ret ∅
  else
    let dup_named_args :=
      [(K.root_folder, student_submission_dir);
       (K.file_filter, log_encrypted (student_file_structure config))] in
    do dup_result <-
      run_executable (duplicate_finder_exe_path paths) [] dup_named_args ;
    match dup_result with
    | Some r =>
      match parse_duplicates (student_submission (directories config))
              (stdout r) with
      | Ok st => ret (dup_map st)
      | Raise e => raise e
      end
    | None => ret ∅
    end.

(** ** The scheduler and the report *)

(** A finished future with the directory it was submitted for: the task
    returned a row or raised. *)
Definition Future : Type := Path * Result Row.

(** The row substituted at line 455. *)
Definition crash_row (student_dir : Path) : Row :=
  {| student_id := path_name student_dir;
     status := K.PIPELINE_CRASH;
     duplication_group := K.NA;
     process_analysis_score := CStr K.NA;
     location := K.NA |}.

(** The loop of lines 446-455 over the futures in the order in which
    [as_completed] yields them. *)
Fixpoint collect (completed : list Future) (report_data : list Row)
    : list Row :=
  match completed with
  | [] => report_data
  | (student_dir, outcome) :: rest =>
    match outcome with
    | Ok row => collect rest (report_data ++ [row])
    | Raise _ => collect rest (report_data ++ [crash_row student_dir])
    end
  end.

(** The row the loop appends for one future. *)
Definition row_of_future (f : Future) : Row :=
  match f.2 with
  | Ok row => row
  | Raise _ => crash_row f.1
  end.


(** [sorted(report_data, key=lambda item: item['student_id'])]. The sort of
    Python is stable; its result is that of this insertion sort, where a
    row goes before the rows already placed whose key is not smaller. *)
Fixpoint insert_row (r : Row) (l : list Row) : list Row :=
  match l with
  | [] => [r]
  | r' :: l' =>
    if Str.ltb (student_id r') (student_id r) then r' :: insert_row r l'
    else r :: r' :: l'
  end.

Definition sorted_by_student_id (report_data : list Row) : list Row :=
  foldr insert_row [] report_data.

(** Steps 7 and 8 of [main], lines 435-462: the rows handed to
    [writer.writerows]. *)
Definition report_rows (completed : list Future) : list Row :=
  sorted_by_student_id (collect completed []).

(** The pool, with the tasks run one after the other in the order of
    submission: each future holds what its task returned or raised. *)
Fixpoint run_tasks (task : Path -> M Row) (student_dirs : list Path)
    : W -> list Future * W :=
  fun w =>
    match student_dirs with
    | [] => ([], w)
    | sd :: rest =>
      let '(outcome, w') := task sd w in
      let '(futures, w'') := run_tasks task rest w' in
      ((sd, outcome) :: futures, w'')
    end.

End Program.

Arguments M W : clear implicits.

(** ** A small concrete runtime

    A world with a set of files and scripted tools, on which the program
    can be run: the examples below evaluate the embedding on it. *)

Module Toy.

Record World := {
  files : list Path;
  (** What a command does when spawned: its outcome and the files it
      leaves behind. *)
  tool : list str -> SpawnOutcome * list Path;
  (** What [json.load] makes of a file. *)
  json : Path -> Result JSON;
  (** The directories that cannot be searched: [stat] of an entry of one
      of them fails with [EACCES]. *)
  locked : list Path;
  (** The data rows of the report file. *)
  appended : list Row
}.

Definition slash : Z := 47.

(** The part of a path after its last slash, and the part before it. *)
Definition name (p : Path) : str :=
  default [] (last (Str.split slash p)).

Definition parent (p : Path) : Path :=
  take (length p - length (name p) - 1)%nat p.

Definition add_files (new : list Path) (w : World) : World :=
  {| files := new ++ files w; tool := tool w; json := json w;
     locked := locked w; appended := appended w |}.

Definition exists_in (p : Path) (w : World) : bool :=
  bool_decide (p ∈ files w).

(** [p.exists()] *)
Definition exists_at (p : Path) (w : World) : Result bool :=
  if bool_decide (parent p ∈ locked w) then Raise PermissionError
  else Ok (exists_in p w).

(** The decimal digits of ASCII. *)
Definition ascii_decimal (c : Z) : option Z :=
  if (48 <=? c) && (c <=? 57) then Some (c - 48) else None.

Definition python3 : str := Eval vm_compute in Str.lit "/usr/bin/python3".
Definition linux : str := Eval vm_compute in Str.lit "linux".

Definition run_tool (command : list str) (w : World) : SpawnOutcome * World :=
  let '(outcome, new) := tool w command in (outcome, add_files new w).

#[global] Instance runtime : Runtime World := {
  unicode_decimal := ascii_decimal;
  int_max_str_digits := 4300;
  sys_executable := python3;
  sys_platform := linux;
  joinpath := fun p s => p ++ [slash] ++ s;
  path_name := name;
  path_parent := parent;
  relpath := fun p start => Ok p;
  path_exists := exists_at;
  mkdir_exist_ok := fun p w => (Ok tt, add_files [p] w);
  spawn := fun command cwd encoding => run_tool command;
  json_load := fun p w => json w p
}.

Definition L (s : string) : str := Str.lit s.

Definition paths : Paths := {|
  root_dir := L "/p";
  processed_base_dir := L "/p/work/out/processed";
  decoder_project_path := L "/p/tools/mission-decoder";
  restore_project_path := L "/p/tools/mission-restore";
  private_key_path := L "/p/tools/private.pem";
  diff_script_path := L "/p/tools/diff.py";
  inspector_exe_path := L "/p/tools/inspector";
  duplicate_finder_exe_path := L "/p/tools/duplicate_finder"
|}.

Definition config : Config := {|
  directories := {|
    student_submission := L "student_submission";
    tools := L "tools";
    output_base := L "out";
    processed_outputs := L "processed";
    report := L "report" |};
  student_file_structure := {|
    original_main_py := L "main.py";
    log_dir := L "log";
    log_encrypted := L "mission.log.encrypted";
    signature_encrypted := L "signature.encrypted" |};
  output_files := {|
    log_decrypted := L "log.decrypted";
    signature_decrypted := L "signature.decrypted";
    log_restored := L "restored.py";
    inspection_report_html := L "report.html";
    report_csv := L "report.csv" |}
|}.

Definition cli_args : CliArgs := {| duration := 60 |}.

Definition submission (s : string) : Path :=
  L "/p/student_submission/" ++ L s.

Definition output (student file : string) : Path :=
  L "/p/work/out/processed/" ++ L student ++ [slash] ++ L file.

(** Scripted tools, told apart by the head of the command and, for the
    interpreters of the virtual environments, by the module. *)
Record Script := {
  decoder : list str -> SpawnOutcome * list Path;
  restorer : list str -> SpawnOutcome * list Path;
  differ : list str -> SpawnOutcome * list Path;
  inspector : list str -> SpawnOutcome * list Path;
  finder : list str -> SpawnOutcome * list Path
}.

Definition scripted (sc : Script) (command : list str)
    : SpawnOutcome * list Path :=
  match command with
  | prog :: rest =>
    if Str.eqb prog K.poetry then (Exited 0 (L "/venv" ++ [10]) [], [])
    else if Str.eqb prog (L "/venv/bin/python") then
      match rest with
      | _ :: module :: rest' =>
        if Str.eqb module K.mission_decoder_main then decoder sc rest'
        else restorer sc rest'
      | _ => (LaunchRaised (OtherException (L "unexpected")), [])
      end
    else if Str.eqb prog (L "/usr/bin/python3") then differ sc rest
    else if Str.eqb prog (L "/p/tools/inspector") then inspector sc rest
    else if Str.eqb prog (L "/p/tools/duplicate_finder") then finder sc rest
    else (LaunchRaised FileNotFoundError, [])
  | [] => (LaunchRaised (OtherException (L "empty")), [])
  end.

(** Tools that succeed: the decoder and the restorer write their last
    argument, the differ finds the files identical, the inspector prints a
    score of 87. *)
Definition write_last (command : list str) : SpawnOutcome * list Path :=
  (Exited 0 [] [], [default [] (last command)]).

Definition good : Script := {|
  decoder := write_last;
  restorer := write_last;
  differ := fun _ => (Exited 0 (L "report: " ++ K.identical_marker) [], []);
  inspector := fun _ =>
    (Exited 0 (K.score_prefix ++ L "87 / 100" ++ [10]) [], []);
  finder := fun _ => (Exited 0 [] [], [])
|}.

Definition signature_berlin : JSON :=
  JDict [(K.location_info, JDict [(K.city, JStr (L "Berlin"))])].

(** A world with the tools, the venv interpreter and the submission of
    [student-01]. *)
Definition world (sc : Script) : World := {|
  files := [L "/venv/bin/python"; L "/p/tools/inspector";
            L "/p/tools/duplicate_finder";
            submission "student-01/main.py";
            submission "student-01/log/mission.log.encrypted";
            submission "student-01/log/signature.encrypted"];
  tool := scripted sc;
  json := fun _ => Ok signature_berlin;
  locked := [];
  appended := []
|}.

(** Outputs of the duplicate finder. *)
Definition submission_name : str := L "student_submission".

Definition delimiter_line : str := L "------------------------------".

Definition member_line (student file : string) : str :=
  L "  - /p/student_submission/" ++ L student ++ [slash] ++ L file.

Definition unlines (lines : list str) : str :=
  concat (map (fun l => l ++ [10]) lines).

(** Two groups, with a file of [student-01] in each of them. *)
Definition out_twice : str :=
  unlines [delimiter_line;
           member_line "student-01" "log/mission.log.encrypted";
           member_line "student-02" "log/mission.log.encrypted";
           delimiter_line;
           member_line "student-01" "old/mission.log.encrypted";
           member_line "student-03" "log/mission.log.encrypted"].

(** Twenty-seven groups; [student-01] is in the last one. *)
Definition out_27 : str :=
  unlines (concat (replicate 26
                     [delimiter_line;
                      member_line "student-09" "log/mission.log.encrypted"])
           ++ [delimiter_line;
               member_line "student-01" "log/mission.log.encrypted"]).

(** A member line ahead of every delimiter line, and the same identifier
    again in the first group. *)
Definition out_early : str :=
  unlines [L "Duplicate files";
           member_line "student-01" "log/mission.log.encrypted";
           delimiter_line;
           member_line "student-01" "old/mission.log.encrypted";
           member_line "student-02" "log/mission.log.encrypted"].

(** A member line ahead of every delimiter line, alone of its
    identifier. *)
Definition out_early_once : str :=
  unlines [L "Duplicate files";
           member_line "student-01" "log/mission.log.encrypted";
           delimiter_line;
           member_line "student-02" "log/mission.log.encrypted";
           member_line "student-03" "log/mission.log.encrypted"].

(** An output that begins with an indented member line: [strip] takes the
    indentation of that line away. *)
Definition out_indented_first : str :=
  unlines [member_line "student-01" "log/mission.log.encrypted";
           delimiter_line;
           member_line "student-02" "log/mission.log.encrypted";
           member_line "student-03" "log/mission.log.encrypted"].

(** An inspector that prints a score of 150. *)
Definition over_scored : Script := {|
  decoder := write_last;
  restorer := write_last;
  differ := fun _ => (Exited 0 (L "report: " ++ K.identical_marker) [], []);
  inspector := fun _ =>
    (Exited 0 (K.score_prefix ++ L "150 / 100" ++ [10]) [], []);
  finder := fun _ => (Exited 0 [] [], [])
|}.

(** A decoder that exits with status 1. *)
Definition bad_decoder : Script := {|
  decoder := fun _ => (Exited 1 [] (L "bad key"), []);
  restorer := write_last;
  differ := fun _ => (Exited 0 (L "report: " ++ K.identical_marker) [], []);
  inspector := fun _ =>
    (Exited 0 (K.score_prefix ++ L "87 / 100" ++ [10]) [], []);
  finder := fun _ => (Exited 0 [] [], [])
|}.

(** A differ that finds the files different. *)
Definition differing : Script := {|
  decoder := write_last;
  restorer := write_last;
  differ := fun _ => (Exited 0 (L "3 lines differ") [], []);
  inspector := fun _ =>
    (Exited 0 (K.score_prefix ++ L "87 / 100" ++ [10]) [], []);
  finder := fun _ => (Exited 0 [] [], [])
|}.

(** An inspector that cannot be executed. *)
Definition locked_inspector : Script := {|
  decoder := write_last;
  restorer := write_last;
  differ := fun _ => (Exited 0 (L "report: " ++ K.identical_marker) [], []);
  inspector := fun _ => (LaunchRaised PermissionError, []);
  finder := fun _ => (Exited 0 [] [], [])
|}.

(** A signature whose city is the empty string. *)
Definition signature_no_city : JSON :=
  JDict [(K.location_info, JDict [(K.city, JStr [])])].

Definition world_no_city : World := {|
  files := [output "student-01" "signature.decrypted"];
  tool := scripted good;
  json := fun _ => Ok signature_no_city;
  locked := [];
  appended := []
|}.

(** The state a parse leaves, the initial one if it raised. *)
Definition state_of (r : Result DupState) : DupState :=
  match r with Ok st => st | Raise _ => dup_init ∅ end.

(** The run of [student-01] with the tools of [sc], step by step: the
    worlds after the output directory is made, after the decryption, after
    the restoration, after the diff script and after the analysis. *)
Definition student_01 : Path := submission "student-01".

Definition w0 (sc : Script) : World :=
  (mkdir_exist_ok (student_output_dir_abs paths student_01) (world sc)).2.

Definition w1 (sc : Script) : World :=
  (decrypt_files paths (files_to_decrypt paths config student_01)
     (w0 sc)).2.

Definition w2 (sc : Script) : World :=
  (step_restore paths K.OK (log_decrypted_path_abs paths config student_01)
     (log_restored_path_abs paths config student_01) (w1 sc)).2.

Definition w3 (sc : Script) : World :=
  (spawn (diff_command paths config student_01) None None (w2 sc)).2.

Definition w4 (sc : Script) : World :=
  (step_analyze paths config cli_args K.OK (CStr K.NOT_ANALYZED)
     (student_output_dir_abs paths student_01)
     (log_decrypted_path_abs paths config student_01) (w3 sc)).2.

(** Two submissions handed to the pool. With [locked_inspector] the task
    of [student-01] raises and the one of [student-02], which has no log,
    returns a row. *)
Definition dirs : list Path := [submission "student-01"; submission "student-02"].

Definition futures : list Future :=
  (run_tasks (process_student_submission paths config cli_args ∅) dirs
     (world locked_inspector)).1.

End Toy.

(** ** Tool preparation and [main] *)

Module Bytes.

Definition between (lo hi b : Z) : bool := (lo <=? b) && (b <=? hi).

Definition continuation (b : Z) : bool := between 128 191 b.

(** Whether [bytes.decode()] succeeds: the bytes are well-formed UTF-8,
    with no overlong form, no surrogate and nothing above U+10FFFF. *)
Fixpoint utf8_valid_from (fuel : nat) (bs : list Z) : bool :=
  match fuel with
  | O => match bs with [] => true | _ => false end
  | S fuel =>
    match bs with
    | [] => true
    | b0 :: r0 =>
      if between 0 127 b0 then utf8_valid_from fuel r0
      else if between 194 223 b0 then
        match r0 with
        | b1 :: r1 => continuation b1 && utf8_valid_from fuel r1
        | _ => false
        end
      else if between 224 239 b0 then
        match r0 with
        | b1 :: b2 :: r2 =>
          (if b0 =? 224 then between 160 191 b1
           else if b0 =? 237 then between 128 159 b1
           else continuation b1)
          && continuation b2 && utf8_valid_from fuel r2
        | _ => false
        end
      else if between 240 244 b0 then
        match r0 with
        | b1 :: b2 :: b3 :: r3 =>
          (if b0 =? 240 then between 144 191 b1
           else if b0 =? 244 then between 128 143 b1
           else continuation b1)
          && continuation b2 && continuation b3 && utf8_valid_from fuel r3
        | _ => false
        end
      else false
    end
  end.

Definition utf8_valid (bs : list Z) : bool := utf8_valid_from (length bs) bs.

End Bytes.

Module KM.
Definition pyproject_toml : str := Eval vm_compute in Str.lit "pyproject.toml".
Definition install : str := Eval vm_compute in Str.lit "install".
Definition student_id : str := Eval vm_compute in Str.lit "student_id".
Definition status : str := Eval vm_compute in Str.lit "status".
Definition duplication_group : str :=
  Eval vm_compute in Str.lit "duplication_group".
Definition process_analysis_score : str :=
  Eval vm_compute in Str.lit "process_analysis_score".
Definition location : str := Eval vm_compute in Str.lit "location".
End KM.

(** What writing to the report file comes to: the file was opened and all
    that was handed over is written, an [IOError] is raised, or another
    exception is. The world that comes with the outcome is the one the
    write left: a write that raised may have left part of the rows. *)
Inductive WriteOutcome :=
| Written
| WriteIOError
| WriteRaised (e : Exn).

(** What [main] and the tool preparation ask of the runtime besides. *)
Class MainRuntime (W : Type) := {
  (** [Path(os.getcwd())] *)
  getcwd : W -> Path;
  (** Spawning [command] in [cwd] with the streams captured as bytes: the
      streams of the outcome are lists of byte values. *)
  spawn_bytes : list str -> option Path -> W -> SpawnOutcome * W;
  (** [d.mkdir(parents=True, exist_ok=True)] *)
  mkdir_parents : Path -> W -> Result unit * W;
  (** Lines 397-398: the file opened for writing and the header row
      written. *)
  write_header : Path -> list str -> W -> WriteOutcome * W;
  (** Lines 459-462: the file opened for appending and the rows written
      with the given field names. *)
  append_rows : Path -> list str -> list Row -> W -> WriteOutcome * W;
  (** [[d for d in p.iterdir() if d.is_dir()]] *)
  iterdir_dirs : Path -> W -> Result (list Path) * W;
  (** [a < b] on paths *)
  path_ltb : Path -> Path -> bool;
  (** [p.relative_to(base)], [None] for the [ValueError] it raises when
      [p] is not under [base]. *)
  relative_to : Path -> Path -> option str;
  (** The futures in the order in which [as_completed] yields them. *)
  as_completed : list Future -> W -> list Future
}.

(** The [tools] part of [config.json]. *)
Record ToolsConfig := {
  decoder_project : str;
  restore_project : str;
  private_key : str;
  diff_script : str;
  inspector : str;
  duplicate_finder : str
}.

(** How [main] ends: it returns, or [sys.exit] is called. *)
Inductive Ending :=
| MainReturned
| SystemExit (code : Z).

Section Main.

Context {W : Type} `{RT : Runtime W} `{MRT : MainRuntime W}.

(** [subprocess.run(command, check=True, cwd=cwd, stdout=PIPE,
    stderr=PIPE)]: as [subprocess_run], with bytes for streams. *)
Definition subprocess_run_bytes (command : list str) (cwd : option Path)
    : M W CompletedProcess :=
  fun w =>
    match spawn_bytes command cwd w with
    | (Exited code out err, w') =>
      if code =? 0
      then (Ok {| args := command; returncode := code;
                  stdout := out; stderr := err |}, w')
      else (Raise (CalledProcessError code out err), w')
    | (LaunchRaised e, w') => (Raise e, w')
    end.

Definition poetry_install_command : list str := [K.poetry; KM.install].

(** [ensure_poetry_project_ready], lines 64-94. The log message of the
    [CalledProcessError] clause decodes the captured bytes of [stderr],
    which raises when they are no UTF-8. *)
Definition ensure_poetry_project_ready (project_path : Path) : M W bool :=
  bind (reads (path_exists (joinpath project_path KM.pyproject_toml)))
    (fun found =>
       if negb found then ret false
       else
         let command := poetry_install_command in
         try_except
           (bind (subprocess_run_bytes command (Some project_path))
              (fun _ => ret true))
           (fun e =>
              match e with
              | FileNotFoundError => Some (ret false)
              | CalledProcessError _ _ err =>
                Some (if Bytes.utf8_valid err then ret false
                      else raise UnicodeDecodeError)
              | _ => None
              end)).

(** [all(ensure_poetry_project_ready(p) for p in tool_paths_to_prepare)],
    line 407: the generator is consumed up to the first [False]. *)
Fixpoint all_ready (tool_paths_to_prepare : list Path) : M W bool :=
  match tool_paths_to_prepare with
  | [] => ret true
  | p :: rest =>
    bind (ensure_poetry_project_ready p)
      (fun ready => if ready then all_ready rest else ret false)
  end.

Definition report_headers : list str :=
  [KM.student_id; KM.status; KM.duplication_group;
   KM.process_analysis_score; KM.location].

(** [except IOError]: the [OSError] classes among the exceptions. *)
Definition is_os_error (e : Exn) : bool :=
  match e with
  | FileNotFoundError | PermissionError | OSError _ => true
  | _ => false
  end.

(** The log message of lines 399 and 468 formats
    [report_csv_path.relative_to(root_dir)]. *)
Definition log_report_location (report_csv_path root_dir : Path)
    : M W unit :=
  match relative_to report_csv_path root_dir with
  | Some _ => ret tt
  | None => raise ValueError
  end.

(** Lines 396-401: [true] when the header is written, [false] when the
    [IOError] clause is taken. *)
Definition init_report (report_csv_path root_dir : Path) : M W bool :=
  fun w =>
    match write_header report_csv_path report_headers w with
    | (Written, w') =>
      bind (log_report_location report_csv_path root_dir)
        (fun _ => ret true) w'
    | (WriteIOError, w') => (Ok false, w')
    | (WriteRaised e, w') =>
      if is_os_error e then (Ok false, w') else (Raise e, w')
    end.

(** Lines 458-464: an [IOError] is logged and nothing more. *)
Definition write_report (report_csv_path : Path) (rows : list Row)
    : M W unit :=
  fun w =>
    match append_rows report_csv_path report_headers rows w with
    | (Written, w') => (Ok tt, w')
    | (WriteIOError, w') => (Ok tt, w')
    | (WriteRaised e, w') =>
      if is_os_error e then (Ok tt, w') else (Raise e, w')
    end.

(** [sorted(student_dirs)]: a stable insertion sort on paths. *)
Fixpoint insert_path (p : Path) (l : list Path) : list Path :=
  match l with
  | [] => [p]
  | q :: l' => if path_ltb q p then q :: insert_path p l' else p :: q :: l'
  end.

Definition sorted_paths (l : list Path) : list Path := foldr insert_path [] l.

(** Steps 6 to 8 of [main], lines 410-468. The tasks of the pool are run
    one after the other in the order of submission. *)
Definition main_batch (paths : Paths) (config : Config) (cli_args : CliArgs)
    (student_submission_dir report_csv_path : Path) : M W Ending :=
  bind (resolve_duplicates paths config student_submission_dir)
    (fun duplication_map =>
  bind (iterdir_dirs student_submission_dir)
    (fun dirs =>
  let student_dirs := sorted_paths dirs in
  bind (fun w =>
          let '(futures, w') :=
            run_tasks
              (process_student_submission paths config cli_args
                 duplication_map) student_dirs w in
          (Ok futures, w'))
    (fun futures =>
  bind (gets (as_completed futures))
    (fun completed =>
  let report_data := collect completed [] in
  bind (write_report report_csv_path (sorted_by_student_id report_data))
    (fun _ =>
  bind (log_report_location report_csv_path (root_dir paths))
    (fun _ => ret MainReturned)))))).

(** The paths of lines 378-391. *)
Definition make_paths (config : Config) (tools_config : ToolsConfig)
    (work_dir : Path) : Paths :=
  let root_dir := path_parent work_dir in
  let dirs := directories config in
  let tools_dir := joinpath root_dir (tools dirs) in
  {| root_dir := root_dir;
     processed_base_dir :=
       joinpath (joinpath work_dir (output_base dirs))
         (processed_outputs dirs);
     decoder_project_path := joinpath tools_dir (decoder_project tools_config);
     restore_project_path := joinpath tools_dir (restore_project tools_config);
     private_key_path := joinpath tools_dir (private_key tools_config);
     diff_script_path := joinpath tools_dir (diff_script tools_config);
     inspector_exe_path := joinpath tools_dir (inspector tools_config);
     duplicate_finder_exe_path :=
       joinpath tools_dir (duplicate_finder tools_config) |}.

Definition report_dir_of (config : Config) (work_dir : Path) : Path :=
  joinpath (joinpath work_dir (output_base (directories config)))
    (report (directories config)).

Definition report_csv_path_of (config : Config) (work_dir : Path) : Path :=
  joinpath (report_dir_of config work_dir) (report_csv (output_files config)).

(** [main], lines 366-468, for a [config.json] that was found and parsed
    and a command line that was accepted. *)
Definition main (config : Config) (tools_config : ToolsConfig)
    (cli_args : CliArgs) : M W Ending :=
  bind (gets getcwd)
    (fun work_dir =>
  let root_dir := path_parent work_dir in
  let student_submission_dir :=
    joinpath root_dir (student_submission (directories config)) in
  let paths := make_paths config tools_config work_dir in
  bind (mkdir_parents (processed_base_dir paths))
    (fun _ =>
  bind (mkdir_parents (report_dir_of config work_dir))
    (fun _ =>
  let report_csv_path := report_csv_path_of config work_dir in
  bind (init_report report_csv_path root_dir)
    (fun header_written =>
  if negb header_written then ret (SystemExit 1)
  else
    let tool_paths_to_prepare :=
      [decoder_project_path paths; restore_project_path paths] in
    bind (all_ready tool_paths_to_prepare)
      (fun ready =>
    if negb ready then ret (SystemExit 1)
    else
      main_batch paths config cli_args student_submission_dir
        report_csv_path))))).

End Main.

(** ** Further vocabulary and concrete worlds *)

Section Vocabulary.

Context {W : Type} `{RT : Runtime W}.

(** The two command lines of [run_poetry_project], lines 117-124, and the
    interpreter of the virtual environment that [poetry] names. *)
Definition poetry_env_command : list str :=
  [K.poetry; K.env; K.info; K.dash_p].

Definition venv_python_executable (venv_path : Path) : Path :=
  if Str.eqb sys_platform K.win32
  then joinpath (joinpath venv_path K.Scripts) K.python_exe
  else joinpath (joinpath venv_path K.bin) K.python.

Definition module_command (python_executable : Path) (module_name : str)
    (module_args : list str) : list str :=
  [python_executable; K.dash_m; module_name] ++ module_args.

(** The named arguments of the duplicate finder, line 417. *)
Definition finder_named_args (config : Config)
    (student_submission_dir : Path) : list (str * str) :=
  [(K.root_folder, student_submission_dir);
   (K.file_filter, log_encrypted (student_file_structure config))].

(** The statuses a row returned by the pipeline can have. *)
Definition final_statuses : list str :=
  [K.OK; K.DIFFERENT; K.FILE_MISSING; K.CHECK_FAILED;
   K.DECRYPT_FAILED; K.RESTORE_FAILED].

(** The four strings [parse_signature_file] returns for a file it cannot
    read a city from. *)
Definition location_sentinels : list str :=
  [K.FILE_NOT_FOUND; K.KEY_OR_TYPE_INVALID; K.JSON_DECODE_ERROR;
   K.UNKNOWN_PARSING_ERROR].

(** An identifier as the pattern captures it: [student-], then at least one
    character, none of them a slash or a backslash. *)
Definition identifier_shape (id : str) : Prop :=
  exists name,
    id = K.student_prefix ++ name
    /\ name <> []
    /\ Forall (fun c => is_sep c = false) name.

(** The invariant of the loop of the resolver: the counter is not
    negative, the current label is the one of the counter, and every entry
    of the map has a captured identifier as its key and the label of a
    group met so far as its value. *)
Definition dup_invariant (st : DupState) : Prop :=
  0 <= group_counter st
  /\ current_group_id st = group_label (group_counter st)
  /\ forall id label,
       dup_map st !! id = Some label ->
       identifier_shape id
       /\ exists n, 0 <= n <= group_counter st /\ label = group_label n.

End Vocabulary.

Module Toy2.

Import Toy.

(** A world whose virtual environment has no interpreter. *)
Definition world_no_venv : World := {|
  files := [submission "student-01/main.py";
            submission "student-01/log/mission.log.encrypted"];
  tool := scripted good;
  json := fun _ => Ok signature_berlin;
  locked := [];
  appended := []
|}.

(** A decoder that cannot be launched: the interpreter of the virtual
    environment may not be executed. *)
Definition locked_decoder : Script := {|
  decoder := fun _ => (LaunchRaised PermissionError, []);
  restorer := write_last;
  differ := fun _ => (Exited 0 (L "report: " ++ K.identical_marker) [], []);
  inspector := fun _ =>
    (Exited 0 (K.score_prefix ++ L "87 / 100" ++ [10]) [], []);
  finder := fun _ => (Exited 0 [] [], [])
|}.

(** The decoder exits with status 1, and the output directory of
    [student-01] exists but cannot be searched. *)
Definition world_locked_output : World := {|
  files := files (world bad_decoder);
  tool := scripted bad_decoder;
  json := fun _ => Ok signature_berlin;
  locked := [L "/p/work/out/processed/student-01"];
  appended := []
|}.

Definition w0_locked_output : World :=
  (mkdir_exist_ok (student_output_dir_abs paths student_01)
     world_locked_output).2.

Definition w1_locked_output : World :=
  (decrypt_files paths (files_to_decrypt paths config student_01)
     w0_locked_output).2.


(** The interpreter that runs the diff script is not found. *)
Definition no_interpreter : Script := {|
  decoder := write_last;
  restorer := write_last;
  differ := fun _ => (LaunchRaised FileNotFoundError, []);
  inspector := fun _ =>
    (Exited 0 (K.score_prefix ++ L "87 / 100" ++ [10]) [], []);
  finder := fun _ => (Exited 0 [] [], [])
|}.

(** An inspector that prints no score, and one that exits with status 3. *)
Definition silent_inspector : Script := {|
  decoder := write_last;
  restorer := write_last;
  differ := fun _ => (Exited 0 (L "report: " ++ K.identical_marker) [], []);
  inspector := fun _ => (Exited 0 (L "analysis done") [], []);
  finder := fun _ => (Exited 0 [] [], [])
|}.

Definition failing_inspector : Script := {|
  decoder := write_last;
  restorer := write_last;
  differ := fun _ => (Exited 0 (L "report: " ++ K.identical_marker) [], []);
  inspector := fun _ => (Exited 3 [] (L "cannot read log"), []);
  finder := fun _ => (Exited 0 [] [], [])
|}.

(** A duplicate finder that exits with status 2. *)
Definition failing_finder : Script := {|
  decoder := write_last;
  restorer := write_last;
  differ := fun _ => (Exited 0 (L "report: " ++ K.identical_marker) [], []);
  inspector := fun _ =>
    (Exited 0 (K.score_prefix ++ L "87 / 100" ++ [10]) [], []);
  finder := fun _ => (Exited 2 [] (L "no such folder"), [])
|}.

(** Signature files: [location_info] is [null], and the whole file is a
    list. *)
Definition signature_null_location : JSON :=
  JDict [(K.location_info, JNull)].

Definition world_signature (v : Result JSON) : World := {|
  files := [output "student-01" "signature.decrypted"];
  tool := scripted good;
  json := fun _ => v;
  locked := [];
  appended := []
|}.

Definition student_02 : Path := submission "student-02".

(** [student-03] handed in nothing, but a decrypted log of an earlier run
    lies in its output directory. *)
Definition student_03 : Path := submission "student-03".

Definition world_stale : World := {|
  files := [L "/venv/bin/python"; L "/p/tools/inspector";
            output "student-03" "log.decrypted"];
  tool := scripted good;
  json := fun _ => Ok signature_berlin;
  locked := [];
  appended := []
|}.

Definition w0_stale : World :=
  (mkdir_exist_ok (student_output_dir_abs paths student_03) world_stale).2.

Definition w2_stale : World :=
  (step_restore paths K.OK (log_decrypted_path_abs paths config student_03)
     (log_restored_path_abs paths config student_03) w0_stale).2.

(** The world of [student-02], who handed in nothing, once its output
    directory is made. *)
Definition w0_student_02 : World :=
  (mkdir_exist_ok (student_output_dir_abs paths student_02) (world good)).2.

End Toy2.

(** A runtime in which every path exists and every command runs and exits
    with status 0, printing nothing. The world is the list of the commands
    spawned so far, the last one first. *)
Module Quiet.

Definition World : Type := list (list str).

Definition spawn_ok (command : list str) (cwd : option Path)
    (encoding : option str) (w : World) : SpawnOutcome * World :=
  (Exited 0 [] [], command :: w).

#[local] Instance runtime : Runtime World := {
  unicode_decimal := Toy.ascii_decimal;
  int_max_str_digits := 0;
  sys_executable := Toy.python3;
  sys_platform := Toy.linux;
  joinpath := fun p s => p ++ [Toy.slash] ++ s;
  path_name := Toy.name;
  path_parent := Toy.parent;
  relpath := fun p start => Ok p;
  path_exists := fun p w => Ok true;
  mkdir_exist_ok := fun p w => (Ok tt, w);
  spawn := spawn_ok;
  json_load := fun p w => Raise JSONDecodeError
}.

(** The heads of the commands a run has spawned, in the order of the
    spawns. *)
Definition programs (w : World) : list str :=
  rev (map (fun command => default [] (head command)) w).

End Quiet.

(** A concrete runtime for [main], over the worlds of [Toy]. The report
    file cannot be opened for writing when a file [<report>.lock] exists,
    nor for appending when a file [<report>.full] exists. *)
Module ToyMain.

Import Toy.

Definition children (p : Path) (w : World) : list Path :=
  filter (fun f => parent f = p) (files w).

Definition with_rows (rows : list Row) (w : World) : World :=
  {| files := files w; tool := tool w; json := json w;
     locked := locked w; appended := rows |}.

(** Opening with mode ['w'] empties the file. *)
Definition header_outcome (p : Path) (w : World) : WriteOutcome * World :=
  if exists_in (p ++ L ".lock") w then (WriteIOError, w)
  else (Written, with_rows [] (add_files [p] w)).

Definition append_outcome (p : Path) (rows : list Row) (w : World)
    : WriteOutcome * World :=
  if exists_in (p ++ L ".full") w then (WriteIOError, w)
  else (Written, with_rows (appended w ++ rows) (add_files [p] w)).

Definition work_dir : Path := Eval vm_compute in L "/p/work".

#[global] Instance runtime : MainRuntime World := {
  getcwd := fun _ => work_dir;
  spawn_bytes := fun command cwd => run_tool command;
  mkdir_parents := fun p w => (Ok tt, add_files [p] w);
  write_header := fun p headers => header_outcome p;
  append_rows := fun p headers => append_outcome p;
  iterdir_dirs := fun p w => (Ok (children p w), w);
  path_ltb := Str.ltb;
  relative_to := fun p base => Str.strip_prefix (base ++ [slash]) p;
  as_completed := fun futures w => rev futures
}.

Definition tools_config : ToolsConfig :=
  Build_ToolsConfig (L "mission-decoder") (L "mission-restore")
    (L "private.pem") (L "diff.py") (L "inspector") (L "duplicate_finder").

Definition report_path : Path :=
  Eval vm_compute in L "/p/work/out/report/report.csv".

(** Tools as in [good], but [poetry install] ends as given. *)
Definition with_install (outcome : SpawnOutcome) (command : list str)
    : SpawnOutcome * list Path :=
  if bool_decide (command = [K.poetry; KM.install]) then (outcome, [])
  else scripted good command.

(** A world with two submission directories and the two tool projects;
    [extra] adds files and [install] is what [poetry install] does. *)
Definition world (install : SpawnOutcome) (extra : list Path) : World := {|
  files := extra ++
           [L "/p/tools/mission-decoder/pyproject.toml";
            L "/p/tools/mission-restore/pyproject.toml";
            L "/venv/bin/python"; L "/p/tools/inspector";
            submission "student-02"; submission "student-01";
            submission "student-01/main.py";
            submission "student-01/log/mission.log.encrypted";
            submission "student-01/log/signature.encrypted"];
  tool := with_install install;
  json := fun _ => Ok signature_berlin;
  locked := [];
  appended := []
|}.

Definition installed : SpawnOutcome := Exited 0 [] [].

(** The value a call returned, [d] if it raised. *)
Definition value_of {A} (d : A) (r : Result A) : A :=
  match r with Ok a => a | Raise _ => d end.

(** The worlds of a run of [main] from [w]: after the two directories are
    made, and after the header is written. *)
Definition after_mkdir1 (w : World) : World :=
  (mkdir_parents
     (processed_base_dir (make_paths config tools_config (getcwd w))) w).2.

Definition after_mkdir2 (w : World) : World :=
  (mkdir_parents (report_dir_of config (getcwd w)) (after_mkdir1 w)).2.

Definition after_header (w : World) : World :=
  (write_header (report_csv_path_of config (getcwd w)) report_headers
     (after_mkdir2 w)).2.

Definition submission_dir : Path :=
  Eval vm_compute in L "/p/student_submission".

(** A batch whose report file cannot be opened for appending, with what
    its steps give. *)
Definition batch_world : World :=
  world installed [report_path ++ L ".full"].

Definition batch_map : gmap str str :=
  value_of ∅ (resolve_duplicates paths config submission_dir batch_world).1.

Definition batch_w1 : World :=
  (resolve_duplicates paths config submission_dir batch_world).2.

Definition batch_dirs : list Path :=
  value_of [] (iterdir_dirs submission_dir batch_w1).1.

Definition batch_futures : list Future :=
  (run_tasks (process_student_submission paths config cli_args batch_map)
     (sorted_paths batch_dirs) batch_w1).1.

Definition batch_w3 : World :=
  (run_tasks (process_student_submission paths config cli_args batch_map)
     (sorted_paths batch_dirs) batch_w1).2.

(** The world in which a run of [main] from [w] ends. *)
Definition main_end (w : World) : World :=
  (main config tools_config cli_args w).2.

(** The steps of a batch from a world [w], with what each of them gives. *)
Definition dup_of (w : World) : gmap str str :=
  value_of ∅ (resolve_duplicates paths config submission_dir w).1.

Definition after_dup (w : World) : World :=
  (resolve_duplicates paths config submission_dir w).2.

Definition dirs_of (w : World) : list Path :=
  value_of [] (iterdir_dirs submission_dir (after_dup w)).1.

Definition futures_of (w : World) : list Future :=
  (run_tasks (process_student_submission paths config cli_args (dup_of w))
     (sorted_paths (dirs_of w)) (after_dup w)).1.

Definition after_tasks (w : World) : World :=
  (run_tasks (process_student_submission paths config cli_args (dup_of w))
     (sorted_paths (dirs_of w)) (after_dup w)).2.

Definition rows_of (w : World) : list Row :=
  report_rows (as_completed (futures_of w) (after_tasks w)).

Definition after_append (w : World) : World :=
  (append_rows report_path report_headers (rows_of w) (after_tasks w)).2.

(** A batch in which the inspector cannot be executed: the task of
    [student-01] raises, the one of [student-02], who handed in nothing,
    returns a row. *)
Definition crash_world : World := {|
  files := files (world installed []);
  tool := scripted locked_inspector;
  json := fun _ => Ok signature_berlin;
  locked := [];
  appended := []
|}.

Definition row_student_02 : Row := {|
  student_id := L "student-02";
  status := K.RESTORE_FAILED;
  duplication_group := K.UNIQUE;
  process_analysis_score := CStr K.NOT_ANALYZED;
  location := K.FILE_NOT_FOUND
|}.

(** [poetry install] fails and writes two bytes that are no UTF-8 to its
    standard error. *)
Definition install_failed_garbled : SpawnOutcome := Exited 1 [] [199; 209].

Definition install_failed : SpawnOutcome :=
  Exited 1 [] (L "lock file is out of date").

(** A runtime whose paths join as [pathlib] joins them when the right
    operand is absolute: the operand replaces the path. With an absolute
    [output_base] the report lies outside the root directory. *)
Definition joinpath_abs (p : Path) (s : str) : Path :=
  match s with
  | c :: _ => if c =? slash then s else p ++ [slash] ++ s
  | [] => p ++ [slash] ++ s
  end.

Definition runtime_abs : Runtime World := {|
  unicode_decimal := ascii_decimal;
  int_max_str_digits := 4300;
  sys_executable := python3;
  sys_platform := linux;
  joinpath := joinpath_abs;
  path_name := name;
  path_parent := parent;
  relpath := fun p start => Ok p;
  path_exists := exists_at;
  mkdir_exist_ok := fun p w => (Ok tt, add_files [p] w);
  spawn := fun command cwd encoding => run_tool command;
  json_load := fun p w => json w p
|}.

Definition config_abs : Config := {|
  directories := {|
    student_submission := L "student_submission";
    tools := L "tools";
    output_base := L "/srv/out";
    processed_outputs := L "processed";
    report := L "report" |};
  student_file_structure := student_file_structure config;
  output_files := output_files config
|}.

End ToyMain.

(** * Properties *)

(** Unfolding of the monad and case analysis on the next scrutinee. *)
Ltac munfold :=
  unfold or_else, not_exists in *;
  unfold bind, ret, raise, gets, reads, lift, try_except in *.

Ltac mcase :=
  match goal with
  | |- context [match ?x with _ => _ end] =>
    lazymatch x with
    | context [match _ with _ => _ end] => fail
    | _ => destruct x eqn:?
    end
  end.

(** Splitting of conjunctions only, each part then settled by
    evaluation. *)
Ltac split_conj :=
  repeat match goal with |- _ /\ _ => split end.

Section Helpers.

Context {W : Type} `{RT : Runtime W}.

(** ** The process invoker *)

(** What [run_executable] makes of each answer of the operating system. *)
Lemma run_executable_spawn executable_path positional_args named_args
    (w : W) :
  run_executable executable_path positional_args named_args w =
  let command :=
    executable_command executable_path positional_args named_args in
  match spawn command (Some (path_parent executable_path)) (Some K.utf_8) w
  with
  | (Exited code out err, w') =>
    if code =? 0
    then (Ok (Some {| args := command; returncode := code;
                      stdout := out; stderr := err |}), w')
    else (Ok None, w')
  | (LaunchRaised FileNotFoundError, w') => (Ok None, w')
  | (LaunchRaised (CalledProcessError _ _ _), w') => (Ok None, w')
  | (LaunchRaised e, w') => (Raise e, w')
  end.
Proof.
  unfold run_executable, executable_command, subprocess_run. munfold.
  cbn zeta. destruct (spawn _ _ _ w) as [[code out err | e] w'].
  - destruct (code =? 0); reflexivity.
  - destruct e; reflexivity.
Qed.

(** ** The monad *)

Lemma bind_Ok {A B} (m : M W A) (k : A -> M W B) w a w1 :
  m w = (Ok a, w1) -> bind m k w = k a w1.
Proof. unfold bind. intros ->. reflexivity. Qed.

Lemma bind_Raise {A B} (m : M W A) (k : A -> M W B) w e w1 :
  m w = (Raise e, w1) -> bind m k w = (Raise e, w1).
Proof. unfold bind. intros ->. reflexivity. Qed.

Lemma bind_inv {A B} (m : M W A) (k : A -> M W B) w b w' :
  bind m k w = (Ok b, w') ->
  exists a w1, m w = (Ok a, w1) /\ k a w1 = (Ok b, w').
Proof.
  unfold bind. destruct (m w) as [[a | e] w1]; intros H.
  - eauto.
  - discriminate.
Qed.

Lemma eqb_eq (a b : str) : Str.eqb a b = true <-> a = b.
Proof. unfold Str.eqb. apply bool_decide_eq_true. Qed.

Lemma eqb_neq (a b : str) : a <> b -> Str.eqb a b = false.
Proof. unfold Str.eqb. apply bool_decide_eq_false. Qed.

Lemma eqb_refl (a : str) : Str.eqb a a = true.
Proof. apply eqb_eq. reflexivity. Qed.

(** What [run_plain_python_script] makes of each answer of the operating
    system: only [CalledProcessError] is caught. *)
Lemma run_plain_python_script_spawn script_path script_args (w : W) :
  run_plain_python_script script_path script_args w =
  let command := [sys_executable; script_path] ++ script_args in
  match spawn command None None w with
  | (Exited code out err, w') =>
    if code =? 0
    then (Ok (Some {| args := command; returncode := code;
                      stdout := out; stderr := err |}), w')
    else (Ok None, w')
  | (LaunchRaised (CalledProcessError _ _ _), w') => (Ok None, w')
  | (LaunchRaised e, w') => (Raise e, w')
  end.
Proof.
  unfold run_plain_python_script, subprocess_run. munfold.
  cbn zeta. destruct (spawn _ _ _ w) as [[code out err | e] w'].
  - destruct (code =? 0); reflexivity.
  - destruct e; reflexivity.
Qed.

(** ** The signature file *)

(** [parse_signature_file] leaves the world as it was. The existence check
    of line 213 stands before the [try]: what it raises leaves the
    function. Once it has returned, the function returns a string: every
    exception of its body is caught. *)
Lemma parse_signature_file_cases filepath (w : W) :
  match path_exists filepath w with
  | Raise e => parse_signature_file filepath w = (Raise e, w)
  | Ok _ => exists s, parse_signature_file filepath w = (Ok s, w)
  end.
Proof.
  unfold parse_signature_file, py_get. munfold.
  destruct (path_exists filepath w) as [[|] | e0]; cbn;
    [| eauto | reflexivity].
  destruct (json_load filepath w) as [data | e]; cbn.
  - destruct data as [| | | | | |items]; cbn; try (eexists; reflexivity).
    destruct (dict_get K.location_info items (JDict [])); cbn;
      try (eexists; reflexivity).
    mcase; eexists; reflexivity.
  - destruct e; eexists; reflexivity.
Qed.

Lemma parse_signature_file_returns filepath (w : W) found :
  path_exists filepath w = Ok found ->
  exists s, parse_signature_file filepath w = (Ok s, w).
Proof.
  intros H. pose proof (parse_signature_file_cases filepath w) as Hc.
  rewrite H in Hc. exact Hc.
Qed.

Lemma parse_signature_file_world filepath (w : W) r w' :
  parse_signature_file filepath w = (r, w') -> w' = w.
Proof.
  pose proof (parse_signature_file_cases filepath w) as Hc.
  destruct (path_exists filepath w) as [found | e].
  - destruct Hc as [s ->]. intros [= _ <-]. reflexivity.
  - rewrite Hc. intros [= _ <-]. reflexivity.
Qed.

(** ** The steps of the pipeline *)

(** The test of line 296: the second file is looked for only when the
    first one was found. *)
Lemma or_else_not_exists a b (w : W) :
  or_else (not_exists a) (not_exists b) w =
  match path_exists a w with
  | Ok true =>
    match path_exists b w with
    | Ok found => (Ok (negb found), w)
    | Raise e => (Raise e, w)
    end
  | Ok false => (Ok true, w)
  | Raise e => (Raise e, w)
  end.
Proof.
  munfold. destruct (path_exists a w) as [[|] | e]; cbn;
    destruct (path_exists b w) as [found | e']; reflexivity.
Qed.

Section PipelineFacts.

Variables (paths : Paths) (config : Config) (cli_args : CliArgs).
Variable duplication_map : gmap str str.

(** A step whose gate is closed does nothing at all. *)
Lemma step_restore_skip ps a b :
  ps <> K.OK -> step_restore paths ps a b = ret ps.
Proof. intros H. unfold step_restore. rewrite eqb_neq; done. Qed.

Lemma step_compare_skip ps cr a b :
  ps <> K.OK -> step_compare paths ps cr a b = ret cr.
Proof. intros H. unfold step_compare. rewrite eqb_neq; done. Qed.

Lemma step_analyze_skip ps sc a b :
  ps <> K.OK -> step_analyze paths config cli_args ps sc a b = ret sc.
Proof. intros H. unfold step_analyze. rewrite eqb_neq; done. Qed.

(** Step B keeps the status or sets [RESTORE_FAILED]. *)
Lemma step_restore_status ps a b (w : W) ps' w' :
  step_restore paths ps a b w = (Ok ps', w') ->
  ps' = ps \/ ps' = K.RESTORE_FAILED.
Proof.
  unfold step_restore. munfold. destruct (Str.eqb ps K.OK).
  - destruct (path_exists a w) as [[|] | e]; cbn [negb]; [| | discriminate].
    + destruct (restore_args paths a b) as [args | e]; [|discriminate].
      destruct (run_poetry_project _ _ _ w) as [[[] | e] w1]; cbn;
        intros [= <- <-]; auto.
    + intros [= <- <-]. auto.
  - intros [= <- <-]. auto.
Qed.

(** Step D leaves the score it is given, a sentinel, or the number written
    by the digits the pattern captured. *)
Lemma step_analyze_score ps sc a b (w : W) c w' :
  step_analyze paths config cli_args ps sc a b w = (Ok c, w') ->
  c = sc \/ c ∈ score_sentinels
  \/ exists digits, c = CInt (decimal_value digits).
Proof.
  unfold step_analyze, score_sentinels. munfold.
  destruct (Str.eqb ps K.OK); [|intros [= <- <-]; auto].
  destruct (path_exists (inspector_exe_path paths) w) as [[|] | e];
    cbn [negb];
    [| intros [= <- <-]; right; left; set_solver | discriminate].
  destruct (path_exists b w) as [[|] | e]; cbn [negb];
    [| intros [= <- <-]; right; left; set_solver | discriminate].
  destruct (inspector_named_args paths config cli_args a b)
    as [named | e]; [|discriminate].
  destruct (run_executable _ _ _ w) as [[[r|] | e] w1]; cbn;
    [| intros [= <- <-]; right; left; set_solver | discriminate].
  destruct (score_pattern_search (stdout r)) as [g|];
    [| intros [= <- <-]; right; left; set_solver].
  unfold py_int. munfold. destruct (_ && _); [discriminate|].
  intros [= <- <-]. right; right. eauto.
Qed.

(** The run of steps A to D, taken apart and put together. *)
Lemma run_stages_inv sd (w : W) l w4 :
  run_stages paths config cli_args sd w = (Ok l, w4) ->
  exists w0 ok w1 ps w2 cr w3 sc,
    mkdir_exist_ok (student_output_dir_abs paths sd) w = (Ok tt, w0)
    /\ decrypt_files paths (files_to_decrypt paths config sd) w0
       = (Ok ok, w1)
    /\ step_restore paths (if negb ok then K.DECRYPT_FAILED else K.OK)
         (log_decrypted_path_abs paths config sd)
         (log_restored_path_abs paths config sd) w1 = (Ok ps, w2)
    /\ step_compare paths ps K.NOT_CHECKED
         (original_main_py_path config sd)
         (log_restored_path_abs paths config sd) w2 = (Ok cr, w3)
    /\ step_analyze paths config cli_args ps (CStr K.NOT_ANALYZED)
         (student_output_dir_abs paths sd)
         (log_decrypted_path_abs paths config sd) w3 = (Ok sc, w4)
    /\ l = {| pipeline_status := ps; comparison_result := cr;
              analysis_score := sc |}.
Proof.
  unfold run_stages. cbn zeta. intros H.
  apply bind_inv in H as ([] & w0 & H0 & H).
  apply bind_inv in H as (ok & w1 & H1 & H).
  apply bind_inv in H as (ps & w2 & H2 & H).
  apply bind_inv in H as (cr & w3 & H3 & H).
  apply bind_inv in H as (sc & w4' & H4 & H).
  unfold ret in H. injection H as <- <-.
  exists w0, ok, w1, ps, w2, cr, w3, sc. repeat split; assumption.
Qed.

Lemma run_stages_intro sd (w w0 w1 w2 w3 w4 : W) ok ps cr sc :
  mkdir_exist_ok (student_output_dir_abs paths sd) w = (Ok tt, w0) ->
  decrypt_files paths (files_to_decrypt paths config sd) w0 = (Ok ok, w1) ->
  step_restore paths (if negb ok then K.DECRYPT_FAILED else K.OK)
    (log_decrypted_path_abs paths config sd)
    (log_restored_path_abs paths config sd) w1 = (Ok ps, w2) ->
  step_compare paths ps K.NOT_CHECKED
    (original_main_py_path config sd)
    (log_restored_path_abs paths config sd) w2 = (Ok cr, w3) ->
  step_analyze paths config cli_args ps (CStr K.NOT_ANALYZED)
    (student_output_dir_abs paths sd)
    (log_decrypted_path_abs paths config sd) w3 = (Ok sc, w4) ->
  run_stages paths config cli_args sd w
  = (Ok {| pipeline_status := ps; comparison_result := cr;
           analysis_score := sc |}, w4).
Proof.
  intros H0 H1 H2 H3 H4. unfold run_stages. cbn zeta.
  rewrite (bind_Ok _ _ _ _ _ H0), (bind_Ok _ _ _ _ _ H1).
  rewrite (bind_Ok _ _ _ _ _ H2), (bind_Ok _ _ _ _ _ H3).
  rewrite (bind_Ok _ _ _ _ _ H4). reflexivity.
Qed.

(** After the steps, the status is one of the three of the state machine. *)
Lemma run_stages_status sd (w : W) l w' :
  run_stages paths config cli_args sd w = (Ok l, w') ->
  pipeline_status l = K.OK \/ pipeline_status l = K.DECRYPT_FAILED
  \/ pipeline_status l = K.RESTORE_FAILED.
Proof.
  intros H. apply run_stages_inv in H
    as (w0 & ok & w1 & ps & w2 & cr & w3 & sc & _ & _ & H2 & _ & _ & ->).
  cbn. apply step_restore_status in H2 as [-> | ->]; [|auto].
  destruct ok; auto.
Qed.

(** Once the steps have returned and the existence check of the decrypted
    signature returns, the aggregation returns a row, in the same world. *)
Lemma process_student_submission_row sd (w : W) l w' found :
  run_stages paths config cli_args sd w = (Ok l, w') ->
  path_exists (signature_decrypted_path_abs paths config sd) w' = Ok found ->
  exists loc,
    process_student_submission paths config cli_args duplication_map sd w
    = (Ok {| student_id := path_name sd;
             status := final_status l;
             duplication_group :=
               default K.UNIQUE (duplication_map !! path_name sd);
             process_analysis_score := analysis_score l;
             location := loc |}, w').
Proof.
  intros H Hex. unfold process_student_submission. cbn zeta.
  rewrite (bind_Ok _ _ _ _ _ H).
  destruct (parse_signature_file_returns _ _ _ Hex) as [loc Hloc].
  exists loc. rewrite (bind_Ok _ _ _ _ _ Hloc). reflexivity.
Qed.

(** When that check raises, the exception leaves the pipeline. *)
Lemma process_student_submission_raise sd (w : W) l w' e :
  run_stages paths config cli_args sd w = (Ok l, w') ->
  path_exists (signature_decrypted_path_abs paths config sd) w' = Raise e ->
  process_student_submission paths config cli_args duplication_map sd w
  = (Raise e, w').
Proof.
  intros H Hex. unfold process_student_submission. cbn zeta.
  rewrite (bind_Ok _ _ _ _ _ H).
  pose proof (parse_signature_file_cases
                (signature_decrypted_path_abs paths config sd) w') as Hc.
  rewrite Hex in Hc. rewrite (bind_Raise _ _ _ _ _ Hc). reflexivity.
Qed.

(** Every row the pipeline returns comes from a return of the steps. *)
Lemma process_student_submission_inv sd (w : W) row w' :
  process_student_submission paths config cli_args duplication_map sd w
  = (Ok row, w') ->
  exists l loc,
    run_stages paths config cli_args sd w = (Ok l, w')
    /\ row = {| student_id := path_name sd;
                status := final_status l;
                duplication_group :=
                  default K.UNIQUE (duplication_map !! path_name sd);
                process_analysis_score := analysis_score l;
                location := loc |}.
Proof.
  unfold process_student_submission. cbn zeta. intros H.
  apply bind_inv in H as (l & w1 & H1 & H).
  apply bind_inv in H as (loc & w2 & H2 & H).
  apply parse_signature_file_world in H2 as ->.
  unfold ret in H. injection H as <- <-. eauto.
Qed.

(** The row of a finished future carries the name of its directory. *)
Lemma task_row_id (f : Future) :
  (exists w w' : W,
     process_student_submission paths config cli_args duplication_map
       f.1 w = (f.2, w')) ->
  student_id (row_of_future f) = path_name f.1.
Proof.
  intros (w & w' & H). unfold row_of_future.
  destruct f as [sd [row|e]]; cbn in *; [|reflexivity].
  apply process_student_submission_inv in H as (l & loc & _ & ->).
  reflexivity.
Qed.

(** The loop of step A returns [False] only when a run of the decoder has
    returned [False], and it stops right there. *)
Lemma decrypt_files_false files (w : W) w1 :
  decrypt_files paths files w = (Ok false, w1) ->
  exists input_path output_path arguments w',
    (input_path, output_path) ∈ files
    /\ path_exists input_path w' = Ok true
    /\ decoder_args paths input_path output_path = Ok arguments
    /\ run_poetry_project (decoder_project_path paths)
         K.mission_decoder_main arguments w' = (Ok false, w1).
Proof.
  revert w. induction files as [|[i o] files IH]; intros w;
    cbn [decrypt_files].
  - unfold ret. discriminate.
  - unfold bind at 1, reads.
    destruct (path_exists i w) as [[|] | e] eqn:Hex; cbn [negb];
      [| | discriminate].
    + unfold bind at 1, lift.
      destruct (decoder_args paths i o) as [dargs | e] eqn:Hargs;
        [|discriminate].
      unfold bind.
      destruct (run_poetry_project _ _ dargs w) as [[[|] | e] w2] eqn:Hrun;
        cbn [negb]; [| | discriminate].
      * intros H. destruct (IH _ H) as (i' & o' & a' & w' & Hin & Hrest).
        exists i', o', a', w'. split; [right; exact Hin | exact Hrest].
      * unfold ret. intros [= <-]. exists i, o, dargs, w.
        split; [left|]. split; [exact Hex|]. split; [exact Hargs|exact Hrun].
    + intros H. destruct (IH _ H) as (i' & o' & a' & w' & Hin & Hrest).
      exists i', o', a', w'. split; [right; exact Hin | exact Hrest].
Qed.

End PipelineFacts.

(** ** The loop of the duplicate group resolver *)

Section ResolverFacts.

Variable submission_dir : str.

Lemma dup_line_delimiter st line :
  is_delimiter line = true ->
  dup_line submission_dir st line =
  match Str.chr (65 + (group_counter st + 1) - 1) with
  | Some label =>
    Ok {| group_counter := group_counter st + 1;
          current_group_id := label;
          dup_map := dup_map st |}
  | None => Raise ValueError
  end.
Proof. unfold dup_line, is_delimiter. intros ->. reflexivity. Qed.

Lemma dup_line_member st line id :
  member_id submission_dir line = Some id ->
  dup_line submission_dir st line =
  Ok {| group_counter := group_counter st;
        current_group_id := current_group_id st;
        dup_map := <[id := current_group_id st]> (dup_map st) |}.
Proof.
  unfold dup_line, member_id, is_delimiter.
  destruct (Str.startswith line K.dashes); [discriminate|].
  destruct (Str.contains K.spaced_dash line); [|discriminate].
  intros ->. reflexivity.
Qed.

Lemma dup_line_other st line :
  is_delimiter line = false ->
  member_id submission_dir line = None ->
  dup_line submission_dir st line = Ok st.
Proof.
  unfold dup_line, member_id, is_delimiter. intros ->.
  destruct (Str.contains K.spaced_dash line); [|reflexivity].
  intros ->. reflexivity.
Qed.

Lemma dup_lines_app l1 l2 st :
  dup_lines submission_dir (l1 ++ l2) st =
  match dup_lines submission_dir l1 st with
  | Ok st1 => dup_lines submission_dir l2 st1
  | Raise e => Raise e
  end.
Proof.
  revert st. induction l1 as [|line l1 IH]; intros st; cbn; [reflexivity|].
  destruct (dup_line submission_dir st line); [apply IH | reflexivity].
Qed.

Lemma count_delimiters_cons line lines :
  count_delimiters (line :: lines) =
  (if is_delimiter line then 1 else 0) + count_delimiters lines.
Proof.
  unfold count_delimiters. rewrite filter_cons.
  destruct (is_delimiter line); case_decide; try done; cbn [length]; lia.
Qed.

Lemma count_delimiters_nonneg lines : 0 <= count_delimiters lines.
Proof. unfold count_delimiters. lia. Qed.

(** The loop returns as long as [chr] is defined on every label it needs,
    and then the counter has counted the delimiter lines and the current
    label is the one of the counter. *)
Lemma dup_lines_counter lines st :
  0 <= group_counter st ->
  current_group_id st = group_label (group_counter st) ->
  group_counter st + count_delimiters lines <= 1114047 ->
  exists st',
    dup_lines submission_dir lines st = Ok st'
    /\ group_counter st' = group_counter st + count_delimiters lines
    /\ current_group_id st' = group_label (group_counter st').
Proof.
  revert st. induction lines as [|line lines IH]; intros st H0 Hlab Hmax.
  - exists st. cbn. unfold count_delimiters. cbn. split; [done|].
    split; [lia | exact Hlab].
  - rewrite count_delimiters_cons in Hmax. cbn [dup_lines].
    pose proof (count_delimiters_nonneg lines) as Hn.
    destruct (is_delimiter line) eqn:Hd.
    + rewrite dup_line_delimiter by exact Hd. unfold Str.chr.
      destruct (_ && _) eqn:Hrange.
      2:{ apply andb_false_iff in Hrange as [Hr | Hr];
          [apply Z.leb_gt in Hr | apply Z.leb_gt in Hr]; lia. }
      edestruct (IH {| group_counter := group_counter st + 1;
                       current_group_id := [65 + (group_counter st + 1) - 1];
                       dup_map := dup_map st |}) as (st' & E & Hc & Hl).
      * cbn. lia.
      * cbn. unfold group_label.
        destruct (Z.eqb_spec (group_counter st + 1) 0); [lia | reflexivity].
      * cbn. lia.
      * exists st'. split; [exact E|]. split; [|exact Hl].
        rewrite Hc, count_delimiters_cons, Hd. cbn. lia.
    + destruct (member_id submission_dir line) as [id|] eqn:Hm.
      * rewrite (dup_line_member _ _ _ Hm).
        edestruct (IH {| group_counter := group_counter st;
                         current_group_id := current_group_id st;
                         dup_map := <[id := current_group_id st]> (dup_map st) |})
          as (st' & E & Hc & Hl); [exact H0 | exact Hlab | cbn; lia |].
        exists st'. split; [exact E|]. split; [|exact Hl].
        rewrite Hc, count_delimiters_cons, Hd. cbn. lia.
      * rewrite (dup_line_other _ _ Hd Hm).
        edestruct (IH st) as (st' & E & Hc & Hl);
          [exact H0 | exact Hlab | lia |].
        exists st'. split; [exact E|]. split; [|exact Hl].
        rewrite Hc, count_delimiters_cons, Hd. lia.
Qed.

(** Lines that do not yield [id] leave its entry as it was. *)
Lemma dup_lines_untouched lines st st' id :
  (forall l, l ∈ lines -> member_id submission_dir l <> Some id) ->
  dup_lines submission_dir lines st = Ok st' ->
  dup_map st' !! id = dup_map st !! id.
Proof.
  revert st. induction lines as [|line lines IH]; intros st Hno E.
  - cbn in E. injection E as <-. reflexivity.
  - cbn [dup_lines] in E.
    assert (Hline : member_id submission_dir line <> Some id)
      by (apply Hno; left).
    assert (Hrest : forall l, l ∈ lines ->
                      member_id submission_dir l <> Some id)
      by (intros l Hl; apply Hno; right; exact Hl).
    destruct (is_delimiter line) eqn:Hd.
    + rewrite dup_line_delimiter in E by exact Hd.
      destruct (Str.chr _); [|discriminate].
      rewrite (IH _ Hrest E). reflexivity.
    + destruct (member_id submission_dir line) as [id'|] eqn:Hm.
      * rewrite (dup_line_member _ _ _ Hm) in E.
        rewrite (IH _ Hrest E). cbn. apply lookup_insert_ne. congruence.
      * rewrite (dup_line_other _ _ Hd Hm) in E. apply (IH _ Hrest E).
Qed.

(** The entry of an identifier is the label that was current at the last
    member line that yields it. *)
Lemma dup_lines_last_member pre line post st st' id :
  0 <= group_counter st ->
  current_group_id st = group_label (group_counter st) ->
  member_id submission_dir line = Some id ->
  (forall l, l ∈ post -> member_id submission_dir l <> Some id) ->
  dup_lines submission_dir (pre ++ line :: post) st = Ok st' ->
  dup_map st' !! id
  = Some (group_label (group_counter st + count_delimiters pre)).
Proof.
  intros H0 Hlab Hm Hpost E. rewrite dup_lines_app in E.
  destruct (dup_lines submission_dir pre st) as [st1|e] eqn:E1;
    [|discriminate].
  assert (Hst1 : group_counter st1
                 = group_counter st + count_delimiters pre
                 /\ current_group_id st1 = group_label (group_counter st1)).
  { clear E Hpost. revert st H0 Hlab E1.
    induction pre as [|l pre IH]; intros st H0 Hlab E1.
    - cbn in E1. injection E1 as <-. unfold count_delimiters. cbn.
      split; [lia | exact Hlab].
    - cbn [dup_lines] in E1. rewrite count_delimiters_cons.
      destruct (is_delimiter l) eqn:Hd.
      + rewrite dup_line_delimiter in E1 by exact Hd. unfold Str.chr in E1.
        destruct (_ && _); [|discriminate].
        apply IH in E1 as [Hc Hl]; cbn in *.
        * split; [lia | exact Hl].
        * lia.
        * unfold group_label.
          destruct (Z.eqb_spec (group_counter st + 1) 0);
            [lia | reflexivity].
      + destruct (member_id submission_dir l) as [id'|] eqn:Hm'.
        * rewrite (dup_line_member _ _ _ Hm') in E1.
          apply IH in E1 as [Hc Hl]; cbn in *; [|exact H0 | exact Hlab].
          split; [lia | exact Hl].
        * rewrite (dup_line_other _ _ Hd Hm') in E1.
          apply IH in E1 as [Hc Hl]; [|exact H0 | exact Hlab].
          split; [lia | exact Hl]. }
  destruct Hst1 as [Hc Hl]. cbn [dup_lines] in E.
  rewrite (dup_line_member _ _ _ Hm) in E.
  rewrite (dup_lines_untouched _ _ _ _ Hpost E). cbn.
  rewrite lookup_insert_eq, Hl, Hc. reflexivity.
Qed.

End ResolverFacts.

(** ** The order of strings *)

Lemma ltb_irrefl (a : str) : Str.ltb a a = false.
Proof.
  induction a as [|x a IH]; cbn; [reflexivity|].
  rewrite Z.ltb_irrefl. exact IH.
Qed.






(** ** The collection loop and the sort *)

Lemma collect_app completed report_data :
  collect completed report_data
  = report_data ++ (row_of_future <$> completed).
Proof.
  revert report_data.
  induction completed as [|[sd [row|e]] rest IH]; intros acc; cbn.
  - rewrite app_nil_r. reflexivity.
  - rewrite IH, <- app_assoc. reflexivity.
  - rewrite IH, <- app_assoc. reflexivity.
Qed.

Lemma insert_row_Permutation r l : insert_row r l ≡ₚ r :: l.
Proof.
  induction l as [|r' l IH]; cbn; [reflexivity|].
  destruct (Str.ltb _ _); [|reflexivity].
  rewrite IH. apply Permutation_swap.
Qed.

Lemma sorted_by_student_id_Permutation l : sorted_by_student_id l ≡ₚ l.
Proof.
  induction l as [|r l IH]; cbn; [reflexivity|].
  rewrite insert_row_Permutation. by rewrite IH.
Qed.






(** The tasks of the pool, run in sequence: one future for each directory,
    each holding an outcome of its task. *)
Lemma run_tasks_futures (task : Path -> M W Row) student_dirs (w : W) :
  (run_tasks task student_dirs w).1.*1 = student_dirs
  /\ Forall (fun f : Future => exists w1 w2, task f.1 w1 = (f.2, w2))
       (run_tasks task student_dirs w).1.
Proof.
  revert w. induction student_dirs as [|sd rest IH]; intros w; cbn.
  - split; [reflexivity | constructor].
  - destruct (task sd w) as [outcome w1] eqn:E.
    destruct (run_tasks task rest w1) as [futures w2] eqn:E'.
    destruct (IH w1) as [Hd Hf]. rewrite E' in Hd, Hf. cbn in *.
    split; [by rewrite Hd|]. constructor; [|exact Hf]. cbn. eauto.
Qed.

End Helpers.

Section Claims.

Context {W : Type} `{RT : Runtime W}.

(** C7, as amended: the value returned by [run_executable] tells success
    from failure and nothing more. On exit status 0 it is the completed
    process with the captured streams; on a non-zero exit status and on an
    executable that is not found it is [None] in both cases; any other
    error of the launch is raised to the caller. *)
Theorem C7_run_executable_result executable_path positional_args named_args
    (w w' : W) (outcome : SpawnOutcome) :
  spawn (executable_command executable_path positional_args named_args)
    (Some (path_parent executable_path)) (Some K.utf_8) w = (outcome, w') ->
  (forall out err, outcome = Exited 0 out err ->
     run_executable executable_path positional_args named_args w =
     (Ok (Some {| args := executable_command executable_path
                            positional_args named_args;
                  returncode := 0; stdout := out; stderr := err |}), w'))
  /\ (forall code out err, outcome = Exited code out err -> code <> 0 ->
        run_executable executable_path positional_args named_args w =
        (Ok None, w'))
  /\ (outcome = LaunchRaised FileNotFoundError ->
        run_executable executable_path positional_args named_args w =
        (Ok None, w'))
  /\ (forall e, outcome = LaunchRaised e -> e <> FileNotFoundError ->
        (forall code out err, e <> CalledProcessError code out err) ->
        run_executable executable_path positional_args named_args w =
        (Raise e, w')).
Proof.
  intros Hspawn. rewrite run_executable_spawn. cbn zeta. rewrite Hspawn.
  repeat split.
  - intros out err ->. reflexivity.
  - intros code out err -> Hcode.
    destruct (Z.eqb_spec code 0); [contradiction | reflexivity].
  - intros ->. reflexivity.
  - intros e -> Hnf Hcp. destruct e; try reflexivity.
    + contradiction.
    + exfalso. eapply Hcp. reflexivity.
Qed.

(** C10: a signature file that is valid JSON and whose nested [city] is the
    empty string gives [KEY_OR_TYPE_INVALID], as a [city] that is absent
    ([None]) or of another type does. *)
Theorem C10_empty_city filepath (w : W) items location_items city :
  path_exists filepath w = Ok true ->
  json_load filepath w = Ok (JDict items) ->
  dict_get K.location_info items (JDict []) = JDict location_items ->
  dict_get K.city location_items JNull = city ->
  city = JStr [] \/ isinstance_str city = false ->
  parse_signature_file filepath w = (Ok K.KEY_OR_TYPE_INVALID, w).
Proof.
  intros Hex Hload Hloc Hcity Hcase.
  unfold parse_signature_file, py_get. munfold.
  rewrite Hex. cbn. rewrite Hload. cbn. rewrite Hloc. cbn. rewrite Hcity.
  destruct Hcase as [-> | Hty].
  - reflexivity.
  - rewrite Hty, andb_false_r. reflexivity.
Qed.

Section PipelineClaims.

Variables (paths : Paths) (config : Config) (cli_args : CliArgs).
Variable duplication_map : gmap str str.

(** C2: the status of every record an item's run returns is the failure
    code, [DECRYPT_FAILED] or [RESTORE_FAILED], if [pipeline_status] has
    left ["OK"], and is [comparison_result] otherwise; a mismatch after a
    successful decryption and restoration is so reported as
    ["DIFFERENT"]. *)
Theorem C2_final_status sd (w : W) row w' :
  process_student_submission paths config cli_args duplication_map sd w
  = (Ok row, w') ->
  exists l,
    run_stages paths config cli_args sd w = (Ok l, w')
    /\ (pipeline_status l = K.OK \/ pipeline_status l = K.DECRYPT_FAILED
        \/ pipeline_status l = K.RESTORE_FAILED)
    /\ (pipeline_status l <> K.OK -> status row = pipeline_status l)
    /\ (pipeline_status l = K.OK -> status row = comparison_result l)
    /\ (pipeline_status l = K.OK -> comparison_result l = K.DIFFERENT ->
        status row = K.DIFFERENT).
Proof.
  intros H.
  apply process_student_submission_inv in H as (l & loc & Hrun & ->).
  exists l. split; [exact Hrun|]. cbn. unfold final_status.
  split; [eapply run_stages_status; eassumption|].
  split; [|split].
  - intros Hne. rewrite eqb_neq; done.
  - intros ->. reflexivity.
  - intros -> ->. reflexivity.
Qed.

(** C3, as amended: when the decryption step ends with [decryption_ok]
    false, which it does only when a run of the decoder has returned
    [False], the steps return with status [DECRYPT_FAILED],
    [comparison_result] still [NOT_CHECKED] and [analysis_score] still
    [NOT_ANALYZED], in the very world the decryption left; every record the
    run returns has that status and that score, and the run does return a
    record once the existence check of the decrypted signature returns,
    while what that check raises leaves the run; and in general a step
    that finds a failure status is the computation that does nothing and
    hands the values on. *)
Theorem C3_decrypt_failed sd (w w0 w1 : W) :
  mkdir_exist_ok (student_output_dir_abs paths sd) w = (Ok tt, w0) ->
  decrypt_files paths (files_to_decrypt paths config sd) w0
  = (Ok false, w1) ->
  run_stages paths config cli_args sd w
  = (Ok {| pipeline_status := K.DECRYPT_FAILED;
           comparison_result := K.NOT_CHECKED;
           analysis_score := CStr K.NOT_ANALYZED |}, w1)
  /\ (exists input_path output_path arguments w',
        (input_path, output_path) ∈ files_to_decrypt paths config sd
        /\ path_exists input_path w' = Ok true
        /\ decoder_args paths input_path output_path = Ok arguments
        /\ run_poetry_project (decoder_project_path paths)
             K.mission_decoder_main arguments w' = (Ok false, w1))
  /\ (forall row w',
        process_student_submission paths config cli_args duplication_map
          sd w = (Ok row, w') ->
        w' = w1
        /\ status row = K.DECRYPT_FAILED
        /\ process_analysis_score row = CStr K.NOT_ANALYZED)
  /\ (forall found,
        path_exists (signature_decrypted_path_abs paths config sd) w1
        = Ok found ->
        exists row,
          process_student_submission paths config cli_args duplication_map
            sd w = (Ok row, w1)
          /\ status row = K.DECRYPT_FAILED
          /\ process_analysis_score row = CStr K.NOT_ANALYZED)
  /\ (forall e,
        path_exists (signature_decrypted_path_abs paths config sd) w1
        = Raise e ->
        process_student_submission paths config cli_args duplication_map
          sd w = (Raise e, w1))
  /\ (forall ps cr sc a b,
        ps <> K.OK ->
        step_restore paths ps a b = ret (W := W) ps
        /\ step_compare paths ps cr a b = ret (W := W) cr
        /\ step_analyze paths config cli_args ps sc a b = ret (W := W) sc).
Proof.
  intros H0 H1.
  assert (Hne : K.DECRYPT_FAILED <> K.OK) by discriminate.
  assert (Hrun : run_stages paths config cli_args sd w
                 = (Ok {| pipeline_status := K.DECRYPT_FAILED;
                          comparison_result := K.NOT_CHECKED;
                          analysis_score := CStr K.NOT_ANALYZED |}, w1)).
  { eapply run_stages_intro; try eassumption; cbn [negb].
    - rewrite step_restore_skip by exact Hne. reflexivity.
    - rewrite step_compare_skip by exact Hne. reflexivity.
    - rewrite step_analyze_skip by exact Hne. reflexivity. }
  split; [exact Hrun|].
  split; [eapply decrypt_files_false; exact H1|].
  split; [|split; [|split]].
  - intros row w' Hrow.
    apply process_student_submission_inv in Hrow as (l & loc & Hl & ->).
    rewrite Hrun in Hl. injection Hl as <- <-. repeat split.
  - intros found Hex.
    destruct (process_student_submission_row paths config cli_args
                duplication_map sd w _ w1 found Hrun Hex) as [loc Hrow].
    eexists. split; [exact Hrow|]. split; reflexivity.
  - intros e Hex.
    exact (process_student_submission_raise paths config cli_args
             duplication_map sd w _ w1 e Hrun Hex).
  - intros ps cr sc a b Hps.
    auto using step_restore_skip, step_compare_skip, step_analyze_skip.
Qed.

(** C4, as amended: for a run that gets to step C with status ["OK"], the
    comparison result is [FILE_MISSING] when the original or the restored
    file is missing; else ["OK"] when the diff script exits with 0 and
    prints the marker, ["DIFFERENT"] when it exits with 0 without the
    marker, and [CHECK_FAILED] when it exits with another status; this
    result is the status of every record the run returns, and the run
    returns a record once the analysis step and the existence check of the
    decrypted signature have returned. *)
Theorem C4_compare sd (w w2 w3 : W) cr :
  reaches_compare paths config sd w w2 ->
  compare_case paths config sd w2 cr w3 ->
  step_compare paths K.OK K.NOT_CHECKED (original_main_py_path config sd)
    (log_restored_path_abs paths config sd) w2 = (Ok cr, w3)
  /\ (forall row w',
        process_student_submission paths config cli_args duplication_map
          sd w = (Ok row, w') ->
        status row = cr)
  /\ (forall sc w4 found,
        step_analyze paths config cli_args K.OK (CStr K.NOT_ANALYZED)
          (student_output_dir_abs paths sd)
          (log_decrypted_path_abs paths config sd) w3 = (Ok sc, w4) ->
        path_exists (signature_decrypted_path_abs paths config sd) w4
        = Ok found ->
        exists row,
          process_student_submission paths config cli_args duplication_map
            sd w = (Ok row, w4)
          /\ status row = cr).
Proof.
  intros (w0 & w1 & H0 & H1 & H2) Hcase.
  assert (Hcmp : step_compare paths K.OK K.NOT_CHECKED
                   (original_main_py_path config sd)
                   (log_restored_path_abs paths config sd) w2 = (Ok cr, w3)).
  { unfold step_compare. rewrite eqb_refl. unfold bind at 1.
    rewrite or_else_not_exists.
    destruct Hcase as [Hmiss | out err w3 Ho Hr Hsp Hin
                       | out err w3 Ho Hr Hsp Hin
                       | code out err w3 Ho Hr Hsp Hcode].
    - destruct Hmiss as [-> | [-> ->]]; reflexivity.
    - rewrite Ho, Hr. cbn [negb]. unfold bind.
      rewrite run_plain_python_script_spawn. cbn zeta.
      unfold diff_command in Hsp. rewrite Hsp. cbn. rewrite Hin.
      reflexivity.
    - rewrite Ho, Hr. cbn [negb]. unfold bind.
      rewrite run_plain_python_script_spawn. cbn zeta.
      unfold diff_command in Hsp. rewrite Hsp. cbn. rewrite Hin.
      reflexivity.
    - rewrite Ho, Hr. cbn [negb]. unfold bind.
      rewrite run_plain_python_script_spawn. cbn zeta.
      unfold diff_command in Hsp. rewrite Hsp.
      destruct (Z.eqb_spec code 0); [contradiction | reflexivity]. }
  split; [exact Hcmp|]. split.
  - intros row w' Hrow.
    apply process_student_submission_inv in Hrow as (l & loc & Hl & ->).
    apply run_stages_inv in Hl
      as (w0' & ok & w1' & ps & w2' & cr' & w3' & sc & E0 & E1 & E2 & E3
          & _ & ->).
    rewrite H0 in E0. injection E0 as <-.
    rewrite H1 in E1. injection E1 as <- <-. cbn [negb] in E2.
    rewrite H2 in E2. injection E2 as <- <-.
    rewrite Hcmp in E3. injection E3 as <- <-.
    cbn. unfold final_status. cbn. rewrite eqb_refl. reflexivity.
  - intros sc w4 found H4 Hex.
    assert (Hrun := run_stages_intro paths config cli_args sd w w0 w1 w2 w3
                      w4 true K.OK cr sc H0 H1 H2 Hcmp H4).
    destruct (process_student_submission_row paths config cli_args
                duplication_map sd w _ w4 found Hrun Hex) as [loc Hrow].
    eexists. split; [exact Hrow|]. reflexivity.
Qed.

(** The digits of a run write a number that is not negative. *)
Lemma decimal_value_nonneg digits :
  (forall c d, unicode_decimal c = Some d -> 0 <= d) ->
  0 <= decimal_value digits.
Proof.
  intros Hdec. unfold decimal_value.
  assert (G : forall acc, 0 <= acc ->
            0 <= fold_left
                   (fun acc c => 10 * acc + default 0 (unicode_decimal c))
                   digits acc).
  { induction digits as [|c ds IH]; intros acc Hacc; cbn; [exact Hacc|].
    apply IH. destruct (unicode_decimal c) as [d|] eqn:E; cbn.
    - specialize (Hdec c d E). lia.
    - lia. }
  apply G. lia.
Qed.

(** C8, as amended: the score of a record an item's run returns is one of
    the sentinels [NOT_ANALYZED], [ANALYZER_MISSING], [FILE_MISSING],
    [SCORE_NOT_FOUND], [ANALYSIS_FAILED], or an integer that is not
    negative; and whenever the output of the inspector matches the score
    pattern, the score is the number written by the digits the pattern
    captured, which nothing compares with 100. *)
Theorem C8_score_values sd (w : W) row w' :
  (forall c d, unicode_decimal c = Some d -> 0 <= d) ->
  process_student_submission paths config cli_args duplication_map sd w
  = (Ok row, w') ->
  (process_analysis_score row ∈ score_sentinels
   \/ exists digits,
        process_analysis_score row = CInt (decimal_value digits)
        /\ 0 <= decimal_value digits)
  /\ forall sc out_dir log_path named_args (w3 w4 : W) r digits,
       path_exists (inspector_exe_path paths) w3 = Ok true ->
       path_exists log_path w3 = Ok true ->
       inspector_named_args paths config cli_args out_dir log_path
       = Ok named_args ->
       run_executable (inspector_exe_path paths) [] named_args w3
       = (Ok (Some r), w4) ->
       score_pattern_search (stdout r) = Some digits ->
       ((int_max_str_digits = 0)%nat
        \/ (length digits <= int_max_str_digits)%nat) ->
       step_analyze paths config cli_args K.OK sc out_dir log_path w3
       = (Ok (CInt (decimal_value digits)), w4).
Proof.
  intros Hdec H. split.
  - apply process_student_submission_inv in H as (l & loc & Hrun & ->).
    apply run_stages_inv in Hrun
      as (w0 & ok & w1 & ps & w2 & cr & w3 & sc & _ & _ & _ & _ & H4 & ->).
    cbn. apply step_analyze_score in H4 as [-> | [Hs | [digits ->]]].
    + left. unfold score_sentinels. set_solver.
    + left. exact Hs.
    + right. exists digits. split; [reflexivity|].
      apply decimal_value_nonneg. exact Hdec.
  - clear H.
    intros sc out_dir log_path named_args w3 w4 r digits Hi Hl Hn Hr Hs Hlim.
    unfold step_analyze. rewrite eqb_refl. munfold.
    rewrite Hi. cbn [negb]. rewrite Hl. cbn [negb]. rewrite Hn, Hr, Hs.
    unfold py_int. munfold.
    replace (negb (int_max_str_digits =? 0)%nat
             && (int_max_str_digits <? length digits)%nat) with false;
      [reflexivity|].
    symmetry. apply andb_false_iff. destruct Hlim as [-> | Hlen].
    + left. reflexivity.
    + right. apply Nat.ltb_ge. exact Hlen.
Qed.

End PipelineClaims.




(** The first twenty-six labels are the capital letters in order. *)
Lemma group_label_letter n :
  1 <= n <= 26 ->
  exists c, alphabet !! Z.to_nat (n - 1) = Some c /\ group_label n = [c].
Proof.
  intros Hn. exists (65 + n - 1). split.
  - assert (Ha : alphabet = (fun i => 65 + Z.of_nat i) <$> seq 0 26)
      by reflexivity.
    rewrite Ha, list_lookup_fmap, lookup_seq_lt by lia. cbn. f_equal. lia.
  - unfold group_label. destruct (Z.eqb_spec n 0); [lia | reflexivity].
Qed.

(** C6, as amended. The lines are those of the stripped output,
    [stdout.strip().split('\n')], which is what the loop reads: a first
    line that is indented has lost its indentation there. The parse of an
    output with no more delimiter lines than [chr] has characters left
    returns; the n-th group gets the label [chr(ord('A') + n - 1)], the
    n-th capital letter up to the 26th group; an identifier is mapped to
    the label that is current at the last member line that yields it; an
    identifier no member line yields has no entry and is looked up as
    ["UNIQUE"]. *)
Theorem C6_group_labels submission_dir out :
  count_delimiters (Str.split 10 (Str.strip out)) <= 1114047 ->
  exists st,
    parse_duplicates submission_dir out = Ok st
    /\ group_counter st = count_delimiters (Str.split 10 (Str.strip out))
    /\ (forall pre line post id,
          Str.split 10 (Str.strip out) = pre ++ line :: post ->
          member_id submission_dir line = Some id ->
          (forall l, l ∈ post -> member_id submission_dir l <> Some id) ->
          dup_map st !! id = Some (group_label (count_delimiters pre)))
    /\ (forall n, 1 <= n <= 26 ->
          exists c, alphabet !! Z.to_nat (n - 1) = Some c
                    /\ group_label n = [c])
    /\ (forall id,
          (forall l, l ∈ Str.split 10 (Str.strip out) ->
                     member_id submission_dir l <> Some id) ->
          dup_map st !! id = None
          /\ default K.UNIQUE (dup_map st !! id) = K.UNIQUE).
Proof.
  intros Hmax. unfold parse_duplicates.
  destruct (dup_lines_counter submission_dir (Str.split 10 (Str.strip out))
              (dup_init ∅)) as (st & E & Hc & _); cbn; [lia | done | lia |].
  exists st. split; [exact E|]. split; [rewrite Hc; cbn; lia|].
  split; [|split; [exact group_label_letter|]].
  - intros pre line post id Hsplit Hm Hpost. rewrite Hsplit in E.
    rewrite (dup_lines_last_member submission_dir pre line post
               (dup_init ∅) st id); cbn; try done.
  - intros id Hno.
    rewrite (dup_lines_untouched submission_dir _ _ _ id Hno E). cbn.
    rewrite lookup_empty. done.
Qed.

(** C9, as amended. The lines are those of the stripped output,
    [stdout.strip().split('\n')]: a member line is a line of that list
    which contains [" - "] and matches the pattern, so that an indented
    member line that is the very first line of the output is none. A
    member line met before any delimiter line maps its identifier to the
    empty label, neither skipping it nor leaving it to ["UNIQUE"]; unless
    a later member line yields the same identifier, the entry stays, and
    the row the pipeline of that item returns has the empty string as its
    duplication group. *)
Theorem C9_member_before_delimiter submission_dir out pre line post id st :
  Str.split 10 (Str.strip out) = pre ++ line :: post ->
  count_delimiters pre = 0 ->
  member_id submission_dir line = Some id ->
  parse_duplicates submission_dir out = Ok st ->
  (exists st1,
     dup_lines submission_dir (pre ++ [line]) (dup_init ∅) = Ok st1
     /\ dup_map st1 !! id = Some K.empty)
  /\ ((forall l, l ∈ post -> member_id submission_dir l <> Some id) ->
      dup_map st !! id = Some K.empty
      /\ forall paths config cli_args sd (w : W) row w',
           path_name sd = id ->
           process_student_submission paths config cli_args (dup_map st)
             sd w = (Ok row, w') ->
           duplication_group row = K.empty).
Proof.
  intros Hsplit Hpre Hm E. unfold parse_duplicates in E.
  rewrite Hsplit in E. split.
  - change (pre ++ line :: post) with (pre ++ [line] ++ post) in E.
    rewrite app_assoc, dup_lines_app in E.
    destruct (dup_lines submission_dir (pre ++ [line]) (dup_init ∅))
      as [st1|e] eqn:E1; [|discriminate].
    exists st1. split; [reflexivity|].
    rewrite (dup_lines_last_member submission_dir pre line []
               (dup_init ∅) st1 id); cbn; try done.
    + rewrite Hpre. reflexivity.
    + intros l Hl. inversion Hl.
  - intros Hpost.
    assert (Hmap : dup_map st !! id = Some K.empty).
    { rewrite (dup_lines_last_member submission_dir pre line post
                 (dup_init ∅) st id); cbn; try done.
      rewrite Hpre. reflexivity. }
    split; [exact Hmap|].
    intros paths config cli_args sd w row w' Hname H.
    apply process_student_submission_inv in H as (l & loc & _ & ->).
    cbn. rewrite Hname, Hmap. reflexivity.
Qed.

End Claims.

Section BatchClaims.

Context {W : Type} `{RT : Runtime W} `{MRT : MainRuntime W}.

Lemma insert_path_Permutation p l : insert_path p l ≡ₚ p :: l.
Proof.
  induction l as [|q l IH]; cbn; [reflexivity|].
  destruct (path_ltb q p); [|reflexivity].
  rewrite IH. apply Permutation_swap.
Qed.

Lemma sorted_paths_Permutation l : sorted_paths l ≡ₚ l.
Proof.
  induction l as [|p l IH]; cbn; [reflexivity|].
  rewrite insert_path_Permutation. by rewrite IH.
Qed.

(** Steps 6 to 8 once the duplicates are resolved, the directories are
    listed and the tasks have run: the rows collected from the futures in
    the order of their completion are sorted and handed to [append_rows],
    whose [IOError] is swallowed. *)
Lemma main_batch_append paths config cli_args student_submission_dir
    report_csv_path duplication_map dirs futures (w w1 w2 w3 : W) :
  resolve_duplicates paths config student_submission_dir w
  = (Ok duplication_map, w1) ->
  iterdir_dirs student_submission_dir w1 = (Ok dirs, w2) ->
  run_tasks
    (process_student_submission paths config cli_args duplication_map)
    (sorted_paths dirs) w2 = (futures, w3) ->
  main_batch paths config cli_args student_submission_dir report_csv_path w
  = match append_rows report_csv_path report_headers
            (report_rows (as_completed futures w3)) w3 with
    | (Written, w4) | (WriteIOError, w4) =>
      bind (log_report_location report_csv_path (root_dir paths))
        (fun _ => ret MainReturned) w4
    | (WriteRaised e, w4) =>
      if is_os_error e
      then bind (log_report_location report_csv_path (root_dir paths))
             (fun _ => ret MainReturned) w4
      else (Raise e, w4)
    end.
Proof.
  intros H1 H2 H3. unfold main_batch.
  rewrite (bind_Ok _ _ _ _ _ H1), (bind_Ok _ _ _ _ _ H2). cbv zeta.
  unfold bind at 1. rewrite H3. unfold bind at 1, gets at 1.
  unfold bind at 1, write_report, report_rows.
  destruct (append_rows _ _ _ w3) as [[| | e] w4]; try reflexivity.
  destruct (is_os_error e); reflexivity.
Qed.

(** C1, as amended. The rows the batch hands to the report writer are one
    for each discovered directory, under its name, whatever the order in
    which the futures complete; a future whose task raised gives the row
    with status [PIPELINE_CRASH] and ["N/A"] in the three other columns.
    When the writer answers that these rows are written, the batch returns
    in the world the writer left. When the writer raises an [IOError] the
    batch returns all the same, in the world the failed write left; any
    other exception of the writer ends the batch. *)
Theorem C1_one_row_per_item paths config cli_args student_submission_dir
    report_csv_path duplication_map dirs futures (w w1 w2 w3 : W) :
  resolve_duplicates paths config student_submission_dir w
  = (Ok duplication_map, w1) ->
  iterdir_dirs student_submission_dir w1 = (Ok dirs, w2) ->
  run_tasks
    (process_student_submission paths config cli_args duplication_map)
    (sorted_paths dirs) w2 = (futures, w3) ->
  as_completed futures w3 ≡ₚ futures ->
  relative_to report_csv_path (root_dir paths) <> None ->
  (futures.*1 = sorted_paths dirs
   /\ Forall (fun f : Future =>
                exists wa wb : W,
                  process_student_submission paths config cli_args
                    duplication_map f.1 wa = (f.2, wb)) futures)
  /\ (student_id <$> report_rows (as_completed futures w3)
      ≡ₚ path_name <$> dirs
      /\ length (report_rows (as_completed futures w3)) = length dirs)
  /\ (forall sd e,
        (sd, Raise e) ∈ futures ->
        crash_row sd ∈ report_rows (as_completed futures w3)
        /\ student_id (crash_row sd) = path_name sd
        /\ status (crash_row sd) = K.PIPELINE_CRASH
        /\ duplication_group (crash_row sd) = K.NA
        /\ process_analysis_score (crash_row sd) = CStr K.NA
        /\ location (crash_row sd) = K.NA)
  /\ (forall w4,
        append_rows report_csv_path report_headers
          (report_rows (as_completed futures w3)) w3 = (Written, w4) ->
        main_batch paths config cli_args student_submission_dir
          report_csv_path w = (Ok MainReturned, w4))
  /\ (forall w4,
        append_rows report_csv_path report_headers
          (report_rows (as_completed futures w3)) w3 = (WriteIOError, w4) ->
        main_batch paths config cli_args student_submission_dir
          report_csv_path w = (Ok MainReturned, w4))
  /\ (forall e w4,
        append_rows report_csv_path report_headers
          (report_rows (as_completed futures w3)) w3 = (WriteRaised e, w4) ->
        main_batch paths config cli_args student_submission_dir
          report_csv_path w
        = if is_os_error e then (Ok MainReturned, w4) else (Raise e, w4)).
Proof.
  intros H1 H2 H3 Hperm Hrel.
  pose proof (run_tasks_futures
                (process_student_submission paths config cli_args
                   duplication_map) (sorted_paths dirs) w2) as [Hdirs Htasks].
  rewrite H3 in Hdirs, Htasks. cbn [fst] in Hdirs, Htasks.
  assert (Hrows : report_rows (as_completed futures w3)
                  ≡ₚ row_of_future <$> futures).
  { unfold report_rows. rewrite sorted_by_student_id_Permutation.
    rewrite collect_app. cbn. by rewrite Hperm. }
  assert (Hids : student_id <$> (row_of_future <$> futures)
                 = path_name <$> futures.*1).
  { clear Hdirs Hperm Hrows H3.
    induction Htasks as [|f fs Hf _ IH]; cbn; [reflexivity|].
    rewrite IH, (task_row_id paths config cli_args duplication_map f Hf).
    reflexivity. }
  assert (Hlog : forall w4,
            bind (log_report_location report_csv_path (root_dir paths))
              (fun _ => ret MainReturned) w4 = (Ok MainReturned, w4)).
  { intros w4. unfold log_report_location.
    destruct (relative_to _ _); [reflexivity | contradiction]. }
  pose proof (main_batch_append paths config cli_args student_submission_dir
                report_csv_path duplication_map dirs futures w w1 w2 w3
                H1 H2 H3) as Hmain.
  split; [split; assumption|]. split; [split|].
  - rewrite Hrows, Hids, Hdirs, sorted_paths_Permutation. reflexivity.
  - rewrite Hrows, length_fmap.
    rewrite <- (Permutation_length (sorted_paths_Permutation dirs)).
    rewrite <- Hdirs, length_fmap. reflexivity.
  - split; [|split; [|split]].
    + intros sd e Hin. split; [|repeat split].
      rewrite Hrows.
      apply (list_elem_of_fmap_2 row_of_future) in Hin. exact Hin.
    + intros w4 Happ. rewrite Hmain, Happ. apply Hlog.
    + intros w4 Happ. rewrite Hmain, Happ. apply Hlog.
    + intros e w4 Happ. rewrite Hmain, Happ.
      destruct (is_os_error e); [apply Hlog | reflexivity].
Qed.

End BatchClaims.

(** C7, as stated, fails: no caller can tell a non-zero exit from a launch
    failure by the value [run_executable] returns. Whenever both calls
    return, both values are [None]. *)
Lemma C7_counterexample :
  ~ exists (W : Type) (RT : Runtime W)
      (exe1 exe2 : Path) (pos1 pos2 : list str)
      (named1 named2 : list (str * str)) (w1 w2 w1' w2' u1 u2 : W)
      (code : Z) (out err : str) (e : Exn)
      (v1 v2 : option CompletedProcess),
      spawn (executable_command exe1 pos1 named1)
        (Some (path_parent exe1)) (Some K.utf_8) w1
        = (Exited code out err, w1')
      /\ code <> 0
      /\ spawn (executable_command exe2 pos2 named2)
           (Some (path_parent exe2)) (Some K.utf_8) w2
           = (LaunchRaised e, w2')
      /\ run_executable exe1 pos1 named1 w1 = (Ok v1, u1)
      /\ run_executable exe2 pos2 named2 w2 = (Ok v2, u2)
      /\ v1 <> v2.
Proof.
  intros (W & RT & exe1 & exe2 & pos1 & pos2 & named1 & named2 & w1 & w2
          & w1' & w2' & u1 & u2 & code & out & err & e & v1 & v2
          & H1 & Hcode & H2 & R1 & R2 & Hne).
  rewrite run_executable_spawn in R1, R2. cbn zeta in R1, R2.
  rewrite H1 in R1. rewrite H2 in R2.
  destruct (Z.eqb_spec code 0); [contradiction|].
  destruct e; inversion R1; inversion R2; subst; apply Hne; reflexivity.
Qed.

(** * The claims on the concrete runtime *)

(** C1 at a batch of two submissions, one of which crashes: the batch
    returns, and the report holds the crash row and the row of the other
    submission. *)
Lemma C1_one_row_per_item_witness :
  main_batch Toy.paths Toy.config Toy.cli_args ToyMain.submission_dir
    ToyMain.report_path ToyMain.crash_world
  = (Ok MainReturned, ToyMain.after_append ToyMain.crash_world)
  /\ Toy.appended (ToyMain.after_append ToyMain.crash_world)
     = [crash_row Toy.student_01; ToyMain.row_student_02].
Proof.
  split; [|vm_compute; reflexivity].
  destruct (C1_one_row_per_item Toy.paths Toy.config Toy.cli_args
              ToyMain.submission_dir ToyMain.report_path
              (ToyMain.dup_of ToyMain.crash_world)
              (ToyMain.dirs_of ToyMain.crash_world)
              (ToyMain.futures_of ToyMain.crash_world)
              ToyMain.crash_world
              (ToyMain.after_dup ToyMain.crash_world)
              (ToyMain.after_dup ToyMain.crash_world)
              (ToyMain.after_tasks ToyMain.crash_world))
    as (_ & _ & _ & Hwritten & _).
  - vm_compute. reflexivity.
  - vm_compute. reflexivity.
  - vm_compute. reflexivity.
  - symmetry. apply Permutation_rev.
  - vm_compute. discriminate.
  - apply Hwritten. vm_compute. reflexivity.
Defined.

(** C2 at a run whose restored file differs from the original. *)
Lemma C2_final_status_witness :
  exists l,
    run_stages Toy.paths Toy.config Toy.cli_args Toy.student_01
      (Toy.world Toy.differing) = (Ok l, Toy.w4 Toy.differing)
    /\ (pipeline_status l = K.OK \/ pipeline_status l = K.DECRYPT_FAILED
        \/ pipeline_status l = K.RESTORE_FAILED)
    /\ (pipeline_status l <> K.OK -> K.DIFFERENT = pipeline_status l)
    /\ (pipeline_status l = K.OK -> K.DIFFERENT = comparison_result l)
    /\ (pipeline_status l = K.OK -> comparison_result l = K.DIFFERENT ->
        K.DIFFERENT = K.DIFFERENT).
Proof.
  apply (C2_final_status Toy.paths Toy.config Toy.cli_args ∅
           Toy.student_01 (Toy.world Toy.differing)
           {| student_id := Toy.L "student-01";
              status := K.DIFFERENT;
              duplication_group := K.UNIQUE;
              process_analysis_score := CInt 87;
              location := Toy.L "Berlin" |}
           (Toy.w4 Toy.differing)).
  vm_compute. reflexivity.
Defined.

(** C3 at a run whose decoder exits with status 1. *)
Lemma C3_decrypt_failed_witness :
  exists row,
    process_student_submission Toy.paths Toy.config Toy.cli_args ∅
      Toy.student_01 (Toy.world Toy.bad_decoder)
    = (Ok row, Toy.w1 Toy.bad_decoder)
    /\ status row = K.DECRYPT_FAILED
    /\ process_analysis_score row = CStr K.NOT_ANALYZED.
Proof.
  destruct (C3_decrypt_failed Toy.paths Toy.config Toy.cli_args ∅
              Toy.student_01 (Toy.world Toy.bad_decoder)
              (Toy.w0 Toy.bad_decoder) (Toy.w1 Toy.bad_decoder))
    as (_ & _ & _ & Hrow & _).
  - vm_compute. reflexivity.
  - vm_compute. reflexivity.
  - apply (Hrow false). vm_compute. reflexivity.
Defined.

(** C4 at a run whose diff script exits with 0 and prints no marker. *)
Lemma C4_compare_witness :
  exists row,
    process_student_submission Toy.paths Toy.config Toy.cli_args ∅
      Toy.student_01 (Toy.world Toy.differing)
    = (Ok row, Toy.w4 Toy.differing)
    /\ status row = K.DIFFERENT.
Proof.
  destruct (C4_compare Toy.paths Toy.config Toy.cli_args ∅ Toy.student_01
              (Toy.world Toy.differing) (Toy.w2 Toy.differing)
              (Toy.w3 Toy.differing) K.DIFFERENT) as (_ & _ & Hrow).
  - exists (Toy.w0 Toy.differing), (Toy.w1 Toy.differing).
    split_conj; vm_compute; reflexivity.
  - apply (compare_different Toy.paths Toy.config Toy.student_01
             (Toy.w2 Toy.differing) (Toy.L "3 lines differ") []);
      vm_compute; reflexivity.
  - apply (Hrow (CInt 87) (Toy.w4 Toy.differing) true);
      vm_compute; reflexivity.
Defined.


(** C6 at an output of two groups. *)
Lemma C6_group_labels_witness :
  exists st,
    parse_duplicates Toy.submission_name Toy.out_twice = Ok st
    /\ group_counter st = 2.
Proof.
  destruct (C6_group_labels Toy.submission_name Toy.out_twice)
    as (st & Hst & Hc & _).
  - apply Z.leb_le. vm_compute. reflexivity.
  - exists st. split; [exact Hst|]. rewrite Hc. vm_compute. reflexivity.
Defined.

(** C7 at an executable that does not exist. *)
Lemma C7_run_executable_result_witness :
  run_executable (Toy.L "/p/tools/missing") [] [] (Toy.world Toy.good)
  = (Ok None, Toy.add_files [] (Toy.world Toy.good)).
Proof.
  apply (C7_run_executable_result (Toy.L "/p/tools/missing") [] []
           (Toy.world Toy.good) (Toy.add_files [] (Toy.world Toy.good))
           (LaunchRaised FileNotFoundError)).
  - vm_compute. reflexivity.
  - reflexivity.
Defined.

(** C8 at a run whose inspector prints a score of 87. *)
Lemma C8_score_values_witness :
  CInt 87 ∈ score_sentinels
  \/ exists digits,
       CInt 87 = CInt (decimal_value digits) /\ 0 <= decimal_value digits.
Proof.
  refine (proj1 (C8_score_values Toy.paths Toy.config Toy.cli_args ∅
           Toy.student_01 (Toy.world Toy.good)
           {| student_id := Toy.L "student-01";
              status := K.OK;
              duplication_group := K.UNIQUE;
              process_analysis_score := CInt 87;
              location := Toy.L "Berlin" |}
           (Toy.w4 Toy.good) _ _)).
  - intros c d. cbn. unfold Toy.ascii_decimal.
    destruct (Z.leb_spec 48 c); cbn; [|discriminate].
    destruct (c <=? 57); [|discriminate]. intros [= <-]. lia.
  - vm_compute. reflexivity.
Defined.

(** C9 at an output whose first member line comes before any group. *)
Lemma C9_member_before_delimiter_witness :
  dup_map (Toy.state_of
             (parse_duplicates Toy.submission_name Toy.out_early_once))
    !! Toy.L "student-01" = Some K.empty.
Proof.
  apply (C9_member_before_delimiter (W := Toy.World)
           Toy.submission_name Toy.out_early_once
           [Toy.L "Duplicate files"]
           (Toy.member_line "student-01" "log/mission.log.encrypted")
           [Toy.delimiter_line;
            Toy.member_line "student-02" "log/mission.log.encrypted";
            Toy.member_line "student-03" "log/mission.log.encrypted"]).
  - vm_compute. reflexivity.
  - vm_compute. reflexivity.
  - vm_compute. reflexivity.
  - vm_compute. reflexivity.
  - apply Forall_forall. repeat constructor; vm_compute; discriminate.
Defined.

(** C10 at a signature whose city is the empty string. *)
Lemma C10_empty_city_witness :
  parse_signature_file (Toy.output "student-01" "signature.decrypted")
    Toy.world_no_city
  = (Ok K.KEY_OR_TYPE_INVALID, Toy.world_no_city).
Proof.
  apply (C10_empty_city _ Toy.world_no_city
           [(K.location_info, JDict [(K.city, JStr [])])]
           [(K.city, JStr [])] (JStr [])).
  - vm_compute. reflexivity.
  - reflexivity.
  - reflexivity.
  - reflexivity.
  - left. reflexivity.
Defined.

(** C6, as stated, fails. In the output [Toy.out_twice] the first member
    line of group 1 yields [student-01], and yet [student-01] is mapped to
    ["B"], the label of group 2, where it is met again. In [Toy.out_27]
    the 27th group gets the label ["["], and the alphabet has no 27th
    letter. *)
Lemma C6_counterexample :
  (exists st pre line post,
     parse_duplicates Toy.submission_name Toy.out_twice = Ok st
     /\ Str.split 10 (Str.strip Toy.out_twice) = pre ++ line :: post
     /\ count_delimiters pre = 1
     /\ member_id Toy.submission_name line = Some (Toy.L "student-01")
     /\ group_label 1 = Toy.L "A"
     /\ dup_map st !! Toy.L "student-01" = Some (Toy.L "B"))
  /\ (exists st,
        parse_duplicates Toy.submission_name Toy.out_27 = Ok st
        /\ group_counter st = 27
        /\ dup_map st !! Toy.L "student-01" = Some (Toy.L "[")
        /\ alphabet !! Z.to_nat (27 - 1) = None).
Proof.
  split.
  - exists (Toy.state_of
              (parse_duplicates Toy.submission_name Toy.out_twice)),
      [Toy.delimiter_line],
      (Toy.member_line "student-01" "log/mission.log.encrypted"),
      [Toy.member_line "student-02" "log/mission.log.encrypted";
       Toy.delimiter_line;
       Toy.member_line "student-01" "old/mission.log.encrypted";
       Toy.member_line "student-03" "log/mission.log.encrypted"].
    split_conj; vm_compute; reflexivity.
  - exists (Toy.state_of
              (parse_duplicates Toy.submission_name Toy.out_27)).
    split_conj; vm_compute; reflexivity.
Qed.

(** C8, as stated, fails: when the inspector prints a score of 150 over
    100, the record holds the integer 150, which is neither a sentinel nor
    in the range from 0 to 100. *)
Lemma C8_counterexample :
  exists row,
    process_student_submission Toy.paths Toy.config Toy.cli_args ∅
      Toy.student_01 (Toy.world Toy.over_scored)
    = (Ok row, Toy.w4 Toy.over_scored)
    /\ process_analysis_score row = CInt 150
    /\ ~ (CInt 150 ∈ score_sentinels
          \/ exists n, CInt 150 = CInt n /\ 0 <= n <= 100).
Proof.
  eexists. split; [vm_compute; reflexivity|]. split; [reflexivity|].
  intros [Hin | (n & [= <-] & Hn)]; [|lia].
  unfold score_sentinels in Hin.
  repeat (apply elem_of_cons in Hin as [Hin | Hin]; [discriminate|]).
  inversion Hin.
Qed.

(** C9, as stated, fails. In the output [Toy.out_early] a member line comes
    before any delimiter line and yields [student-01]; a member line of
    the first group yields it again, and the row of [student-01] has the
    duplication group ["A"], not the empty string. In the output
    [Toy.out_indented_first] the member line is the first line of the
    output: [strip] takes its indentation away, what is left of it does
    not contain [" - "], and [student-01] gets no entry at all: it is
    looked up as ["UNIQUE"]. *)
Lemma C9_counterexample :
  (exists st pre line post row,
     parse_duplicates Toy.submission_name Toy.out_early = Ok st
     /\ Str.split 10 (Str.strip Toy.out_early) = pre ++ line :: post
     /\ count_delimiters pre = 0
     /\ member_id Toy.submission_name line = Some (Toy.L "student-01")
     /\ dup_map st !! Toy.L "student-01" = Some (Toy.L "A")
     /\ process_student_submission Toy.paths Toy.config Toy.cli_args
          (dup_map st) Toy.student_01 (Toy.world Toy.good)
        = (Ok row, Toy.w4 Toy.good)
     /\ duplication_group row = Toy.L "A"
     /\ duplication_group row <> K.empty)
  /\ (exists st line rest row,
        Toy.out_indented_first = line ++ [10] ++ rest
        /\ member_id Toy.submission_name line = Some (Toy.L "student-01")
        /\ parse_duplicates Toy.submission_name Toy.out_indented_first
           = Ok st
        /\ dup_map st !! Toy.L "student-01" = None
        /\ process_student_submission Toy.paths Toy.config Toy.cli_args
             (dup_map st) Toy.student_01 (Toy.world Toy.good)
           = (Ok row, Toy.w4 Toy.good)
        /\ duplication_group row = K.UNIQUE
        /\ duplication_group row <> K.empty).
Proof.
  split.
  - exists (Toy.state_of
              (parse_duplicates Toy.submission_name Toy.out_early)),
      [Toy.L "Duplicate files"],
      (Toy.member_line "student-01" "log/mission.log.encrypted"),
      [Toy.delimiter_line;
       Toy.member_line "student-01" "old/mission.log.encrypted";
       Toy.member_line "student-02" "log/mission.log.encrypted"].
    eexists.
    split_conj; try (vm_compute; reflexivity).
    vm_compute. discriminate.
  - exists (Toy.state_of
              (parse_duplicates Toy.submission_name Toy.out_indented_first)),
      (Toy.member_line "student-01" "log/mission.log.encrypted"),
      (Toy.unlines
         [Toy.delimiter_line;
          Toy.member_line "student-02" "log/mission.log.encrypted";
          Toy.member_line "student-03" "log/mission.log.encrypted"]).
    eexists.
    split_conj; try (vm_compute; reflexivity).
    vm_compute. discriminate.
Qed.

(** C1, as stated, fails. In [ToyMain.batch_world] the report file cannot
    be opened for appending: two directories are discovered and two rows
    are handed to the writer, which raises an [IOError]; the batch returns
    all the same, and so does [main], leaving a report file that holds no
    data row. *)
Lemma C1_counterexample :
  main Toy.config ToyMain.tools_config Toy.cli_args ToyMain.batch_world
  = (Ok MainReturned, ToyMain.main_end ToyMain.batch_world)
  /\ Toy.exists_in ToyMain.report_path (ToyMain.main_end ToyMain.batch_world)
     = true
  /\ Toy.appended (ToyMain.main_end ToyMain.batch_world) = []
  /\ main_batch Toy.paths Toy.config Toy.cli_args ToyMain.submission_dir
       ToyMain.report_path ToyMain.batch_world
     = (Ok MainReturned, ToyMain.batch_w3)
  /\ length ToyMain.batch_dirs = 2%nat
  /\ length (report_rows
               (as_completed ToyMain.batch_futures ToyMain.batch_w3))
     = 2%nat
  /\ append_rows ToyMain.report_path report_headers
       (report_rows (as_completed ToyMain.batch_futures ToyMain.batch_w3))
       ToyMain.batch_w3
     = (WriteIOError, ToyMain.batch_w3)
  /\ Toy.appended ToyMain.batch_w3 = [].
Proof.
  split_conj; vm_compute; reflexivity.
Qed.

(** C3, as stated, fails. With [Toy2.locked_decoder] the decryption fails
    because the decoder cannot be launched: the step raises, the run of
    the item raises, and the row of the item in the report is the crash
    row, with status [PIPELINE_CRASH] and score ["N/A"]. In
    [Toy2.world_locked_output] the decoder exits with status 1 and the
    steps return with status [DECRYPT_FAILED], but the output directory
    cannot be searched: the existence check of the decrypted signature
    raises, and the row is the crash row again. *)
Lemma C3_counterexample :
  (decrypt_files Toy.paths
     (files_to_decrypt Toy.paths Toy.config Toy.student_01)
     (Toy.w0 Toy2.locked_decoder)
   = (Raise PermissionError, Toy.w1 Toy2.locked_decoder)
   /\ process_student_submission Toy.paths Toy.config Toy.cli_args ∅
        Toy.student_01 (Toy.world Toy2.locked_decoder)
      = (Raise PermissionError, Toy.w1 Toy2.locked_decoder)
   /\ report_rows [(Toy.student_01, Raise PermissionError)]
      = [crash_row Toy.student_01]
   /\ status (crash_row Toy.student_01) = K.PIPELINE_CRASH
   /\ K.PIPELINE_CRASH <> K.DECRYPT_FAILED
   /\ process_analysis_score (crash_row Toy.student_01) = CStr K.NA
   /\ CStr K.NA <> CStr K.NOT_ANALYZED)
  /\ (mkdir_exist_ok (student_output_dir_abs Toy.paths Toy.student_01)
        Toy2.world_locked_output = (Ok tt, Toy2.w0_locked_output)
      /\ decrypt_files Toy.paths
           (files_to_decrypt Toy.paths Toy.config Toy.student_01)
           Toy2.w0_locked_output = (Ok false, Toy2.w1_locked_output)
      /\ run_stages Toy.paths Toy.config Toy.cli_args Toy.student_01
           Toy2.world_locked_output
         = (Ok {| pipeline_status := K.DECRYPT_FAILED;
                  comparison_result := K.NOT_CHECKED;
                  analysis_score := CStr K.NOT_ANALYZED |},
            Toy2.w1_locked_output)
      /\ process_student_submission Toy.paths Toy.config Toy.cli_args ∅
           Toy.student_01 Toy2.world_locked_output
         = (Raise PermissionError, Toy2.w1_locked_output)).
Proof.
  split_conj; try (vm_compute; reflexivity); vm_compute; discriminate.
Qed.

(** C4, as stated, fails. With [Toy2.no_interpreter] the run gets to step
    C with both files there and the invocation of the diff script fails,
    its interpreter not being found: the run raises, and the row of the
    item is the crash row, with status [PIPELINE_CRASH] and not
    [CHECK_FAILED]. With [Toy.locked_inspector] the diff script exits with
    0 and prints the marker, but the inspector cannot be executed: the run
    raises in step D, and the status of the row is [PIPELINE_CRASH] and
    not ["OK"]. *)
Lemma C4_counterexample :
  (reaches_compare Toy.paths Toy.config Toy.student_01
     (Toy.world Toy2.no_interpreter) (Toy.w2 Toy2.no_interpreter)
   /\ path_exists (original_main_py_path Toy.config Toy.student_01)
        (Toy.w2 Toy2.no_interpreter) = Ok true
   /\ path_exists (log_restored_path_abs Toy.paths Toy.config Toy.student_01)
        (Toy.w2 Toy2.no_interpreter) = Ok true
   /\ spawn (diff_command Toy.paths Toy.config Toy.student_01) None None
        (Toy.w2 Toy2.no_interpreter)
      = (LaunchRaised FileNotFoundError, Toy.w3 Toy2.no_interpreter)
   /\ process_student_submission Toy.paths Toy.config Toy.cli_args ∅
        Toy.student_01 (Toy.world Toy2.no_interpreter)
      = (Raise FileNotFoundError, Toy.w3 Toy2.no_interpreter)
   /\ report_rows [(Toy.student_01, Raise FileNotFoundError)]
      = [crash_row Toy.student_01]
   /\ status (crash_row Toy.student_01) = K.PIPELINE_CRASH
   /\ K.PIPELINE_CRASH <> K.CHECK_FAILED)
  /\ (reaches_compare Toy.paths Toy.config Toy.student_01
        (Toy.world Toy.locked_inspector) (Toy.w2 Toy.locked_inspector)
      /\ compare_case Toy.paths Toy.config Toy.student_01
           (Toy.w2 Toy.locked_inspector) K.OK (Toy.w3 Toy.locked_inspector)
      /\ process_student_submission Toy.paths Toy.config Toy.cli_args ∅
           Toy.student_01 (Toy.world Toy.locked_inspector)
         = (Raise PermissionError, Toy.w4 Toy.locked_inspector)
      /\ report_rows [(Toy.student_01, Raise PermissionError)]
         = [crash_row Toy.student_01]
      /\ status (crash_row Toy.student_01) = K.PIPELINE_CRASH
      /\ K.PIPELINE_CRASH <> K.OK).
Proof.
  split.
  - split.
    { exists (Toy.w0 Toy2.no_interpreter), (Toy.w1 Toy2.no_interpreter).
      split_conj; vm_compute; reflexivity. }
    split_conj; try (vm_compute; reflexivity). vm_compute. discriminate.
  - split.
    { exists (Toy.w0 Toy.locked_inspector), (Toy.w1 Toy.locked_inspector).
      split_conj; vm_compute; reflexivity. }
    split.
    { apply (compare_identical Toy.paths Toy.config Toy.student_01
               (Toy.w2 Toy.locked_inspector)
               (Toy.L "report: " ++ K.identical_marker) []);
        vm_compute; reflexivity. }
    split_conj; try (vm_compute; reflexivity). vm_compute. discriminate.
Qed.

(** * Further properties of the program *)

Section Invokers.

Context {W : Type} `{RT : Runtime W}.

(** What [run_poetry_project] makes of the answers to its two spawns and to
    the existence check between them. *)
Lemma run_poetry_project_spawn project_path module_name module_args (w : W) :
  run_poetry_project project_path module_name module_args w =
  match spawn poetry_env_command (Some project_path) None w with
  | (Exited code out err, w1) =>
    if code =? 0 then
      match path_exists (venv_python_executable (Str.strip out)) w1 with
      | Ok true =>
        match spawn (module_command
                       (venv_python_executable (Str.strip out))
                       module_name module_args)
                (Some project_path) None w1 with
        | (Exited code2 out2 err2, w2) => (Ok (code2 =? 0), w2)
        | (LaunchRaised FileNotFoundError, w2) => (Ok false, w2)
        | (LaunchRaised (CalledProcessError _ _ _), w2) => (Ok false, w2)
        | (LaunchRaised e, w2) => (Raise e, w2)
        end
      | Ok false => (Ok false, w1)
      | Raise FileNotFoundError => (Ok false, w1)
      | Raise (CalledProcessError _ _ _) => (Ok false, w1)
      | Raise e => (Raise e, w1)
      end
    else (Ok false, w1)
  | (LaunchRaised FileNotFoundError, w1) => (Ok false, w1)
  | (LaunchRaised (CalledProcessError _ _ _), w1) => (Ok false, w1)
  | (LaunchRaised e, w1) => (Raise e, w1)
  end.
Proof.
  unfold run_poetry_project, subprocess_run, poetry_env_command,
    venv_python_executable, module_command. munfold.
  destruct (spawn _ (Some project_path) None w) as [[code out err | e] w1].
  - destruct (code =? 0); [|reflexivity]. cbn.
    destruct (path_exists _ w1) as [[|] | e]; cbn;
      [| reflexivity | destruct e; reflexivity].
    destruct (spawn _ (Some project_path) None w1)
      as [[code2 out2 err2 | e] w2].
    + destruct (code2 =? 0); reflexivity.
    + destruct e; reflexivity.
  - destruct e; reflexivity.
Qed.



(** X3: when [poetry env info] succeeds but the interpreter it names does
    not exist, [run_poetry_project] returns [False] and the module is
    never started: the world is the one the first command left. *)
Theorem X3_run_poetry_project_no_interpreter project_path module_name
    module_args (w w1 : W) out err :
  spawn poetry_env_command (Some project_path) None w
  = (Exited 0 out err, w1) ->
  path_exists (venv_python_executable (Str.strip out)) w1 = Ok false ->
  run_poetry_project project_path module_name module_args w = (Ok false, w1).
Proof.
  intros H1 Hex. rewrite run_poetry_project_spawn, H1.
  cbv beta iota. rewrite Z.eqb_refl, Hex. reflexivity.
Qed.

(** X4: a completed process returned by [run_executable] or by
    [run_plain_python_script] has exit status 0 and holds the command line
    that was run: a non-zero exit is never returned as a process. *)
Theorem X4_returned_process_exit_zero executable_path positional_args
    named_args script_path script_args (w w' : W) r :
  run_executable executable_path positional_args named_args w
  = (Ok (Some r), w')
  \/ run_plain_python_script script_path script_args w = (Ok (Some r), w') ->
  returncode r = 0
  /\ (args r = executable_command executable_path positional_args named_args
      \/ args r = [sys_executable; script_path] ++ script_args).
Proof.
  intros [H | H].
  - rewrite run_executable_spawn in H. cbn zeta in H.
    destruct (spawn _ _ _ w) as [[code out err | e] w1].
    + destruct (Z.eqb_spec code 0) as [-> | _]; [|discriminate].
      injection H as <- <-. cbn. auto.
    + destruct e; discriminate.
  - rewrite run_plain_python_script_spawn in H. cbn zeta in H.
    destruct (spawn _ _ _ w) as [[code out err | e] w1].
    + destruct (Z.eqb_spec code 0) as [-> | _]; [|discriminate].
      injection H as <- <-. cbn. auto.
    + destruct e; discriminate.
Qed.

End Invokers.

Section Signature.

Context {W : Type} `{RT : Runtime W}.

Lemma dict_get_absent key items default :
  (forall k v, (k, v) ∈ items -> k <> key) ->
  dict_get key items default = default.
Proof.
  induction items as [|[k v] items IH]; intros Habs; cbn; [reflexivity|].
  rewrite eqb_neq by (eapply Habs; left).
  apply IH. intros k' v' Hin. eapply Habs. right. exact Hin.
Qed.

(** X5: [parse_signature_file] leaves the world as it was. It raises only
    what the existence check of line 213 raises, which stands before the
    [try]; once that check has returned, the function returns, and what it
    returns is one of its four sentinels or else the city of the file, a
    string that is not empty, found under [location_info] in a file that
    exists and holds a JSON object. *)
Theorem X5_parse_signature_file_result filepath (w : W) r w' :
  parse_signature_file filepath w = (r, w') ->
  w' = w
  /\ (forall e, r = Raise e -> path_exists filepath w = Raise e)
  /\ (forall found, path_exists filepath w = Ok found -> exists s, r = Ok s)
  /\ (forall s, r = Ok s ->
        s ∈ location_sentinels
        \/ (s <> []
            /\ path_exists filepath w = Ok true
            /\ exists items location_items,
                 json_load filepath w = Ok (JDict items)
                 /\ dict_get K.location_info items (JDict [])
                    = JDict location_items
                 /\ dict_get K.city location_items JNull = JStr s)).
Proof.
  intros H. split; [eapply parse_signature_file_world; exact H|].
  split; [|split].
  - intros e ->.
    pose proof (parse_signature_file_cases filepath w) as Hc.
    destruct (path_exists filepath w) as [found | e0].
    + destruct Hc as [s Hs]. rewrite Hs in H. discriminate.
    + rewrite Hc in H. injection H as <- _. reflexivity.
  - intros found Hex.
    destruct (parse_signature_file_returns _ _ _ Hex) as [s Hs].
    rewrite Hs in H. injection H as <- _. eauto.
  - intros s ->. revert H.
    unfold parse_signature_file, py_get, location_sentinels. munfold.
    destruct (path_exists filepath w) as [[|] | e0] eqn:Hex; cbn;
      [| intros [= <- _]; left; set_solver | discriminate].
    destruct (json_load filepath w) as [data | e] eqn:Hload; cbn.
    2:{ destruct e; intros [= <- _]; left; set_solver. }
    destruct data as [| | | | |l|items]; cbn;
      try (intros [= <- _]; left; set_solver).
    destruct (dict_get K.location_info items (JDict []))
      as [| | | | |l|location_items] eqn:Hloc; cbn;
      try (intros [= <- _]; left; set_solver).
    destruct (dict_get K.city location_items JNull)
      as [| | | |city|l|d] eqn:Hcity; cbn;
      try (rewrite ?andb_false_r; intros [= <- _]; left; set_solver).
    rewrite andb_true_r.
    destruct (Str.eqb city []) eqn:Hempty; cbn.
    + intros [= <- _]. left. set_solver.
    + intros [= <- _]. right. split.
      * intros ->. rewrite eqb_refl in Hempty. discriminate.
      * split; [reflexivity|]. eauto.
Qed.

(** X6: the failures of [parse_signature_file]. A missing file gives
    [FILE_NOT_FOUND]; a file that is no JSON gives [JSON_DECODE_ERROR];
    any other exception of the load, a JSON value that is no object, and
    a [location_info] that is present but is no object (for instance
    [null]) give [UNKNOWN_PARSING_ERROR]; an object without
    [location_info], or whose [location_info] has no [city], gives
    [KEY_OR_TYPE_INVALID]. *)
Theorem X6_parse_signature_file_failures filepath (w : W) :
  (path_exists filepath w = Ok false ->
   parse_signature_file filepath w = (Ok K.FILE_NOT_FOUND, w))
  /\ (path_exists filepath w = Ok true ->
      (json_load filepath w = Raise JSONDecodeError ->
       parse_signature_file filepath w = (Ok K.JSON_DECODE_ERROR, w))
      /\ (forall e, json_load filepath w = Raise e -> e <> JSONDecodeError ->
          parse_signature_file filepath w = (Ok K.UNKNOWN_PARSING_ERROR, w))
      /\ (forall data, json_load filepath w = Ok data ->
          (forall items, data <> JDict items) ->
          parse_signature_file filepath w = (Ok K.UNKNOWN_PARSING_ERROR, w))
      /\ (forall items v, json_load filepath w = Ok (JDict items) ->
          dict_get K.location_info items (JDict []) = v ->
          (forall location_items, v <> JDict location_items) ->
          parse_signature_file filepath w = (Ok K.UNKNOWN_PARSING_ERROR, w))
      /\ (forall items, json_load filepath w = Ok (JDict items) ->
          (forall k v, (k, v) ∈ items -> k <> K.location_info) ->
          parse_signature_file filepath w = (Ok K.KEY_OR_TYPE_INVALID, w))
      /\ (forall items location_items,
          json_load filepath w = Ok (JDict items) ->
          dict_get K.location_info items (JDict []) = JDict location_items ->
          (forall k v, (k, v) ∈ location_items -> k <> K.city) ->
          parse_signature_file filepath w = (Ok K.KEY_OR_TYPE_INVALID, w))).
Proof.
  unfold parse_signature_file, py_get. munfold. split.
  - intros ->. reflexivity.
  - intros ->. cbn. split_conj.
    + intros ->. reflexivity.
    + intros e -> Hne. destruct e; try reflexivity. contradiction.
    + intros data -> Hnd. destruct data; try reflexivity.
      exfalso. eapply Hnd. reflexivity.
    + intros items v -> Hv Hnd. cbn. rewrite Hv.
      destruct v; try reflexivity. exfalso. eapply Hnd. reflexivity.
    + intros items -> Habs. cbn.
      rewrite (dict_get_absent _ _ _ Habs). reflexivity.
    + intros items location_items -> Hloc Habs. cbn. rewrite Hloc. cbn.
      rewrite (dict_get_absent _ _ _ Habs). reflexivity.
Qed.

End Signature.

Section PipelineMore.

Context {W : Type} `{RT : Runtime W}.
Variables (paths : Paths) (config : Config) (cli_args : CliArgs).
Variable duplication_map : gmap str str.

(** With the gate open, step C leaves one of four results. *)
Lemma step_compare_open cr a b (w : W) cr' w' :
  step_compare paths K.OK cr a b w = (Ok cr', w') ->
  cr' ∈ [K.OK; K.DIFFERENT; K.FILE_MISSING; K.CHECK_FAILED].
Proof.
  unfold step_compare. rewrite eqb_refl. unfold bind at 1.
  rewrite or_else_not_exists.
  destruct (path_exists a w) as [[|] | e];
    [| intros [= <- <-]; set_solver | discriminate].
  destruct (path_exists b w) as [[|] | e]; cbn [negb];
    [| intros [= <- <-]; set_solver | discriminate].
  unfold bind.
  destruct (run_plain_python_script _ _ w) as [[[r|] | e] w1];
    [| intros [= <- <-]; set_solver | discriminate].
  destruct (Str.contains _ _); intros [= <- <-]; set_solver.
Qed.

(** With the gate open, step D never leaves [NOT_ANALYZED]. *)
Lemma step_analyze_open sc a b (w : W) c w' :
  step_analyze paths config cli_args K.OK sc a b w = (Ok c, w') ->
  c <> CStr K.NOT_ANALYZED.
Proof.
  unfold step_analyze. rewrite eqb_refl. munfold.
  destruct (path_exists (inspector_exe_path paths) w) as [[|] | e];
    cbn [negb]; [| intros [= <- <-]; discriminate | discriminate].
  destruct (path_exists b w) as [[|] | e]; cbn [negb];
    [| intros [= <- <-]; discriminate | discriminate].
  destruct (inspector_named_args paths config cli_args a b)
    as [named | e]; [|discriminate].
  destruct (run_executable _ _ _ w) as [[[r|] | e] w1]; cbn;
    [| intros [= <- <-]; discriminate | discriminate].
  destruct (score_pattern_search (stdout r)) as [g|];
    [| intros [= <- <-]; discriminate].
  unfold py_int. munfold. destruct (_ && _); [discriminate|].
  intros [= <- <-]. discriminate.
Qed.

(** The loop of step A when neither encrypted file exists. *)
Lemma decrypt_files_nothing sd (w0 : W) :
  path_exists (log_encrypted_path_abs config sd) w0 = Ok false ->
  path_exists (signature_encrypted_path_abs config sd) w0 = Ok false ->
  decrypt_files paths (files_to_decrypt paths config sd) w0 = (Ok true, w0).
Proof.
  intros Hlog Hsig. unfold files_to_decrypt. cbn [decrypt_files]. munfold.
  rewrite Hlog. cbn [negb]. rewrite Hsig. reflexivity.
Qed.

(** The steps after a decryption that returned [False]. *)
Lemma run_stages_decrypt_failed sd (w w0 w1 : W) :
  mkdir_exist_ok (student_output_dir_abs paths sd) w = (Ok tt, w0) ->
  decrypt_files paths (files_to_decrypt paths config sd) w0
  = (Ok false, w1) ->
  run_stages paths config cli_args sd w
  = (Ok {| pipeline_status := K.DECRYPT_FAILED;
           comparison_result := K.NOT_CHECKED;
           analysis_score := CStr K.NOT_ANALYZED |}, w1).
Proof.
  intros H0 HA.
  assert (Hne : K.DECRYPT_FAILED <> K.OK) by discriminate.
  eapply run_stages_intro; [exact H0 | exact HA | | |]; cbn [negb].
  - rewrite step_restore_skip by exact Hne. reflexivity.
  - rewrite step_compare_skip by exact Hne. reflexivity.
  - rewrite step_analyze_skip by exact Hne. reflexivity.
Qed.

(** X7: a submission with neither encrypted file, and no decrypted log
    left in its output directory, gets a row with status [RESTORE_FAILED]
    and score [NOT_ANALYZED], and no tool is started for it: the run ends
    in the world in which its output directory was made. The existence
    check of the decrypted signature, in that same directory, is taken to
    return. *)
Theorem X7_nothing_to_decrypt sd (w w0 : W) found :
  mkdir_exist_ok (student_output_dir_abs paths sd) w = (Ok tt, w0) ->
  path_exists (log_encrypted_path_abs config sd) w0 = Ok false ->
  path_exists (signature_encrypted_path_abs config sd) w0 = Ok false ->
  path_exists (log_decrypted_path_abs paths config sd) w0 = Ok false ->
  path_exists (signature_decrypted_path_abs paths config sd) w0 = Ok found ->
  decrypt_files paths (files_to_decrypt paths config sd) w0 = (Ok true, w0)
  /\ exists row,
       process_student_submission paths config cli_args duplication_map
         sd w = (Ok row, w0)
       /\ status row = K.RESTORE_FAILED
       /\ process_analysis_score row = CStr K.NOT_ANALYZED.
Proof.
  intros H0 Hlog Hsig Hdec Hex.
  pose proof (decrypt_files_nothing sd w0 Hlog Hsig) as HA.
  split; [exact HA|].
  assert (Hne : K.RESTORE_FAILED <> K.OK) by discriminate.
  assert (Hrun : run_stages paths config cli_args sd w
                 = (Ok {| pipeline_status := K.RESTORE_FAILED;
                          comparison_result := K.NOT_CHECKED;
                          analysis_score := CStr K.NOT_ANALYZED |}, w0)).
  { eapply run_stages_intro; [exact H0 | exact HA | | |]; cbn [negb].
    - unfold step_restore. rewrite eqb_refl. munfold. rewrite Hdec.
      reflexivity.
    - rewrite step_compare_skip by exact Hne. reflexivity.
    - rewrite step_analyze_skip by exact Hne. reflexivity. }
  destruct (process_student_submission_row paths config cli_args
              duplication_map sd w _ w0 found Hrun Hex) as [loc Hrow].
  eexists. split; [exact Hrow|]. split; reflexivity.
Qed.

(** X8: when the decoder fails on the encrypted log, the encrypted
    signature is not handed to the decoder at all: the decryption step
    ends in the world that one failed run left, and the steps return with
    status [DECRYPT_FAILED]. Every row the run returns has that status,
    and it returns one once the existence check of the decrypted signature
    returns. *)
Theorem X8_decrypt_stops_at_first_failure sd (w w0 w1 : W) arguments :
  mkdir_exist_ok (student_output_dir_abs paths sd) w = (Ok tt, w0) ->
  path_exists (log_encrypted_path_abs config sd) w0 = Ok true ->
  decoder_args paths (log_encrypted_path_abs config sd)
    (log_decrypted_path_abs paths config sd) = Ok arguments ->
  run_poetry_project (decoder_project_path paths) K.mission_decoder_main
    arguments w0 = (Ok false, w1) ->
  decrypt_files paths (files_to_decrypt paths config sd) w0 = (Ok false, w1)
  /\ run_stages paths config cli_args sd w
     = (Ok {| pipeline_status := K.DECRYPT_FAILED;
              comparison_result := K.NOT_CHECKED;
              analysis_score := CStr K.NOT_ANALYZED |}, w1)
  /\ (forall row w',
        process_student_submission paths config cli_args duplication_map
          sd w = (Ok row, w') ->
        w' = w1 /\ status row = K.DECRYPT_FAILED)
  /\ (forall found,
        path_exists (signature_decrypted_path_abs paths config sd) w1
        = Ok found ->
        exists row,
          process_student_submission paths config cli_args duplication_map
            sd w = (Ok row, w1)
          /\ status row = K.DECRYPT_FAILED).
Proof.
  intros H0 Hlog Hargs Hdec.
  assert (HA : decrypt_files paths (files_to_decrypt paths config sd) w0
               = (Ok false, w1)).
  { unfold files_to_decrypt. cbn [decrypt_files]. unfold bind at 1, reads.
    rewrite Hlog. cbn [negb]. unfold bind at 1, lift. rewrite Hargs.
    unfold bind at 1. rewrite Hdec. reflexivity. }
  split; [exact HA|].
  pose proof (run_stages_decrypt_failed sd w w0 w1 H0 HA) as Hrun.
  split; [exact Hrun|]. split.
  - intros row w' Hrow.
    apply process_student_submission_inv in Hrow as (l & loc & Hl & ->).
    rewrite Hrun in Hl. injection Hl as <- <-. split; reflexivity.
  - intros found Hex.
    destruct (process_student_submission_row paths config cli_args
                duplication_map sd w _ w1 found Hrun Hex) as [loc Hrow].
    eexists. split; [exact Hrow|]. reflexivity.
Qed.

(** X9: the cases of step D that give no number. If the inspector does not
    exist the score is [ANALYZER_MISSING], whether the decrypted log exists
    or not, and nothing is run; if only the log is missing it is
    [FILE_MISSING]; if the inspector fails or is not found when launched it
    is [ANALYSIS_FAILED]; if it exits with 0 and its output does not match
    the pattern it is [SCORE_NOT_FOUND]. *)
Theorem X9_analyze_cases sc out_dir log_path (w : W) :
  (path_exists (inspector_exe_path paths) w = Ok false ->
   step_analyze paths config cli_args K.OK sc out_dir log_path w
   = (Ok (CStr K.ANALYZER_MISSING), w))
  /\ (path_exists (inspector_exe_path paths) w = Ok true ->
      (path_exists log_path w = Ok false ->
       step_analyze paths config cli_args K.OK sc out_dir log_path w
       = (Ok (CStr K.FILE_MISSING), w))
      /\ (path_exists log_path w = Ok true ->
          forall named_args w',
            inspector_named_args paths config cli_args out_dir log_path
            = Ok named_args ->
            (run_executable (inspector_exe_path paths) [] named_args w
             = (Ok None, w') ->
             step_analyze paths config cli_args K.OK sc out_dir log_path w
             = (Ok (CStr K.ANALYSIS_FAILED), w'))
            /\ (forall r,
                  run_executable (inspector_exe_path paths) [] named_args w
                  = (Ok (Some r), w') ->
                  score_pattern_search (stdout r) = None ->
                  step_analyze paths config cli_args K.OK sc out_dir
                    log_path w = (Ok (CStr K.SCORE_NOT_FOUND), w')))).
Proof.
  unfold step_analyze. rewrite eqb_refl. munfold. split.
  - intros ->. reflexivity.
  - intros ->. cbn [negb]. split.
    + intros ->. reflexivity.
    + intros -> named_args w' ->. cbn [negb]. split.
      * intros ->. reflexivity.
      * intros r -> ->. reflexivity.
Qed.

(** X10: the status of a row the pipeline returns is one of ["OK"],
    [DIFFERENT], [FILE_MISSING], [CHECK_FAILED], [DECRYPT_FAILED] and
    [RESTORE_FAILED]; the initial [NOT_CHECKED] never gets into a row. *)
Theorem X10_status_values sd (w : W) row w' :
  process_student_submission paths config cli_args duplication_map sd w
  = (Ok row, w') ->
  status row ∈ final_statuses /\ status row <> K.NOT_CHECKED.
Proof.
  intros H.
  assert (Hin : status row ∈ final_statuses).
  { apply process_student_submission_inv in H as (l & loc & Hrun & ->).
    apply run_stages_inv in Hrun
      as (w0 & ok & w1 & ps & w2 & cr & w3 & sc & _ & _ & H2 & H3 & _ & ->).
    cbn. unfold final_status, final_statuses. cbn.
    apply step_restore_status in H2 as [-> | ->].
    - destruct ok; cbn [negb] in *.
      + rewrite eqb_refl. apply step_compare_open in H3.
        repeat (apply elem_of_cons in H3 as [-> | H3]);
          [..| by apply elem_of_nil in H3]; repeat constructor.
      + rewrite eqb_neq by discriminate. repeat constructor.
    - rewrite eqb_neq by discriminate. repeat constructor. }
  split; [exact Hin|]. intros Heq. rewrite Heq in Hin.
  unfold final_statuses in Hin.
  repeat (apply elem_of_cons in Hin as [Hin | Hin]; [discriminate|]).
  apply elem_of_nil in Hin. exact Hin.
Qed.

(** X11: in a row the pipeline returns, the score is [NOT_ANALYZED]
    exactly when the status is [DECRYPT_FAILED] or [RESTORE_FAILED]. *)
Theorem X11_not_analyzed_iff_failed sd (w : W) row w' :
  process_student_submission paths config cli_args duplication_map sd w
  = (Ok row, w') ->
  process_analysis_score row = CStr K.NOT_ANALYZED
  <-> status row = K.DECRYPT_FAILED \/ status row = K.RESTORE_FAILED.
Proof.
  intros H.
  apply process_student_submission_inv in H as (l & loc & Hrun & ->).
  apply run_stages_inv in Hrun
    as (w0 & ok & w1 & ps & w2 & cr & w3 & sc & _ & _ & H2 & H3 & H4 & ->).
  cbn. unfold final_status. cbn.
  assert (Hps : ps = K.OK \/ ps = K.DECRYPT_FAILED \/ ps = K.RESTORE_FAILED).
  { apply step_restore_status in H2 as [-> | ->]; [|auto].
    destruct ok; auto. }
  destruct Hps as [-> | Hfail].
  - rewrite eqb_refl. apply step_compare_open in H3.
    apply step_analyze_open in H4.
    split; [contradiction|].
    intros [-> | ->]; exfalso;
      repeat (apply elem_of_cons in H3 as [H3 | H3]; [discriminate|]);
      apply elem_of_nil in H3; exact H3.
  - assert (Hne : ps <> K.OK) by (destruct Hfail as [-> | ->]; discriminate).
    rewrite step_analyze_skip in H4 by exact Hne.
    injection H4 as <- _. rewrite eqb_neq by exact Hne.
    split; [intros _; exact Hfail | reflexivity].
Qed.

(** [relpaths] returns when [relpath] always does. *)
Lemma relpaths_returns ps start :
  (forall p s, exists r, relpath p s = Ok r) ->
  exists rs, relpaths ps start = Ok rs.
Proof.
  intros Hrel. induction ps as [|p ps [rs IH]]; cbn; [eauto|].
  destruct (Hrel p start) as [r ->]. rewrite IH. eauto.
Qed.

(** X12: the only exceptions that get out of an item's pipeline come from
    the runtime. If making a directory never fails, no existence check
    raises, [relpath] never raises, every command that is spawned runs and
    exits with its output decoded, and the conversions between [int] and
    [str] have no limit of digits, then the pipeline returns a row for
    every submission, from every world. *)
Theorem X12_pipeline_returns sd (w : W) :
  (forall p (w1 : W), exists w2, mkdir_exist_ok p w1 = (Ok tt, w2)) ->
  (forall p (w1 : W), exists found, path_exists p w1 = Ok found) ->
  (forall p start, exists r, relpath p start = Ok r) ->
  (forall command cwd encoding (w1 : W),
     exists code out err w2,
       spawn command cwd encoding w1 = (Exited code out err, w2)) ->
  int_max_str_digits = 0%nat ->
  exists row w',
    process_student_submission paths config cli_args duplication_map sd w
    = (Ok row, w').
Proof.
  intros Hmk Hex Hrel Hsp Hlim.
  assert (Hpoetry : forall p m a (w1 : W),
            exists b w2, run_poetry_project p m a w1 = (Ok b, w2)).
  { intros p m a w1. rewrite run_poetry_project_spawn.
    destruct (Hsp poetry_env_command (Some p) None w1)
      as (code & out & err & w2 & ->).
    destruct (code =? 0); [|eauto].
    destruct (Hex (venv_python_executable (Str.strip out)) w2)
      as [[|] ->]; [|eauto].
    destruct (Hsp (module_command (venv_python_executable (Str.strip out))
                     m a) (Some p) None w2)
      as (code2 & out2 & err2 & w3 & ->). eauto. }
  assert (HA : forall files (w1 : W),
            exists ok w2, decrypt_files paths files w1 = (Ok ok, w2)).
  { induction files as [|[i o] files IH]; intros w1; cbn [decrypt_files].
    - unfold ret. eauto.
    - unfold bind at 1, reads. destruct (Hex i w1) as [[|] ->];
        cbn [negb]; [|apply IH].
      unfold bind at 1, lift, decoder_args.
      destruct (relpaths_returns [i; private_key_path paths; o]
                  (decoder_project_path paths) Hrel) as [dargs ->].
      unfold bind.
      destruct (Hpoetry (decoder_project_path paths)
                  K.mission_decoder_main dargs w1) as (b & w2 & ->).
      destruct b; cbn [negb]; [apply IH | unfold ret; eauto]. }
  destruct (Hmk (student_output_dir_abs paths sd) w) as (w0 & H0).
  destruct (HA (files_to_decrypt paths config sd) w0) as (ok & w1 & H1).
  assert (HB : exists ps w2,
            step_restore paths (if negb ok then K.DECRYPT_FAILED else K.OK)
              (log_decrypted_path_abs paths config sd)
              (log_restored_path_abs paths config sd) w1 = (Ok ps, w2)).
  { unfold step_restore. destruct (Str.eqb _ K.OK); [|unfold ret; eauto].
    unfold bind at 1, reads.
    destruct (Hex (log_decrypted_path_abs paths config sd) w1)
      as [[|] ->]; cbn [negb]; [|unfold ret; eauto].
    unfold bind at 1, lift, restore_args.
    destruct (relpaths_returns [log_decrypted_path_abs paths config sd;
                                log_restored_path_abs paths config sd]
                (restore_project_path paths) Hrel) as [rargs ->].
    unfold bind.
    destruct (Hpoetry (restore_project_path paths) K.mission_restore_main
                rargs w1) as (b & w2 & ->).
    destruct b; cbn [negb]; unfold ret; eauto. }
  destruct HB as (ps & w2 & H2).
  assert (HC : exists cr w3,
            step_compare paths ps K.NOT_CHECKED
              (original_main_py_path config sd)
              (log_restored_path_abs paths config sd) w2 = (Ok cr, w3)).
  { unfold step_compare. destruct (Str.eqb ps K.OK); [|unfold ret; eauto].
    unfold bind at 1. rewrite or_else_not_exists.
    destruct (Hex (original_main_py_path config sd) w2) as [[|] ->];
      [|unfold ret; eauto].
    destruct (Hex (log_restored_path_abs paths config sd) w2) as [[|] ->];
      cbn [negb]; [|unfold ret; eauto].
    unfold bind. rewrite run_plain_python_script_spawn. cbn zeta.
    destruct (Hsp ([sys_executable; diff_script_path paths]
                     ++ [original_main_py_path config sd;
                         log_restored_path_abs paths config sd])
                None None w2) as (code & out & err & w3 & ->).
    destruct (code =? 0); [|unfold ret; eauto]. cbn.
    destruct (Str.contains _ _); unfold ret; eauto. }
  destruct HC as (cr & w3 & H3).
  assert (HD : exists sc w4,
            step_analyze paths config cli_args ps (CStr K.NOT_ANALYZED)
              (student_output_dir_abs paths sd)
              (log_decrypted_path_abs paths config sd) w3 = (Ok sc, w4)).
  { unfold step_analyze. destruct (Str.eqb ps K.OK); [|unfold ret; eauto].
    unfold bind at 1, reads.
    destruct (Hex (inspector_exe_path paths) w3) as [[|] ->]; cbn [negb];
      [|unfold ret; eauto].
    unfold bind at 1.
    destruct (Hex (log_decrypted_path_abs paths config sd) w3)
      as [[|] ->]; cbn [negb]; [|unfold ret; eauto].
    unfold bind at 1, lift, inspector_named_args, py_str. cbv zeta.
    destruct (Hrel (log_decrypted_path_abs paths config sd)
                (path_parent (inspector_exe_path paths))) as [r1 ->].
    rewrite Hlim. cbn [Nat.eqb negb andb].
    destruct (Hrel (joinpath (student_output_dir_abs paths sd)
                      (inspection_report_html (output_files config)))
                (path_parent (inspector_exe_path paths))) as [r2 ->].
    unfold bind. rewrite run_executable_spawn. cbn zeta.
    destruct (Hsp (executable_command (inspector_exe_path paths) []
                     [(K.logfile, r1);
                      (K.duration, Str.of_Z (duration cli_args));
                      (K.html_output, r2)])
                (Some (path_parent (inspector_exe_path paths)))
                (Some K.utf_8) w3) as (code & out & err & w4 & ->).
    destruct (code =? 0); [|unfold ret; eauto]. cbn.
    destruct (score_pattern_search out); [|unfold ret; eauto].
    unfold py_int. rewrite Hlim. cbn. unfold ret. eauto. }
  destruct HD as (sc & w4 & H4).
  pose proof (run_stages_intro paths config cli_args sd w w0 w1 w2 w3 w4
                ok ps cr sc H0 H1 H2 H3 H4) as Hrun.
  destruct (Hex (signature_decrypted_path_abs paths config sd) w4)
    as [found Hfound].
  destruct (process_student_submission_row paths config cli_args
              duplication_map sd w _ w4 found Hrun Hfound) as [loc Hrow].
  eauto.
Qed.

(** X13: a launch error of the diff script's interpreter is not caught,
    not even [FileNotFoundError], which [run_executable] would turn into
    [None]: the item's pipeline raises it, and the scheduler's row for the
    item is the crash row. *)
Theorem X13_diff_launch_failure_crashes sd (w w2 w3 : W) e :
  reaches_compare paths config sd w w2 ->
  path_exists (original_main_py_path config sd) w2 = Ok true ->
  path_exists (log_restored_path_abs paths config sd) w2 = Ok true ->
  spawn (diff_command paths config sd) None None w2
  = (LaunchRaised e, w3) ->
  (forall code out err, e <> CalledProcessError code out err) ->
  process_student_submission paths config cli_args duplication_map sd w
  = (Raise e, w3)
  /\ collect [(sd, Raise e)] [] = [crash_row sd].
Proof.
  intros (w0 & w1 & H0 & H1 & H2) Ho Hr Hsp Hcp.
  split; [|reflexivity].
  assert (HC : step_compare paths K.OK K.NOT_CHECKED
                 (original_main_py_path config sd)
                 (log_restored_path_abs paths config sd) w2
               = (Raise e, w3)).
  { unfold step_compare. rewrite eqb_refl. unfold bind at 1.
    rewrite or_else_not_exists, Ho, Hr. cbn [negb].
    unfold bind. rewrite run_plain_python_script_spawn. cbn zeta.
    unfold diff_command in Hsp. rewrite Hsp.
    destruct e; try reflexivity. exfalso. eapply Hcp. reflexivity. }
  unfold process_student_submission. cbn zeta.
  apply bind_Raise. unfold run_stages. cbn zeta.
  rewrite (bind_Ok _ _ _ _ _ H0), (bind_Ok _ _ _ _ _ H1).
  cbn [negb]. rewrite (bind_Ok _ _ _ _ _ H2).
  apply bind_Raise. exact HC.
Qed.

End PipelineMore.

Section ResolverMore.

Context {W : Type} `{RT : Runtime W}.

Lemma strip_prefix_Some p s r : Str.strip_prefix p s = Some r -> s = p ++ r.
Proof.
  revert s. induction p as [|c p IH]; intros s; cbn.
  - intros [= ->]. reflexivity.
  - destruct s as [|d s]; [discriminate|].
    destruct (Z.eqb_spec c d) as [-> | _]; [|discriminate].
    intros H. apply IH in H. rewrite H. reflexivity.
Qed.

(** [span] cuts the string after its longest prefix that satisfies the
    test. *)
Lemma span_spec test s a b :
  Str.span test s = (a, b) ->
  s = a ++ b
  /\ Forall (fun c => test c = true) a
  /\ (b = [] \/ exists d b', b = d :: b' /\ test d = false).
Proof.
  revert a b. induction s as [|c s IH]; intros a b; cbn.
  - intros [= <- <-]. auto.
  - destruct (test c) eqn:Hc.
    + destruct (Str.span test s) as [a' b'] eqn:E. intros [= <- <-].
      destruct (IH a' b' eq_refl) as (-> & Hall & Hrest).
      split; [reflexivity|]. split; [constructor; assumption | exact Hrest].
    + intros [= <- <-]. split; [reflexivity|]. split; [constructor|].
      right. eauto.
Qed.

Lemma match_student_id_at_spec submission_dir line id :
  match_student_id_at submission_dir line = Some id ->
  identifier_shape id
  /\ exists c post,
       line = submission_dir ++ c :: id ++ post
       /\ is_sep c = true
       /\ (post = [] \/ exists d post', post = d :: post' /\ is_sep d = true).
Proof.
  unfold match_student_id_at.
  destruct (Str.strip_prefix submission_dir line) as [[|c rest]|] eqn:E1;
    try discriminate.
  destruct (is_sep c) eqn:Hc; [|discriminate].
  destruct (Str.strip_prefix K.student_prefix rest) as [rest'|] eqn:E2;
    [|discriminate].
  destruct (Str.span (fun c => negb (is_sep c)) rest') as [name post] eqn:E3.
  apply strip_prefix_Some in E1, E2. apply span_spec in E3
    as (-> & Hall & Hpost).
  destruct name as [|n name]; [discriminate|]. intros [= <-]. split.
  - exists (n :: name). split; [reflexivity|]. split; [discriminate|].
    eapply Forall_impl; [exact Hall|]. cbn. intros x Hx.
    destruct (is_sep x); [discriminate | reflexivity].
  - exists c, post. subst. split; [reflexivity|].
    split; [exact Hc|]. destruct Hpost as [-> | (d & post' & -> & Hd)];
      [auto|]. right. exists d, post'. split; [reflexivity|].
    destruct (is_sep d); [reflexivity | discriminate].
Qed.

Lemma student_id_search_shape submission_dir line id :
  student_id_search submission_dir line = Some id -> identifier_shape id.
Proof.
  induction line as [|x line IH]; cbn [student_id_search];
    destruct (match_student_id_at submission_dir _) as [g|] eqn:E;
    try discriminate.
  - intros [= ->]. apply match_student_id_at_spec in E as [Hs _]. exact Hs.
  - intros [= ->]. apply match_student_id_at_spec in E as [Hs _]. exact Hs.
  - exact IH.
Qed.

(** X14: what the identifier pattern captures. A match of
    [student_id_search] stands in the line right after the name of the
    submission directory and one slash or backslash; it is [student-]
    followed by at least one character, has no slash or backslash in it,
    and runs to the end of the line or to the next slash or backslash. *)
Theorem X14_student_id_search_match submission_dir line id :
  student_id_search submission_dir line = Some id ->
  identifier_shape id
  /\ exists pre c post,
       line = pre ++ submission_dir ++ c :: id ++ post
       /\ is_sep c = true
       /\ (post = [] \/ exists d post', post = d :: post' /\ is_sep d = true).
Proof.
  induction line as [|x line IH]; cbn [student_id_search].
  - destruct (match_student_id_at submission_dir []) as [g|] eqn:E;
      [|discriminate].
    intros [= ->]. apply match_student_id_at_spec in E
      as (Hshape & c & post & Hl & Hc & Hpost).
    split; [exact Hshape|]. exists [], c, post. auto.
  - destruct (match_student_id_at submission_dir (x :: line)) as [g|] eqn:E.
    + intros [= ->]. apply match_student_id_at_spec in E
        as (Hshape & c & post & Hl & Hc & Hpost).
      split; [exact Hshape|]. exists [], c, post. auto.
    + intros H. destruct (IH H) as (Hshape & pre & c & post & -> & Hc & Hp).
      split; [exact Hshape|]. exists (x :: pre), c, post. auto.
Qed.

Lemma dup_line_invariant submission_dir st line st' :
  dup_invariant st ->
  dup_line submission_dir st line = Ok st' ->
  dup_invariant st'.
Proof.
  intros (H0 & Hlab & Hmap) E.
  destruct (is_delimiter line) eqn:Hd.
  - rewrite dup_line_delimiter in E by exact Hd. unfold Str.chr in E.
    destruct (_ && _); [|discriminate]. injection E as <-. unfold dup_invariant. cbn.
    split; [lia|]. split.
    + unfold group_label.
      destruct (Z.eqb_spec (group_counter st + 1) 0); [lia | reflexivity].
    + intros id label Hl. destruct (Hmap id label Hl) as (Hs & n & Hn & ->).
      split; [exact Hs|]. exists n. split; [lia | reflexivity].
  - destruct (member_id submission_dir line) as [id'|] eqn:Hm.
    + rewrite (dup_line_member _ _ _ _ Hm) in E. injection E as <-. unfold dup_invariant. cbn.
      split; [exact H0|]. split; [exact Hlab|].
      intros id label Hl. destruct (decide (id' = id)) as [-> | Hne].
      * rewrite lookup_insert_eq in Hl. injection Hl as <-. split.
        -- unfold member_id in Hm. rewrite Hd in Hm.
           destruct (Str.contains _ _); [|discriminate].
           apply student_id_search_shape in Hm. exact Hm.
        -- exists (group_counter st). split; [lia | exact Hlab].
      * rewrite lookup_insert_ne in Hl by exact Hne. apply Hmap, Hl.
    + rewrite (dup_line_other _ _ _ Hd Hm) in E. injection E as <-.
      unfold dup_invariant. split; [exact H0|]. split; [exact Hlab | exact Hmap].
Qed.

Lemma dup_lines_invariant submission_dir lines st st' :
  dup_invariant st ->
  dup_lines submission_dir lines st = Ok st' ->
  dup_invariant st'.
Proof.
  revert st. induction lines as [|line lines IH]; intros st Hinv E.
  - cbn in E. injection E as <-. exact Hinv.
  - cbn [dup_lines] in E.
    destruct (dup_line submission_dir st line) as [st1|e] eqn:E1;
      [|discriminate].
    eapply IH; [|exact E]. eapply dup_line_invariant; eassumption.
Qed.

(** X15: every entry of the map the resolver builds has as its key an
    identifier the pattern captured ([student-...] without slash or
    backslash) and as its value the label of one of the groups met: the
    empty label or [chr(ord('A') + n - 1)] for an [n] from 1 to the number
    of delimiter lines. *)
Theorem X15_duplication_map_entries submission_dir out st id label :
  parse_duplicates submission_dir out = Ok st ->
  dup_map st !! id = Some label ->
  identifier_shape id
  /\ exists n,
       0 <= n <= count_delimiters (Str.split 10 (Str.strip out))
       /\ label = group_label n.
Proof.
  unfold parse_duplicates. intros E Hl.
  assert (Hinit : dup_invariant (dup_init ∅)).
  { split; [cbn; lia|]. split; [reflexivity|].
    intros i l Hi. cbn in Hi. rewrite lookup_empty in Hi. discriminate. }
  pose proof (dup_lines_invariant _ _ _ _ Hinit E) as (_ & _ & Hmap).
  destruct (Hmap id label Hl) as (Hs & n & Hn & ->).
  split; [exact Hs|]. exists n. split; [|reflexivity].
  assert (Hc : group_counter st
               = count_delimiters (Str.split 10 (Str.strip out))).
  { clear Hmap Hl Hn Hinit.
    assert (G : forall lines s0 s1,
              dup_lines submission_dir lines s0 = Ok s1 ->
              group_counter s1 = group_counter s0 + count_delimiters lines).
    { induction lines as [|line lines IH]; intros s0 s1 E0.
      - cbn in E0. injection E0 as <-. unfold count_delimiters. cbn. lia.
      - cbn [dup_lines] in E0. rewrite count_delimiters_cons.
        destruct (is_delimiter line) eqn:Hd.
        + rewrite dup_line_delimiter in E0 by exact Hd.
          destruct (Str.chr _); [|discriminate].
          apply IH in E0. cbn in E0. lia.
        + destruct (member_id submission_dir line) as [i|] eqn:Hm.
          * rewrite (dup_line_member _ _ _ _ Hm) in E0.
            apply IH in E0. cbn in E0. lia.
          * rewrite (dup_line_other _ _ _ Hd Hm) in E0.
            apply IH in E0. lia. }
    apply G in E. cbn in E. lia. }
  lia.
Qed.

(** X16: the duplicate step is skipped, with an empty map and so with
    ["UNIQUE"] for every item, both when the duplicate finder does not
    exist, in which case nothing is run, and when it is run and fails
    (non-zero exit, or not found at launch). *)
Theorem X16_resolve_duplicates_skipped paths config student_submission_dir
    (w : W) :
  (path_exists (duplicate_finder_exe_path paths) w = Ok false ->
   resolve_duplicates paths config student_submission_dir w = (Ok ∅, w))
  /\ (path_exists (duplicate_finder_exe_path paths) w = Ok true ->
      forall w',
        run_executable (duplicate_finder_exe_path paths) []
          (finder_named_args config student_submission_dir) w
        = (Ok None, w') ->
        resolve_duplicates paths config student_submission_dir w
        = (Ok ∅, w'))
  /\ (forall cli_args sd (w1 w2 : W) row,
        process_student_submission paths config cli_args ∅ sd w1
        = (Ok row, w2) ->
        duplication_group row = K.UNIQUE).
Proof.
  unfold resolve_duplicates, finder_named_args. munfold. cbv zeta.
  split_conj.
  - intros ->. reflexivity.
  - intros -> w'. cbn [negb]. cbv beta. intros ->. reflexivity.
  - intros cli_args sd w1 w2 row H.
    apply process_student_submission_inv in H as (l & loc & _ & ->).
    cbn. rewrite lookup_empty. reflexivity.
Qed.

End ResolverMore.

Section ReportMore.

Context {W : Type} `{RT : Runtime W}.

Lemma filter_insert_row (k : str) r l :
  filter (fun x => student_id x = k) (insert_row r l)
  = filter (fun x => student_id x = k) (r :: l).
Proof.
  induction l as [|r' l IH]; cbn [insert_row]; [reflexivity|].
  destruct (Str.ltb (student_id r') (student_id r)) eqn:Hlt;
    [|reflexivity].
  rewrite filter_cons, IH, !filter_cons.
  destruct (decide (student_id r' = k)) as [Hr' | Hr'];
    destruct (decide (student_id r = k)) as [Hr | Hr]; try reflexivity.
  rewrite Hr', Hr, ltb_irrefl in Hlt. discriminate.
Qed.

(** X17: the sort of the report is stable: the rows that share an
    identifier keep, in the sorted report, the order in which they were
    collected. *)
Theorem X17_sort_is_stable (k : str) (report_data : list Row) :
  filter (fun r => student_id r = k) (sorted_by_student_id report_data)
  = filter (fun r => student_id r = k) report_data.
Proof.
  induction report_data as [|r l IH]; cbn [sorted_by_student_id foldr];
    [reflexivity|].
  change (foldr insert_row [] l) with (sorted_by_student_id l).
  rewrite filter_insert_row, !filter_cons, IH. reflexivity.
Qed.

End ReportMore.

Section MainFacts.

Context {W : Type} `{RT : Runtime W} `{MRT : MainRuntime W}.

(** What [ensure_poetry_project_ready] makes of the answer to its spawn. *)
Lemma ensure_poetry_project_ready_spawn project_path (w : W) :
  ensure_poetry_project_ready project_path w =
  match path_exists (joinpath project_path KM.pyproject_toml) w with
  | Ok true =>
    match spawn_bytes poetry_install_command (Some project_path) w with
    | (Exited code out err, w') =>
      if code =? 0 then (Ok true, w')
      else if Bytes.utf8_valid err then (Ok false, w')
           else (Raise UnicodeDecodeError, w')
    | (LaunchRaised FileNotFoundError, w') => (Ok false, w')
    | (LaunchRaised (CalledProcessError _ _ err), w') =>
      if Bytes.utf8_valid err then (Ok false, w')
      else (Raise UnicodeDecodeError, w')
    | (LaunchRaised e, w') => (Raise e, w')
    end
  | Ok false => (Ok false, w)
  | Raise e => (Raise e, w)
  end.
Proof.
  unfold ensure_poetry_project_ready, subprocess_run_bytes. munfold.
  destruct (path_exists _ w) as [[|] | e0]; cbn; [| reflexivity..].
  destruct (spawn_bytes _ _ w) as [[code out err | e] w'].
  - destruct (code =? 0); [reflexivity|].
    destruct (Bytes.utf8_valid err); reflexivity.
  - destruct e; try reflexivity.
    destruct (Bytes.utf8_valid stderr0); reflexivity.
Qed.

(** X18: [ensure_poetry_project_ready] returns [True] exactly when the
    project has a [pyproject.toml] and [poetry install], run in the project
    directory, exits with 0. *)
Theorem X18_ensure_ready_true project_path (w w' : W) :
  ensure_poetry_project_ready project_path w = (Ok true, w')
  <-> path_exists (joinpath project_path KM.pyproject_toml) w = Ok true
      /\ exists out err,
           spawn_bytes poetry_install_command (Some project_path) w
           = (Exited 0 out err, w').
Proof.
  rewrite ensure_poetry_project_ready_spawn. split.
  - destruct (path_exists _ w) as [[|] | e0]; [| discriminate..].
    destruct (spawn_bytes _ _ w) as [[code out err | e] w1].
    + destruct (Z.eqb_spec code 0) as [-> | _].
      * intros [= <-]. eauto.
      * destruct (Bytes.utf8_valid err); discriminate.
    + destruct e; try discriminate.
      destruct (Bytes.utf8_valid stderr0); discriminate.
  - intros (-> & out & err & ->). reflexivity.
Qed.

(** X19: the ways [ensure_poetry_project_ready] returns [False]. Without
    a [pyproject.toml] nothing is run; with it, [poetry] not being found
    and [poetry install] exiting with a status other than 0, its standard
    error being UTF-8, both give [False]. *)
Theorem X19_ensure_ready_false project_path (w : W) :
  (path_exists (joinpath project_path KM.pyproject_toml) w = Ok false ->
   ensure_poetry_project_ready project_path w = (Ok false, w))
  /\ (path_exists (joinpath project_path KM.pyproject_toml) w = Ok true ->
      forall w',
        (spawn_bytes poetry_install_command (Some project_path) w
         = (LaunchRaised FileNotFoundError, w') ->
         ensure_poetry_project_ready project_path w = (Ok false, w'))
        /\ (forall code out err,
              spawn_bytes poetry_install_command (Some project_path) w
              = (Exited code out err, w') ->
              code <> 0 ->
              Bytes.utf8_valid err = true ->
              ensure_poetry_project_ready project_path w = (Ok false, w'))).
Proof.
  rewrite ensure_poetry_project_ready_spawn. split.
  - intros ->. reflexivity.
  - intros -> w'. split.
    + intros ->. reflexivity.
    + intros code out err -> Hcode ->.
      destruct (Z.eqb_spec code 0); [contradiction | reflexivity].
Qed.

(** X20: when [poetry install] fails and what it wrote to its standard
    error is no UTF-8, the handler of the failure raises itself: the log
    message decodes those bytes, so [ensure_poetry_project_ready] raises
    [UnicodeDecodeError] instead of returning [False], and so does the
    check of the tools that calls it. *)
Theorem X20_ensure_ready_undecodable project_path rest (w w' : W)
    code out err :
  path_exists (joinpath project_path KM.pyproject_toml) w = Ok true ->
  spawn_bytes poetry_install_command (Some project_path) w
  = (Exited code out err, w') ->
  code <> 0 ->
  Bytes.utf8_valid err = false ->
  ensure_poetry_project_ready project_path w = (Raise UnicodeDecodeError, w')
  /\ all_ready (project_path :: rest) w = (Raise UnicodeDecodeError, w').
Proof.
  intros Hex Hsp Hcode Herr.
  assert (H : ensure_poetry_project_ready project_path w
              = (Raise UnicodeDecodeError, w')).
  { rewrite ensure_poetry_project_ready_spawn, Hex, Hsp.
    destruct (Z.eqb_spec code 0); [contradiction|]. rewrite Herr.
    reflexivity. }
  split; [exact H|]. cbn [all_ready]. apply bind_Raise. exact H.
Qed.

(** The steps of [main] up to the header of the report. *)
Lemma main_unfold config tools_config cli_args (w w1 w2 : W) :
  mkdir_parents
    (processed_base_dir (make_paths config tools_config (getcwd w))) w
  = (Ok tt, w1) ->
  mkdir_parents (report_dir_of config (getcwd w)) w1 = (Ok tt, w2) ->
  main config tools_config cli_args w =
  bind (init_report (report_csv_path_of config (getcwd w))
          (path_parent (getcwd w)))
    (fun header_written =>
       if negb header_written then ret (SystemExit 1)
       else
         bind (all_ready
                 [decoder_project_path
                    (make_paths config tools_config (getcwd w));
                  restore_project_path
                    (make_paths config tools_config (getcwd w))])
           (fun ready =>
              if negb ready then ret (SystemExit 1)
              else
                main_batch (make_paths config tools_config (getcwd w))
                  config cli_args
                  (joinpath (path_parent (getcwd w))
                     (student_submission (directories config)))
                  (report_csv_path_of config (getcwd w)))) w2.
Proof.
  intros H1 H2. unfold main. unfold bind at 1, gets at 1. cbv zeta.
  rewrite (bind_Ok _ _ _ _ _ H1), (bind_Ok _ _ _ _ _ H2). reflexivity.
Qed.

(** X21: when the report file cannot be written at the start, [main]
    exits with status 1 right there: no tool is checked, the duplicate
    finder is not run and no submission is processed. *)
Theorem X21_main_header_failure config tools_config cli_args
    (w w1 w2 w3 : W) :
  mkdir_parents
    (processed_base_dir (make_paths config tools_config (getcwd w))) w
  = (Ok tt, w1) ->
  mkdir_parents (report_dir_of config (getcwd w)) w1 = (Ok tt, w2) ->
  write_header (report_csv_path_of config (getcwd w)) report_headers w2
  = (WriteIOError, w3) ->
  main config tools_config cli_args w = (Ok (SystemExit 1), w3).
Proof.
  intros H1 H2 H3. rewrite (main_unfold _ _ _ _ _ _ H1 H2).
  unfold bind at 1, init_report. rewrite H3. reflexivity.
Qed.

(** X22: when the decoder project is not ready, [main] exits with status
    1 after the header was written and that one check was made: the
    restore project is not checked, the duplicate finder is not run and no
    submission is processed. *)
Theorem X22_main_tool_not_ready config tools_config cli_args
    (w w1 w2 w3 w4 : W) :
  mkdir_parents
    (processed_base_dir (make_paths config tools_config (getcwd w))) w
  = (Ok tt, w1) ->
  mkdir_parents (report_dir_of config (getcwd w)) w1 = (Ok tt, w2) ->
  write_header (report_csv_path_of config (getcwd w)) report_headers w2
  = (Written, w3) ->
  relative_to (report_csv_path_of config (getcwd w))
    (path_parent (getcwd w)) <> None ->
  ensure_poetry_project_ready
    (decoder_project_path (make_paths config tools_config (getcwd w))) w3
  = (Ok false, w4) ->
  main config tools_config cli_args w = (Ok (SystemExit 1), w4).
Proof.
  intros H1 H2 H3 Hrel H4. rewrite (main_unfold _ _ _ _ _ _ H1 H2).
  unfold bind at 1, init_report. rewrite H3. unfold log_report_location.
  destruct (relative_to _ _) as [rel|]; [|contradiction].
  unfold bind at 1, ret at 1. unfold ret at 1. cbn [negb].
  unfold bind at 1. cbn [all_ready].
  rewrite (bind_Ok _ _ _ _ _ H4). reflexivity.
Qed.

(** X23: an [IOError] while the rows are appended at the end does not stop
    [main]: the batch returns as it does when the rows are written. *)
Theorem X23_final_write_error_is_swallowed paths config cli_args
    student_submission_dir report_csv_path duplication_map dirs futures
    outcome (w w1 w2 w3 w4 : W) :
  resolve_duplicates paths config student_submission_dir w
  = (Ok duplication_map, w1) ->
  iterdir_dirs student_submission_dir w1 = (Ok dirs, w2) ->
  run_tasks
    (process_student_submission paths config cli_args duplication_map)
    (sorted_paths dirs) w2 = (futures, w3) ->
  append_rows report_csv_path report_headers
    (sorted_by_student_id (collect (as_completed futures w3) [])) w3
  = (outcome, w4) ->
  outcome = Written \/ outcome = WriteIOError ->
  relative_to report_csv_path (root_dir paths) <> None ->
  main_batch paths config cli_args student_submission_dir report_csv_path w
  = (Ok MainReturned, w4).
Proof.
  intros H1 H2 H3 H4 Hout Hrel. unfold main_batch.
  rewrite (bind_Ok _ _ _ _ _ H1), (bind_Ok _ _ _ _ _ H2). cbv zeta.
  unfold bind at 1. rewrite H3. unfold bind at 1, gets at 1.
  unfold log_report_location.
  destruct (relative_to _ _) as [rel|]; [|contradiction].
  unfold bind, write_report. rewrite H4.
  destruct Hout as [-> | ->]; reflexivity.
Qed.

(** The batch never calls [sys.exit]. *)
Lemma main_batch_no_exit paths config cli_args student_submission_dir
    report_csv_path (w w' : W) code :
  main_batch paths config cli_args student_submission_dir report_csv_path w
  <> (Ok (SystemExit code), w').
Proof.
  unfold main_batch. intros H.
  apply bind_inv in H as (m & w1 & _ & H).
  apply bind_inv in H as (dirs & w2 & _ & H). cbv zeta in H.
  apply bind_inv in H as (futures & w3 & _ & H).
  apply bind_inv in H as (completed & w4 & _ & H).
  apply bind_inv in H as ([] & w5 & _ & H).
  apply bind_inv in H as ([] & w6 & _ & H).
  unfold ret in H. discriminate.
Qed.

(** X24: the only status [main] exits with is 1, and it does so only
    before the batch: either the header of the report could not be
    written, or a tool project is not ready. In both cases no submission
    was processed. *)
Theorem X24_main_exit_status config tools_config cli_args (w w' : W) code :
  main config tools_config cli_args w = (Ok (SystemExit code), w') ->
  code = 1
  /\ exists w2,
       init_report (report_csv_path_of config (getcwd w))
         (path_parent (getcwd w)) w2 = (Ok false, w')
       \/ exists w3,
            init_report (report_csv_path_of config (getcwd w))
              (path_parent (getcwd w)) w2 = (Ok true, w3)
            /\ all_ready
                 [decoder_project_path
                    (make_paths config tools_config (getcwd w));
                  restore_project_path
                    (make_paths config tools_config (getcwd w))] w3
               = (Ok false, w').
Proof.
  unfold main. intros H.
  apply bind_inv in H as (wd & w0 & Hwd & H).
  unfold gets in Hwd. injection Hwd as <- <-. cbv zeta in H.
  apply bind_inv in H as ([] & w1 & _ & H).
  apply bind_inv in H as ([] & w2 & _ & H).
  apply bind_inv in H as (written & w3 & Hinit & H).
  destruct written; cbn [negb] in H.
  - apply bind_inv in H as (ready & w4 & Hready & H).
    destruct ready; cbn [negb] in H.
    + exfalso. eapply main_batch_no_exit. exact H.
    + unfold ret in H. injection H as <- <-. split; [reflexivity|].
      exists w2. right. exists w3. split; assumption.
  - unfold ret in H. injection H as <- <-. split; [reflexivity|].
    exists w2. left. exact Hinit.
Qed.

End MainFacts.

(** * The further properties on the concrete runtimes *)



(** X3 at a world whose virtual environment has no interpreter. *)
Lemma X3_run_poetry_project_no_interpreter_witness :
  run_poetry_project (decoder_project_path Toy.paths)
    K.mission_decoder_main [] Toy2.world_no_venv
  = (Ok false, Toy.add_files [] Toy2.world_no_venv).
Proof.
  apply (X3_run_poetry_project_no_interpreter _ _ _ Toy2.world_no_venv _
           (Toy.L "/venv" ++ [10]) []).
  - vm_compute. reflexivity.
  - vm_compute. reflexivity.
Defined.

(** X4 at the inspector that prints a score. *)
Lemma X4_returned_process_exit_zero_witness :
  returncode
    {| args := executable_command (Toy.L "/p/tools/inspector") [] [];
       returncode := 0;
       stdout := K.score_prefix ++ Toy.L "87 / 100" ++ [10];
       stderr := [] |} = 0
  /\ (args
        {| args := executable_command (Toy.L "/p/tools/inspector") [] [];
           returncode := 0;
           stdout := K.score_prefix ++ Toy.L "87 / 100" ++ [10];
           stderr := [] |}
      = executable_command (Toy.L "/p/tools/inspector") [] []
      \/ args
           {| args := executable_command (Toy.L "/p/tools/inspector") [] [];
              returncode := 0;
              stdout := K.score_prefix ++ Toy.L "87 / 100" ++ [10];
              stderr := [] |}
         = [sys_executable; Toy.L "/p/tools/diff.py"] ++ []).
Proof.
  apply (X4_returned_process_exit_zero (Toy.L "/p/tools/inspector") [] []
           (Toy.L "/p/tools/diff.py") [] (Toy.world Toy.good)
           (Toy.add_files [] (Toy.world Toy.good))).
  left. vm_compute. reflexivity.
Defined.

(** X7 at [student-02], who handed in nothing. *)
Lemma X7_nothing_to_decrypt_witness :
  decrypt_files Toy.paths
    (files_to_decrypt Toy.paths Toy.config Toy2.student_02)
    Toy2.w0_student_02 = (Ok true, Toy2.w0_student_02)
  /\ exists row,
       process_student_submission Toy.paths Toy.config Toy.cli_args ∅
         Toy2.student_02 (Toy.world Toy.good) = (Ok row, Toy2.w0_student_02)
       /\ status row = K.RESTORE_FAILED
       /\ process_analysis_score row = CStr K.NOT_ANALYZED.
Proof.
  apply (X7_nothing_to_decrypt Toy.paths Toy.config Toy.cli_args ∅
           Toy2.student_02 (Toy.world Toy.good) Toy2.w0_student_02 false);
    vm_compute; reflexivity.
Defined.

(** X8 at a decoder that exits with status 1. *)
Lemma X8_decrypt_stops_at_first_failure_witness :
  decrypt_files Toy.paths
    (files_to_decrypt Toy.paths Toy.config Toy.student_01)
    (Toy.w0 Toy.bad_decoder) = (Ok false, Toy.w1 Toy.bad_decoder)
  /\ exists row,
       process_student_submission Toy.paths Toy.config Toy.cli_args ∅
         Toy.student_01 (Toy.world Toy.bad_decoder)
       = (Ok row, Toy.w1 Toy.bad_decoder)
       /\ status row = K.DECRYPT_FAILED.
Proof.
  destruct (X8_decrypt_stops_at_first_failure Toy.paths Toy.config
              Toy.cli_args ∅ Toy.student_01 (Toy.world Toy.bad_decoder)
              (Toy.w0 Toy.bad_decoder) (Toy.w1 Toy.bad_decoder)
              [Toy.submission "student-01/log/mission.log.encrypted";
               Toy.L "/p/tools/private.pem";
               Toy.output "student-01" "log.decrypted"])
    as (Hloop & _ & _ & Hrow).
  - vm_compute. reflexivity.
  - vm_compute. reflexivity.
  - vm_compute. reflexivity.
  - vm_compute. reflexivity.
  - split; [exact Hloop|]. apply (Hrow false). vm_compute. reflexivity.
Defined.

(** X10 at the run whose restored file differs. *)
Lemma X10_status_values_witness :
  K.DIFFERENT ∈ final_statuses /\ K.DIFFERENT <> K.NOT_CHECKED.
Proof.
  apply (X10_status_values Toy.paths Toy.config Toy.cli_args ∅
           Toy.student_01 (Toy.world Toy.differing)
           {| student_id := Toy.L "student-01";
              status := K.DIFFERENT;
              duplication_group := K.UNIQUE;
              process_analysis_score := CInt 87;
              location := Toy.L "Berlin" |}
           (Toy.w4 Toy.differing)).
  vm_compute. reflexivity.
Defined.

(** X11 at the run whose decoder fails. *)
Lemma X11_not_analyzed_iff_failed_witness :
  CStr K.NOT_ANALYZED = CStr K.NOT_ANALYZED
  <-> K.DECRYPT_FAILED = K.DECRYPT_FAILED
      \/ K.DECRYPT_FAILED = K.RESTORE_FAILED.
Proof.
  apply (X11_not_analyzed_iff_failed Toy.paths Toy.config Toy.cli_args ∅
           Toy.student_01 (Toy.world Toy.bad_decoder)
           {| student_id := Toy.L "student-01";
              status := K.DECRYPT_FAILED;
              duplication_group := K.UNIQUE;
              process_analysis_score := CStr K.NOT_ANALYZED;
              location := K.FILE_NOT_FOUND |}
           (Toy.w1 Toy.bad_decoder)).
  vm_compute. reflexivity.
Defined.

(** X12 at the runtime in which every path exists and every command exits
    with 0: the run of [student-01] returns a row after it has spawned
    eight commands, [poetry] and the interpreter of the environment twice
    for the decoder and once for the restorer, then the diff script and
    the inspector. *)
Lemma X12_pipeline_returns_witness :
  (exists row w',
     process_student_submission (RT := Quiet.runtime) Toy.paths Toy.config
       Toy.cli_args ∅ Toy.student_01 [] = (Ok row, w'))
  /\ Quiet.programs
       (process_student_submission (RT := Quiet.runtime) Toy.paths
          Toy.config Toy.cli_args ∅ Toy.student_01 []).2
     = [K.poetry; Toy.L "/bin/python"; K.poetry; Toy.L "/bin/python";
        K.poetry; Toy.L "/bin/python"; Toy.python3;
        Toy.L "/p/tools/inspector"].
Proof.
  split; [|vm_compute; reflexivity].
  apply (X12_pipeline_returns (RT := Quiet.runtime)).
  - intros p w1. exists w1. reflexivity.
  - intros p w1. exists true. reflexivity.
  - intros p start. exists p. reflexivity.
  - intros command cwd encoding w1. exists 0, [], [], (command :: w1).
    reflexivity.
  - reflexivity.
Defined.

(** X5 at a signature in an output directory that cannot be searched:
    the existence check raises, and so does the function. *)
Lemma X5_parse_signature_file_result_witness :
  Toy2.world_locked_output = Toy2.world_locked_output
  /\ (forall e,
        Raise (A := str) PermissionError = Raise e ->
        path_exists (Toy.output "student-01" "signature.decrypted")
          Toy2.world_locked_output = Raise e)
  /\ (forall found,
        path_exists (Toy.output "student-01" "signature.decrypted")
          Toy2.world_locked_output = Ok found ->
        exists s, Raise (A := str) PermissionError = Ok s)
  /\ (forall s,
        Raise PermissionError = Ok s ->
        s ∈ location_sentinels
        \/ (s <> []
            /\ path_exists (Toy.output "student-01" "signature.decrypted")
                 Toy2.world_locked_output = Ok true
            /\ exists items location_items,
                 json_load (Toy.output "student-01" "signature.decrypted")
                   Toy2.world_locked_output = Ok (JDict items)
                 /\ dict_get K.location_info items (JDict [])
                    = JDict location_items
                 /\ dict_get K.city location_items JNull = JStr s)).
Proof.
  apply (X5_parse_signature_file_result
           (Toy.output "student-01" "signature.decrypted")
           Toy2.world_locked_output (Raise PermissionError)
           Toy2.world_locked_output).
  vm_compute. reflexivity.
Defined.

(** X6 at a signature whose [location_info] is [null]. *)
Lemma X6_parse_signature_file_failures_witness :
  parse_signature_file (Toy.output "student-01" "signature.decrypted")
    (Toy2.world_signature (Ok Toy2.signature_null_location))
  = (Ok K.UNKNOWN_PARSING_ERROR,
     Toy2.world_signature (Ok Toy2.signature_null_location)).
Proof.
  destruct (X6_parse_signature_file_failures
              (Toy.output "student-01" "signature.decrypted")
              (Toy2.world_signature (Ok Toy2.signature_null_location)))
    as [_ H].
  destruct H as (_ & _ & _ & Hloc & _); [vm_compute; reflexivity|].
  apply (Hloc [(K.location_info, JNull)] JNull);
    [reflexivity | reflexivity | discriminate].
Defined.

(** X9 at an inspector that exits with status 3, and at one that prints
    no score. *)
Lemma X9_analyze_cases_witness :
  step_analyze Toy.paths Toy.config Toy.cli_args K.OK (CStr K.NOT_ANALYZED)
    (student_output_dir_abs Toy.paths Toy.student_01)
    (log_decrypted_path_abs Toy.paths Toy.config Toy.student_01)
    (Toy.w3 Toy2.failing_inspector)
  = (Ok (CStr K.ANALYSIS_FAILED), Toy.w4 Toy2.failing_inspector)
  /\ step_analyze Toy.paths Toy.config Toy.cli_args K.OK
       (CStr K.NOT_ANALYZED)
       (student_output_dir_abs Toy.paths Toy.student_01)
       (log_decrypted_path_abs Toy.paths Toy.config Toy.student_01)
       (Toy.w3 Toy2.silent_inspector)
     = (Ok (CStr K.SCORE_NOT_FOUND), Toy.w4 Toy2.silent_inspector).
Proof.
  split.
  - destruct (X9_analyze_cases Toy.paths Toy.config Toy.cli_args
                (CStr K.NOT_ANALYZED)
                (student_output_dir_abs Toy.paths Toy.student_01)
                (log_decrypted_path_abs Toy.paths Toy.config Toy.student_01)
                (Toy.w3 Toy2.failing_inspector)) as [_ H].
    destruct H as [_ H]; [vm_compute; reflexivity|].
    destruct (H eq_refl
                [(K.logfile, Toy.output "student-01" "log.decrypted");
                 (K.duration, Toy.L "60");
                 (K.html_output, Toy.output "student-01" "report.html")]
                (Toy.w4 Toy2.failing_inspector)) as [Hfail _];
      [vm_compute; reflexivity|].
    apply Hfail. vm_compute. reflexivity.
  - destruct (X9_analyze_cases Toy.paths Toy.config Toy.cli_args
                (CStr K.NOT_ANALYZED)
                (student_output_dir_abs Toy.paths Toy.student_01)
                (log_decrypted_path_abs Toy.paths Toy.config Toy.student_01)
                (Toy.w3 Toy2.silent_inspector)) as [_ H].
    destruct H as [_ H]; [vm_compute; reflexivity|].
    destruct (H eq_refl
                [(K.logfile, Toy.output "student-01" "log.decrypted");
                 (K.duration, Toy.L "60");
                 (K.html_output, Toy.output "student-01" "report.html")]
                (Toy.w4 Toy2.silent_inspector)) as [_ Hnone];
      [vm_compute; reflexivity|].
    eapply Hnone; vm_compute; reflexivity.
Defined.

(** X16 at a duplicate finder that exits with status 2. *)
Lemma X16_resolve_duplicates_skipped_witness :
  resolve_duplicates Toy.paths Toy.config ToyMain.submission_dir
    (Toy.world Toy2.failing_finder)
  = (Ok ∅, Toy.add_files [] (Toy.world Toy2.failing_finder)).
Proof.
  destruct (X16_resolve_duplicates_skipped Toy.paths Toy.config
              ToyMain.submission_dir (Toy.world Toy2.failing_finder))
    as (_ & H & _).
  apply H; vm_compute; reflexivity.
Defined.

(** X19 at a project whose installation fails. *)
Lemma X19_ensure_ready_false_witness :
  ensure_poetry_project_ready (decoder_project_path Toy.paths)
    (ToyMain.world ToyMain.install_failed [])
  = (Ok false, Toy.add_files [] (ToyMain.world ToyMain.install_failed [])).
Proof.
  destruct (X19_ensure_ready_false (decoder_project_path Toy.paths)
              (ToyMain.world ToyMain.install_failed [])) as [_ H].
  destruct (H eq_refl
              (Toy.add_files [] (ToyMain.world ToyMain.install_failed [])))
    as [_ Hexit].
  apply (Hexit 1 [] (Toy.L "lock file is out of date"));
    [vm_compute; reflexivity | discriminate | vm_compute; reflexivity].
Defined.

(** X13 at a run for which the interpreter of the diff script is not
    found. *)
Lemma X13_diff_launch_failure_crashes_witness :
  process_student_submission Toy.paths Toy.config Toy.cli_args ∅
    Toy.student_01 (Toy.world Toy2.no_interpreter)
  = (Raise FileNotFoundError, Toy.w3 Toy2.no_interpreter)
  /\ collect [(Toy.student_01, Raise FileNotFoundError)] []
     = [crash_row Toy.student_01].
Proof.
  apply (X13_diff_launch_failure_crashes Toy.paths Toy.config Toy.cli_args
           ∅ Toy.student_01 (Toy.world Toy2.no_interpreter)
           (Toy.w2 Toy2.no_interpreter)).
  - exists (Toy.w0 Toy2.no_interpreter), (Toy.w1 Toy2.no_interpreter).
    split_conj; vm_compute; reflexivity.
  - vm_compute. reflexivity.
  - vm_compute. reflexivity.
  - vm_compute. reflexivity.
  - discriminate.
Defined.

(** X14 at a member line of the duplicate finder. *)
Lemma X14_student_id_search_match_witness :
  identifier_shape (Toy.L "student-01")
  /\ exists pre c post,
       Toy.member_line "student-01" "log/mission.log.encrypted"
       = pre ++ Toy.submission_name ++ c :: Toy.L "student-01" ++ post
       /\ is_sep c = true
       /\ (post = [] \/ exists d post', post = d :: post' /\ is_sep d = true).
Proof.
  apply (X14_student_id_search_match Toy.submission_name
           (Toy.member_line "student-01" "log/mission.log.encrypted")).
  vm_compute. reflexivity.
Defined.

(** X15 at the output of two groups. *)
Lemma X15_duplication_map_entries_witness :
  identifier_shape (Toy.L "student-01")
  /\ exists n,
       0 <= n <= count_delimiters (Str.split 10 (Str.strip Toy.out_twice))
       /\ Toy.L "B" = group_label n.
Proof.
  apply (X15_duplication_map_entries Toy.submission_name Toy.out_twice
           (Toy.state_of
              (parse_duplicates Toy.submission_name Toy.out_twice))).
  - vm_compute. reflexivity.
  - vm_compute. reflexivity.
Defined.

(** X18 at a project that installs. *)
Lemma X18_ensure_ready_true_witness :
  ensure_poetry_project_ready (decoder_project_path Toy.paths)
    (ToyMain.world ToyMain.installed [])
  = (Ok true, Toy.add_files [] (ToyMain.world ToyMain.installed [])).
Proof.
  apply (proj2 (X18_ensure_ready_true _ _ _)). split.
  - vm_compute. reflexivity.
  - exists [], []. vm_compute. reflexivity.
Defined.

(** X20 at a failed installation whose standard error is no UTF-8. *)
Lemma X20_ensure_ready_undecodable_witness :
  ensure_poetry_project_ready (decoder_project_path Toy.paths)
    (ToyMain.world ToyMain.install_failed_garbled [])
  = (Raise UnicodeDecodeError,
     Toy.add_files [] (ToyMain.world ToyMain.install_failed_garbled []))
  /\ all_ready [decoder_project_path Toy.paths;
                restore_project_path Toy.paths]
       (ToyMain.world ToyMain.install_failed_garbled [])
     = (Raise UnicodeDecodeError,
        Toy.add_files [] (ToyMain.world ToyMain.install_failed_garbled [])).
Proof.
  apply (X20_ensure_ready_undecodable (decoder_project_path Toy.paths)
           [restore_project_path Toy.paths]
           (ToyMain.world ToyMain.install_failed_garbled []) _
           1 [] [199; 209]).
  - vm_compute. reflexivity.
  - vm_compute. reflexivity.
  - discriminate.
  - vm_compute. reflexivity.
Defined.

(** X21 at a report file that cannot be opened for writing. *)
Lemma X21_main_header_failure_witness :
  main Toy.config ToyMain.tools_config Toy.cli_args
    (ToyMain.world ToyMain.installed
       [ToyMain.report_path ++ Toy.L ".lock"])
  = (Ok (SystemExit 1),
     ToyMain.after_header
       (ToyMain.world ToyMain.installed
          [ToyMain.report_path ++ Toy.L ".lock"])).
Proof.
  apply (X21_main_header_failure Toy.config ToyMain.tools_config
           Toy.cli_args _
           (ToyMain.after_mkdir1
              (ToyMain.world ToyMain.installed
                 [ToyMain.report_path ++ Toy.L ".lock"]))
           (ToyMain.after_mkdir2
              (ToyMain.world ToyMain.installed
                 [ToyMain.report_path ++ Toy.L ".lock"])));
    vm_compute; reflexivity.
Defined.

(** X22 at a decoder project whose installation fails. *)
Lemma X22_main_tool_not_ready_witness :
  main Toy.config ToyMain.tools_config Toy.cli_args
    (ToyMain.world ToyMain.install_failed [])
  = (Ok (SystemExit 1),
     Toy.add_files []
       (ToyMain.after_header (ToyMain.world ToyMain.install_failed []))).
Proof.
  apply (X22_main_tool_not_ready Toy.config ToyMain.tools_config
           Toy.cli_args _
           (ToyMain.after_mkdir1 (ToyMain.world ToyMain.install_failed []))
           (ToyMain.after_mkdir2 (ToyMain.world ToyMain.install_failed []))
           (ToyMain.after_header (ToyMain.world ToyMain.install_failed [])));
    try (vm_compute; reflexivity).
  vm_compute. discriminate.
Defined.

(** X24 at the same run. *)
Lemma X24_main_exit_status_witness :
  1 = 1
  /\ exists w2,
       init_report (report_csv_path_of Toy.config
                      (getcwd (ToyMain.world ToyMain.install_failed [])))
         (path_parent (getcwd (ToyMain.world ToyMain.install_failed []))) w2
       = (Ok false,
          Toy.add_files []
            (ToyMain.after_header
               (ToyMain.world ToyMain.install_failed [])))
       \/ exists w3,
            init_report (report_csv_path_of Toy.config
                           (getcwd (ToyMain.world ToyMain.install_failed [])))
              (path_parent (getcwd (ToyMain.world ToyMain.install_failed [])))
              w2 = (Ok true, w3)
            /\ all_ready
                 [decoder_project_path
                    (make_paths Toy.config ToyMain.tools_config
                       (getcwd (ToyMain.world ToyMain.install_failed [])));
                  restore_project_path
                    (make_paths Toy.config ToyMain.tools_config
                       (getcwd (ToyMain.world ToyMain.install_failed [])))]
                 w3
               = (Ok false,
                  Toy.add_files []
                    (ToyMain.after_header
                       (ToyMain.world ToyMain.install_failed []))).
Proof.
  apply (X24_main_exit_status Toy.config ToyMain.tools_config Toy.cli_args
           (ToyMain.world ToyMain.install_failed [])).
  vm_compute. reflexivity.
Defined.

(** X23 at a report file that cannot be opened for appending. *)
Lemma X23_final_write_error_is_swallowed_witness :
  main_batch Toy.paths Toy.config Toy.cli_args ToyMain.submission_dir
    ToyMain.report_path ToyMain.batch_world
  = (Ok MainReturned, ToyMain.batch_w3).
Proof.
  apply (X23_final_write_error_is_swallowed Toy.paths Toy.config
           Toy.cli_args ToyMain.submission_dir ToyMain.report_path
           ToyMain.batch_map ToyMain.batch_dirs ToyMain.batch_futures
           WriteIOError ToyMain.batch_world ToyMain.batch_w1
           ToyMain.batch_w1 ToyMain.batch_w3 ToyMain.batch_w3).
  - vm_compute. reflexivity.
  - vm_compute. reflexivity.
  - vm_compute. reflexivity.
  - vm_compute. reflexivity.
  - right. reflexivity.
  - vm_compute. discriminate.
Defined.

Section Leftovers.

Context {W : Type} `{RT : Runtime W}.

(** X25: the decryption step does not clear what an earlier run left. A
    submission with neither encrypted file passes the decryption step,
    and if a decrypted log of an earlier run lies in its output directory
    and the restorer accepts it, the run goes on to the comparison with
    status ["OK"]. *)
Theorem X25_stale_decrypted_log paths config sd (w w0 w2 : W) arguments :
  mkdir_exist_ok (student_output_dir_abs paths sd) w = (Ok tt, w0) ->
  path_exists (log_encrypted_path_abs config sd) w0 = Ok false ->
  path_exists (signature_encrypted_path_abs config sd) w0 = Ok false ->
  path_exists (log_decrypted_path_abs paths config sd) w0 = Ok true ->
  restore_args paths (log_decrypted_path_abs paths config sd)
    (log_restored_path_abs paths config sd) = Ok arguments ->
  run_poetry_project (restore_project_path paths) K.mission_restore_main
    arguments w0 = (Ok true, w2) ->
  reaches_compare paths config sd w w2.
Proof.
  intros H0 Hlog Hsig Hdec Hargs Hres. exists w0, w0.
  split; [exact H0|]. split.
  - unfold files_to_decrypt. cbn [decrypt_files]. munfold.
    rewrite Hlog. cbn [negb]. rewrite Hsig. reflexivity.
  - unfold step_restore. rewrite eqb_refl. unfold bind at 1, reads.
    rewrite Hdec. cbn [negb]. unfold bind at 1, lift. rewrite Hargs.
    unfold bind. rewrite Hres. reflexivity.
Qed.

Lemma match_score_at_spec s digits :
  match_score_at s = Some digits ->
  digits <> []
  /\ Forall (fun c => is_digit c = true) digits
  /\ exists post, s = K.score_prefix ++ digits ++ K.score_suffix ++ post.
Proof.
  unfold match_score_at.
  destruct (Str.strip_prefix K.score_prefix s) as [rest|] eqn:E1;
    [|discriminate].
  destruct (Str.span is_digit rest) as [ds rest'] eqn:E2.
  destruct ds as [|d ds]; [discriminate|].
  destruct (Str.strip_prefix K.score_suffix rest') as [post|] eqn:E3;
    [|discriminate].
  intros [= <-].
  apply strip_prefix_Some in E1, E3.
  apply span_spec in E2 as (-> & Hall & _).
  split; [discriminate|]. split; [exact Hall|].
  exists post. rewrite E1, E3. reflexivity.
Qed.

(** X26: what the score pattern captures: a run of decimal digits that is
    not empty, standing in the output between the literal text of the
    pattern and [" / 100"]. As [-], [+] and [.] have no decimal value, no
    sign and no decimal point can be part of it; and as a decimal value is
    never negative, neither is the score read from it. *)
Theorem X26_score_pattern_match out digits :
  unicode_decimal 45 = None ->
  unicode_decimal 43 = None ->
  unicode_decimal 46 = None ->
  (forall c d, unicode_decimal c = Some d -> 0 <= d) ->
  score_pattern_search out = Some digits ->
  digits <> []
  /\ Forall (fun c => is_digit c = true) digits
  /\ Forall (fun c => c <> 45 /\ c <> 43 /\ c <> 46) digits
  /\ 0 <= decimal_value digits
  /\ exists pre post,
       out = pre ++ K.score_prefix ++ digits ++ K.score_suffix ++ post.
Proof.
  intros Hminus Hplus Hpoint Hdec H.
  assert (G : digits <> []
              /\ Forall (fun c => is_digit c = true) digits
              /\ exists pre post,
                   out = pre ++ K.score_prefix ++ digits
                           ++ K.score_suffix ++ post).
  { revert H. induction out as [|x out IH]; cbn [score_pattern_search].
    - destruct (match_score_at []) as [g|] eqn:E; [|discriminate].
      intros [= ->].
      apply match_score_at_spec in E as (Hne & Hall & post & E).
      split; [exact Hne|]. split; [exact Hall|]. exists [], post. exact E.
    - destruct (match_score_at (x :: out)) as [g|] eqn:E.
      + intros [= ->].
        apply match_score_at_spec in E as (Hne & Hall & post & E).
        split; [exact Hne|]. split; [exact Hall|]. exists [], post.
        exact E.
      + intros H. destruct (IH H) as (Hne & Hall & pre & post & ->).
        split; [exact Hne|]. split; [exact Hall|].
        exists (x :: pre), post. reflexivity. }
  destruct G as (Hne & Hall & Hpos).
  split; [exact Hne|]. split; [exact Hall|]. split; [|split].
  - eapply Forall_impl; [exact Hall|]. cbn. intros c Hc.
    unfold is_digit in Hc.
    split_conj; intros ->;
      [rewrite Hminus in Hc | rewrite Hplus in Hc | rewrite Hpoint in Hc];
      discriminate.
  - apply decimal_value_nonneg. exact Hdec.
  - exact Hpos.
Qed.

End Leftovers.

(** X25 at [student-03], whose output directory holds an old decrypted
    log. *)
Lemma X25_stale_decrypted_log_witness :
  reaches_compare Toy.paths Toy.config Toy2.student_03 Toy2.world_stale
    Toy2.w2_stale.
Proof.
  apply (X25_stale_decrypted_log Toy.paths Toy.config Toy2.student_03
           Toy2.world_stale Toy2.w0_stale Toy2.w2_stale
           [Toy.output "student-03" "log.decrypted";
            Toy.output "student-03" "restored.py"]);
    vm_compute; reflexivity.
Defined.

(** X26 at the output of the inspector that prints 150. *)
Lemma X26_score_pattern_match_witness :
  Toy.L "150" <> []
  /\ Forall (fun c => is_digit c = true) (Toy.L "150")
  /\ Forall (fun c => c <> 45 /\ c <> 43 /\ c <> 46) (Toy.L "150")
  /\ 0 <= decimal_value (Toy.L "150")
  /\ exists pre post,
       K.score_prefix ++ Toy.L "150 / 100" ++ [10]
       = pre ++ K.score_prefix ++ Toy.L "150" ++ K.score_suffix ++ post.
Proof.
  apply (X26_score_pattern_match (RT := Toy.runtime)
           (K.score_prefix ++ Toy.L "150 / 100" ++ [10])).
  - reflexivity.
  - reflexivity.
  - reflexivity.
  - intros c d. cbn. unfold Toy.ascii_decimal.
    destruct (Z.leb_spec 48 c); cbn; [|discriminate].
    destruct (c <=? 57); [|discriminate]. intros [= <-]. lia.
  - vm_compute. reflexivity.
Defined.

Section MainOutside.

Context {W : Type} `{RT : Runtime W} `{MRT : MainRuntime W}.

(** X27: when the report file does not lie under the root directory (the
    parent of the working directory), [main] is stopped by its own log
    message: right after the header is written, formatting the location of
    the report relative to the root raises [ValueError], which no clause
    catches. *)
Theorem X27_main_report_outside_root config tools_config cli_args
    (w w1 w2 w3 : W) :
  mkdir_parents
    (processed_base_dir (make_paths config tools_config (getcwd w))) w
  = (Ok tt, w1) ->
  mkdir_parents (report_dir_of config (getcwd w)) w1 = (Ok tt, w2) ->
  write_header (report_csv_path_of config (getcwd w)) report_headers w2
  = (Written, w3) ->
  relative_to (report_csv_path_of config (getcwd w))
    (path_parent (getcwd w)) = None ->
  main config tools_config cli_args w = (Raise ValueError, w3).
Proof.
  intros H1 H2 H3 Hrel. rewrite (main_unfold _ _ _ _ _ _ H1 H2).
  unfold bind at 1, init_report. rewrite H3.
  unfold log_report_location. rewrite Hrel. reflexivity.
Qed.

End MainOutside.

(** X27 at a configuration whose [output_base] is an absolute path. *)
Lemma X27_main_report_outside_root_witness :
  main (RT := ToyMain.runtime_abs) ToyMain.config_abs ToyMain.tools_config
    Toy.cli_args (ToyMain.world ToyMain.installed [])
  = (Raise ValueError,
     Toy.add_files [Toy.L "/srv/out/report/report.csv"]
       (Toy.add_files [Toy.L "/srv/out/report"]
          (Toy.add_files [Toy.L "/srv/out/processed"]
             (ToyMain.world ToyMain.installed [])))).
Proof.
  apply (X27_main_report_outside_root (RT := ToyMain.runtime_abs)
           ToyMain.config_abs ToyMain.tools_config Toy.cli_args _
           (Toy.add_files [Toy.L "/srv/out/processed"]
              (ToyMain.world ToyMain.installed []))
           (Toy.add_files [Toy.L "/srv/out/report"]
              (Toy.add_files [Toy.L "/srv/out/processed"]
                 (ToyMain.world ToyMain.installed []))));
    vm_compute; reflexivity.
Defined.
